(** * Agenda de Trabajo: data access, queries and cache of [app_agenda_streamlit.py]

    A shallow embedding of the persistence layer of the agenda application
    (two SQLite tables, the CRUD functions over them, the two cached read
    queries, the month arithmetic and the monthly summary), followed by the
    properties of that layer.

    Conventions of the model.
    - A table with an [INTEGER PRIMARY KEY] is a finite map from rowid to
      row ([gmap Z row]).  SQL [NULL] and Python [None] are [None].
    - Text is [string]; text comparison is SQLite's BINARY collation, that
      is [String.compare].
    - An amount is a number with an integer value.  The [REAL] column
      [amount] holds the float nearest to the number it is given
      ([nearest_double]), written as the integer it equals; amounts with a
      fractional part are outside the model.
    - An integer handed to a statement is bound as a signed 64-bit integer;
      the [sqlite3] module raises [OverflowError] for any other integer.
    - Wall-clock time is an integer count of milliseconds.
    - Three things the libraries decide are parameters of the development:
      SQLite's [date()], Python's [str.strip], and the order in which
      SQLite returns the rows that are equal on the keys of an [ORDER BY]
      clause. *)

From Stdlib Require Import ZArith String Ascii List Sorted Permutation Lia.
From stdpp Require Import base option list gmap strings sorting.

Local Open Scope Z_scope.

(** * Part I: the model *)

(** ** Python's [datetime.date] *)

Module Py.

Definition MINYEAR : Z := 1.
Definition MAXYEAR : Z := 9999.

Record date := Date { year : Z; month : Z; day : Z }.

Definition is_leap (y : Z) : bool :=
  (y mod 4 =? 0) && (negb (y mod 100 =? 0) || (y mod 400 =? 0)).

Definition days_in_month (y m : Z) : Z :=
  if m =? 2 then (if is_leap y then 29 else 28)
  else if (m =? 4) || (m =? 6) || (m =? 9) || (m =? 11) then 30
  else 31.

(** [date(y, m, d)]: [None] stands for the [ValueError] raised when a
    field is out of range. *)
Definition date_new (y m d : Z) : option date :=
  if (MINYEAR <=? y) && (y <=? MAXYEAR)
     && (1 <=? m) && (m <=? 12)
     && (1 <=? d) && (d <=? days_in_month y m)
  then Some (Date y m d) else None.

Definition digit (n : Z) : ascii := ascii_of_N (48 + Z.to_N (n mod 10)).

Definition pad2 (n : Z) : string :=
  String (digit (n / 10)) (String (digit n) EmptyString).

Definition pad4 (n : Z) : string :=
  String (digit (n / 1000)) (String (digit (n / 100)) (pad2 n)).

(** [d.isoformat()], i.e. ["%04d-%02d-%02d"]. *)
Definition isoformat (d : date) : string :=
  (pad4 (year d) ++ "-" ++ pad2 (month d) ++ "-" ++ pad2 (day d))%string.

(** [t.strftime("%H:%M")] for a clock time given by hour and minute. *)
Definition strftime_HM (hh mm : Z) : string :=
  (pad2 hh ++ ":" ++ pad2 mm)%string.

(** Truth value of an optional text: [None] and the empty text are false. *)
Definition truthy (o : option string) : bool :=
  match o with
  | Some s => negb (String.eqb s EmptyString)
  | None => false
  end.

End Py.

(** ** [month_bounds] (lines 125-131) *)

Definition month_bounds (year month : Z) : option (Py.date * Py.date) :=
  first ← Py.date_new year month 1;
  nxt ← (if month =? 12 then Py.date_new (year + 1) 1 1
         else Py.date_new year (month + 1) 1);
  Some (first, nxt).

(** ** What the libraries decide, taken as parameters

    [sqlite_date] is SQLite's [date(X)]: the normalised ["YYYY-MM-DD"] text
    of a time value, [NULL] when [X] is not one.  [py_strip] is Python's
    [str.strip()].  [order_by le rows] is the order in which SQLite returns
    [rows] for an [ORDER BY] clause whose keys compare as [le]: SQLite
    returns the rows in ascending order of the keys and leaves the order of
    rows that are equal on the keys open (see [sorts]). *)

Class Runtime := {
  sqlite_date : string → option string;
  py_strip : string → string;
  order_by : ∀ A : Type, (A → A → bool) → list A → list A
}.
Arguments order_by {_ A} le l.

(** What [ORDER BY] promises, for keys whose comparison is a total
    preorder: the rows it was given, in ascending order of the keys. *)
Definition sorts {RT : Runtime} : Prop :=
  ∀ (A : Type) (le : A → A → bool) (l : list A),
    order_by le l ≡ₚ l
    ∧ ((∀ x y z, le x y = true → le y z = true → le x z = true) →
       (∀ x y, le x y = true ∨ le y x = true) →
       StronglySorted (λ x y, le x y = true) (order_by le l)).

(** Two runtimes to execute the model on concrete data.  [iso_date] is
    the identity on the ten-character texts that [Py.isoformat] produces
    and [NULL] on every other text (SQLite's own function reads further
    formats and normalises some dates); [ascii_strip] removes ASCII white
    space at both ends (Python's function removes other white space too).
    [insertion_sort] leaves the rows that are equal on the keys in the
    order they came in, which for the queries below is ascending key;
    [reverse_ties] leaves them in the opposite order. *)

Fixpoint insert_row {A} (le : A → A → bool) (x : A) (l : list A) : list A :=
  match l with
  | [] => [x]
  | y :: l' => if le x y then x :: y :: l' else y :: insert_row le x l'
  end.

Fixpoint insertion_sort {A} (le : A → A → bool) (l : list A) : list A :=
  match l with
  | [] => []
  | x :: l' => insert_row le x (insertion_sort le l')
  end.


Definition is_digit (c : ascii) : bool :=
  let n := N_of_ascii c in ((48 <=? n) && (n <=? 57))%N.

Definition digit_val (c : ascii) : Z := Z.of_N (N_of_ascii c) - 48.

Definition iso_date (s : string) : option string :=
  match list_ascii_of_string s with
  | [y1; y2; y3; y4; s1; m1; m2; s2; d1; d2] =>
      if forallb is_digit [y1; y2; y3; y4; m1; m2; d1; d2]
         && Ascii.eqb s1 "-" && Ascii.eqb s2 "-"
      then
        let y := 1000 * digit_val y1 + 100 * digit_val y2
                 + 10 * digit_val y3 + digit_val y4 in
        let m := 10 * digit_val m1 + digit_val m2 in
        let d := 10 * digit_val d1 + digit_val d2 in
        match Py.date_new y m d with
        | Some _ => Some s
        | None => None
        end
      else None
  | _ => None
  end.

Definition is_space (c : ascii) : bool :=
  let n := N_of_ascii c in
  ((n =? 32) || ((9 <=? n) && (n <=? 13)) || ((28 <=? n) && (n <=? 31)))%N.

Fixpoint lstrip (s : string) : string :=
  match s with
  | String c s' => if is_space c then lstrip s' else s
  | EmptyString => EmptyString
  end.

Fixpoint rstrip (s : string) : string :=
  match s with
  | String c s' =>
      match rstrip s' with
      | EmptyString => if is_space c then EmptyString else String c EmptyString
      | t => String c t
      end
  | EmptyString => EmptyString
  end.

Definition ascii_strip (s : string) : string := rstrip (lstrip s).

Definition reference_runtime : Runtime :=
  {| sqlite_date := iso_date; py_strip := ascii_strip;
     order_by := @insertion_sort |}.


(** ** Outcomes *)

Inductive outcome (E A : Type) : Type :=
| Ok (a : A)
| Raise (e : E).
Arguments Ok {E A} a.
Arguments Raise {E A} e.

(** What a call of the [sqlite3] module raises: [sqlite3.IntegrityError]
    (a NOT NULL or CHECK constraint failed), [sqlite3.OperationalError]
    (no rowid left, a full disk, a lock that was not obtained), and
    Python's [OverflowError] (an integer handed to a statement does not
    fit in 64 bits). *)
Inductive sql_error := IntegrityError | OperationalError | OverflowError.

(** ** Numbers

    An integer is bound to a parameter of a statement as a signed 64-bit
    integer. *)
Definition int64 (z : Z) : Prop :=
  -9223372036854775808 <= z <= 9223372036854775807.

#[global] Instance int64_dec (z : Z) : Decision (int64 z).
Proof. unfold int64. apply _. Defined.

(** A Python number with an integer value: the [int] [z], or the [float]
    nearest to [x]. *)
Inductive number := Int (z : Z) | Float (x : Z).

(** The float (IEEE 754 binary64, 53 significant bits) nearest to an
    integer, halves to the even neighbour; the exponent range is not
    modelled. *)
Definition nearest_double (z : Z) : Z :=
  let a := Z.abs z in
  if a <? 2 ^ 53 then z
  else
    let e := Z.log2 a - 52 in
    let q := a / 2 ^ e in
    let r := a mod 2 ^ e in
    let half := 2 ^ (e - 1) in
    let q' := if (half <? r) || ((r =? half) && Z.odd q) then q + 1 else q in
    Z.sgn z * (q' * 2 ^ e).

(** The value of a number, and the value a [REAL] column keeps of it. *)
Definition number_value (n : number) : Z :=
  match n with
  | Int z => z
  | Float x => nearest_double x
  end.

Definition to_real (n : number) : Z :=
  match n with
  | Int z => nearest_double z
  | Float x => nearest_double x
  end.

(** Whether the [sqlite3] module binds the value: every text, float and
    [None], and the integers of 64 bits. *)
Definition binds_int (z : Z) : bool := bool_decide (int64 z).

Definition binds_key (c : option Z) : bool :=
  match c with
  | Some z => binds_int z
  | None => true
  end.

Definition binds_number (a : option number) : bool :=
  match a with
  | Some (Int z) => binds_int z
  | _ => true
  end.

(** ** The two tables (SCHEMA, lines 11-30) *)

Module Client.
Record row := Row {
  name : string;
  phone : option string;
  address : option string;
  notes : option string
}.
End Client.

Module Service.
Record row := Row {
  service_date : string;
  service_time : option string;
  client_id : option Z;
  service_type : option string;
  amount : option Z;
  status : option string;
  notes : option string
}.

Definition set_client_id (c : option Z) (r : row) : row :=
  {| service_date := service_date r; service_time := service_time r;
     client_id := c; service_type := service_type r; amount := amount r;
     status := status r; notes := notes r |}.
End Service.

(** [clients_seq] and [services_seq] are the two rows of [sqlite_sequence]
    kept for the AUTOINCREMENT keys.  Foreign keys are declared but not
    enforced: no connection of the program issues [PRAGMA foreign_keys]. *)
Record store := Store {
  clients : gmap Z Client.row;
  services : gmap Z Service.row;
  clients_seq : Z;
  services_seq : Z
}.

Definition empty_store : store := Store ∅ ∅ 0 0.

(** [init_db] (lines 32-39): [CREATE TABLE IF NOT EXISTS] on a database
    file that may not exist yet. *)
Definition init_db (file : option store) : store := default empty_store file.

Definition MAX_ROWID : Z := 9223372036854775807.

Definition max_rowid {A} (t : gmap Z A) : Z :=
  map_fold (λ k _ acc, Z.max k acc) 0 t.

(** The key of a new row of an AUTOINCREMENT table: one more than the
    largest key the table ever held. *)
Definition new_rowid {A} (seq : Z) (t : gmap Z A) : outcome sql_error Z :=
  let top := Z.max seq (max_rowid t) in
  if top <? MAX_ROWID then Ok (top + 1) else Raise OperationalError.

(** [CHECK(status IN ('Pagado','Pendiente'))]: a check fails only when its
    expression is false, and on [NULL] the expression is [NULL]. *)
Definition status_check (s : option string) : bool :=
  match s with
  | None => true
  | Some v => String.eqb v "Pagado" || String.eqb v "Pendiente"
  end.

(** The row an INSERT or UPDATE of [services] writes, after the
    [NOT NULL] constraint of [service_date] and the [CHECK] of [status];
    the column [amount REAL] turns the number into a float. *)
Definition service_row (service_date service_time : option string)
    (client_id : option Z) (service_type : option string)
    (amount : option number) (status notes : option string)
  : outcome sql_error Service.row :=
  match service_date with
  | None => Raise IntegrityError
  | Some d =>
      if status_check status
      then Ok (Service.Row d service_time client_id service_type
                 (to_real <$> amount) status notes)
      else Raise IntegrityError
  end.

(** ** SQL statements of the data access functions *)

Inductive stmt :=
| InsertClient (name phone address notes : string)
| UpdateClient (id : Z) (name phone address notes : string)
| DetachServices (client_id : Z)
| DeleteClient (id : Z)
| InsertService (service_date service_time : option string)
    (client_id : option Z) (service_type : option string)
    (amount : option number) (status notes : option string)
| UpdateService (id : Z) (service_date service_time : option string)
    (client_id : option Z) (service_type : option string)
    (amount : option number) (status notes : option string)
| DeleteService (id : Z).

(** The values of a statement are bound before the statement runs. *)
Definition binds (s : stmt) : bool :=
  match s with
  | InsertClient _ _ _ _ => true
  | UpdateClient id _ _ _ _ | DetachServices id | DeleteClient id
  | DeleteService id => binds_int id
  | InsertService _ _ c _ a _ _ => binds_key c && binds_number a
  | UpdateService id _ _ c _ a _ _ =>
      binds_int id && binds_key c && binds_number a
  end.

Definition detach (cid : Z) (r : Service.row) : Service.row :=
  if decide (Service.client_id r = Some cid)
  then Service.set_client_id None r else r.

(** The statement on the store, its values bound. *)
Definition exec_bound (s : stmt) (st : store) : outcome sql_error store :=
  match s with
  | InsertClient name phone address notes =>
      match new_rowid (clients_seq st) (clients st) with
      | Raise e => Raise e
      | Ok k =>
          Ok (Store (<[k := Client.Row name (Some phone) (Some address)
                             (Some notes)]> (clients st))
                (services st) k (services_seq st))
      end
  | UpdateClient id name phone address notes =>
      match clients st !! id with
      | None => Ok st
      | Some _ =>
          Ok (Store (<[id := Client.Row name (Some phone) (Some address)
                              (Some notes)]> (clients st))
                (services st) (clients_seq st) (services_seq st))
      end
  | DetachServices cid =>
      Ok (Store (clients st) (detach cid <$> services st)
            (clients_seq st) (services_seq st))
  | DeleteClient id =>
      Ok (Store (delete id (clients st)) (services st)
            (clients_seq st) (services_seq st))
  | InsertService d t c ty a s n =>
      match new_rowid (services_seq st) (services st) with
      | Raise e => Raise e
      | Ok k =>
          match service_row d t c ty a s n with
          | Raise e => Raise e
          | Ok r =>
              Ok (Store (clients st) (<[k := r]> (services st))
                    (clients_seq st) k)
          end
      end
  | UpdateService id d t c ty a s n =>
      match services st !! id with
      | None => Ok st
      | Some _ =>
          match service_row d t c ty a s n with
          | Raise e => Raise e
          | Ok r =>
              Ok (Store (clients st) (<[id := r]> (services st))
                    (clients_seq st) (services_seq st))
          end
      end
  | DeleteService id =>
      Ok (Store (clients st) (delete id (services st))
            (clients_seq st) (services_seq st))
  end.

(** [cur.execute(sql, values)] *)
Definition exec_stmt (s : stmt) (st : store) : outcome sql_error store :=
  if binds s then exec_bound s st else Raise OverflowError.

(** ** Connections and transactions

    [sqlite3.connect] in its default mode opens a transaction before the
    first INSERT, UPDATE or DELETE; the statements that follow join it;
    [commit] makes them durable together; closing the connection, or the
    death of the process, discards what was not committed. *)

Record connection := Connection {
  durable : store;
  pending : option store
}.

Definition connect (file : store) : connection := Connection file None.

Definition view (con : connection) : store :=
  default (durable con) (pending con).

Definition execute (s : stmt) (con : connection)
  : outcome sql_error connection :=
  match exec_stmt s (view con) with
  | Ok st => Ok (Connection (durable con) (Some st))
  | Raise e => Raise e
  end.

Definition commit (con : connection) : connection :=
  Connection (view con) None.

Definition close (con : connection) : store := durable con.

Inductive step := Execute (s : stmt) | Commit.

(** Runs the steps in order and stops at the first one that raises. *)
Fixpoint run (steps : list step) (con : connection)
  : connection * outcome sql_error unit :=
  match steps with
  | [] => (con, Ok tt)
  | Execute s :: rest =>
      match execute s con with
      | Ok con' => run rest con'
      | Raise e => (con, Raise e)
      end
  | Commit :: rest => run rest (commit con)
  end.

(** [with closing(sqlite3.connect(DB_PATH)) as con: ...]: the database
    file after the block, and whether the block raised. *)
Definition with_connection (steps : list step) (file : store)
  : store * outcome sql_error unit :=
  let '(con, r) := run steps (connect file) in (close con, r).

(** The database file found after the process stopped (a crash, a kill,
    a power cut) once the first [k] steps of the block were done. *)
Definition interrupted (k : nat) (steps : list step) (file : store) : store :=
  close (run (take k steps) (connect file)).1.

(** The block when its step number [fault] (counted from 0) fails for a
    reason of its environment (the disk, a lock): the step raises and has
    no effect. *)
Fixpoint run_faulty (fault : nat) (steps : list step) (con : connection)
  {struct steps} : connection * outcome sql_error unit :=
  match steps, fault with
  | [], _ => (con, Ok tt)
  | _ :: _, O => (con, Raise OperationalError)
  | Execute s :: rest, S fault' =>
      match execute s con with
      | Ok con' => run_faulty fault' rest con'
      | Raise e => (con, Raise e)
      end
  | Commit :: rest, S fault' => run_faulty fault' rest (commit con)
  end.

Definition with_connection_faulty (fault : nat) (steps : list step)
    (file : store) : store * outcome sql_error unit :=
  let '(con, r) := run_faulty fault steps (connect file) in (close con, r).

(** ** The data access functions (lines 64-119) *)

Section DataAccess.
Context {RT : Runtime}.

Definition add_client (name phone address notes : string)
  : store → store * outcome sql_error unit :=
  with_connection
    [Execute (InsertClient (py_strip name) (py_strip phone)
                (py_strip address) (py_strip notes));
     Commit].

Definition update_client (client_id : Z) (name phone address notes : string)
  : store → store * outcome sql_error unit :=
  with_connection
    [Execute (UpdateClient client_id (py_strip name) (py_strip phone)
                (py_strip address) (py_strip notes));
     Commit].

Definition delete_client_steps (client_id : Z) : list step :=
  [Execute (DetachServices client_id);
   Execute (DeleteClient client_id);
   Commit].

Definition delete_client (client_id : Z)
  : store → store * outcome sql_error unit :=
  with_connection (delete_client_steps client_id).

Definition add_service (service_date service_time : option string)
    (client_id : option Z) (service_type : option string)
    (amount : option number) (status notes : option string)
  : store → store * outcome sql_error unit :=
  with_connection
    [Execute (InsertService service_date service_time client_id service_type
                amount status notes);
     Commit].

(** The dictionary of the row, its key first; [None] when no row has the
    key.  The key is bound like the values of the other statements. *)
Definition get_service_by_id (service_id : Z) (file : store)
  : outcome sql_error (option (Z * Service.row)) :=
  if binds_int service_id
  then Ok (row ← services file !! service_id; Some (service_id, row))
  else Raise OverflowError.

Definition update_service (service_id : Z)
    (service_date service_time : option string)
    (client_id : option Z) (service_type : option string)
    (amount : option number) (status notes : option string)
  : store → store * outcome sql_error unit :=
  with_connection
    [Execute (UpdateService service_id service_date service_time client_id
                service_type amount status notes);
     Commit].

Definition delete_service (service_id : Z)
  : store → store * outcome sql_error unit :=
  with_connection [Execute (DeleteService service_id); Commit].

(** A call of one of the six writing functions, and a sequence of calls
    (a call that raises leaves the file as it was, the next call goes on). *)
Inductive dal_op :=
| OpAddClient (name phone address notes : string)
| OpUpdateClient (client_id : Z) (name phone address notes : string)
| OpDeleteClient (client_id : Z)
| OpAddService (service_date service_time : option string)
    (client_id : option Z) (service_type : option string)
    (amount : option number) (status notes : option string)
| OpUpdateService (service_id : Z) (service_date service_time : option string)
    (client_id : option Z) (service_type : option string)
    (amount : option number) (status notes : option string)
| OpDeleteService (service_id : Z).

Definition run_op (o : dal_op) : store → store * outcome sql_error unit :=
  match o with
  | OpAddClient n p a t => add_client n p a t
  | OpUpdateClient i n p a t => update_client i n p a t
  | OpDeleteClient i => delete_client i
  | OpAddService d t c ty a s n => add_service d t c ty a s n
  | OpUpdateService i d t c ty a s n => update_service i d t c ty a s n
  | OpDeleteService i => delete_service i
  end.

Definition run_ops (ops : list dal_op) (file : store) : store :=
  foldl (λ st o, (run_op o st).1) file ops.

End DataAccess.

(** ** The two read queries (lines 44 and 48-55) *)

(** The rows of a table, listed in ascending rowid order. *)
Definition rowid_le {A} (a b : Z * A) : Prop := a.1 <= b.1.

#[global] Instance rowid_le_dec {A} (a b : Z * A) : Decision (rowid_le a b).
Proof. unfold rowid_le. apply _. Defined.

Definition table_scan {A} (t : gmap Z A) : list (Z * A) :=
  merge_sort rowid_le (map_to_list t).

(** [SELECT id, name, phone, address, notes FROM clients ORDER BY name] *)
Definition by_name (a b : Z * Client.row) : bool :=
  String.leb (Client.name a.2) (Client.name b.2).

Definition select_clients {RT : Runtime} (file : store)
  : list (Z * Client.row) :=
  order_by by_name (table_scan (clients file)).

(** A row of [services s LEFT JOIN clients c ON c.id = s.client_id]: the
    service with its key, and the three columns taken from the client. *)
Module Joined.
Record row := Row {
  id : Z;
  service : Service.row;
  client : option string;
  phone : option string;
  address : option string
}.
End Joined.

Definition left_join (cs : gmap Z Client.row) (s : Z * Service.row)
  : Joined.row :=
  let c := Service.client_id s.2 ≫= (cs !!.) in
  Joined.Row s.1 s.2 (Client.name <$> c) (c ≫= Client.phone)
    (c ≫= Client.address).

(** Comparisons and conjunction of SQL, with [NULL] as [None]. *)
Definition sql_ge (a b : option string) : option bool :=
  match a, b with
  | Some x, Some y => Some (String.leb y x)
  | _, _ => None
  end.

Definition sql_lt (a b : option string) : option bool :=
  match a, b with
  | Some x, Some y => Some (String.ltb x y)
  | _, _ => None
  end.

Definition sql_and (a b : option bool) : option bool :=
  match a, b with
  | Some false, _ | _, Some false => Some false
  | Some true, Some true => Some true
  | _, _ => None
  end.

(** A WHERE clause keeps the rows on which it is true. *)
Definition sql_true (v : option bool) : bool :=
  match v with Some true => true | _ => false end.

(** [ORDER BY s.service_date, s.service_time]; [NULL] sorts before every
    text. *)
Definition time_leb (a b : option string) : bool :=
  match a, b with
  | None, _ => true
  | Some _, None => false
  | Some x, Some y => String.leb x y
  end.

Definition by_date_time (a b : Joined.row) : bool :=
  match String.compare (Service.service_date (Joined.service a))
          (Service.service_date (Joined.service b)) with
  | Lt => true
  | Gt => false
  | Eq => time_leb (Service.service_time (Joined.service a))
            (Service.service_time (Joined.service b))
  end.

Section Queries.
Context {RT : Runtime}.

(** [date(s.service_date) >= date(?) AND date(s.service_date) < date(?)] *)
Definition where_range (start end_ : string) (r : Joined.row) : bool :=
  let d := sqlite_date (Service.service_date (Joined.service r)) in
  sql_true (sql_and (sql_ge d (sqlite_date start))
                    (sql_lt d (sqlite_date end_))).

(** The body of [get_services_df].  The conversion of the [service_date]
    column for display (lines 55-61) acts on each cell by itself and is
    not part of the model: rows keep the stored text. *)
Definition select_services (start end_ : option string) (file : store)
  : list Joined.row :=
  let joined := left_join (clients file) <$> table_scan (services file) in
  let kept :=
    match start, end_ with
    | Some s, Some e =>
        if Py.truthy start && Py.truthy end_
        then List.filter (where_range s e) joined else joined
    | _, _ => joined
    end in
  order_by by_date_time kept.

End Queries.

(** ** The cache in front of the two queries (lines 41, 46, 121-123) *)

Record cached (A : Type) := Cached { value : A; stored_at : Z }.
Arguments Cached {A} value stored_at.
Arguments value {A} c.
Arguments stored_at {A} c.

(** [ttl=5.0], in milliseconds. *)
Definition TTL : Z := 5000.

Definition fresh {A} (now : Z) (e : cached A) : bool :=
  now <? stored_at e + TTL.

Inductive family := ClientQueries | ServiceQueries.

Inductive event :=
| EvWrite (o : dal_op)
| EvClear (f : family)
| EvQuery (f : family).

(** The state of the running application: the database file, the two
    caches (the second one keyed by the arguments of the call), and the
    record of what was done, oldest first. *)
Record world := World {
  db : store;
  clients_cache : option (cached (list (Z * Client.row)));
  services_cache :
    gmap (option string * option string) (cached (list Joined.row));
  log : list event
}.

Inductive exn := SqlError (e : sql_error) | IndexError | StopScript.

Definition ui (A : Type) : Type := world → world * outcome exn A.

#[global] Instance ui_ret : MRet ui := λ A a w, (w, Ok a).

#[global] Instance ui_bind : MBind ui := λ A B k m w,
  match m w with
  | (w', Ok a) => k a w'
  | (w', Raise e) => (w', Raise e)
  end.

Definition raise {A} (e : exn) : ui A := λ w, (w, Raise e).

(** [l.iloc[0]] *)
Definition iloc0 {A} (l : list A) : ui A :=
  match l with
  | x :: _ => mret x
  | [] => raise IndexError
  end.

Section Application.
Context {RT : Runtime}.

(** A call of a writing function from the interface. *)
Definition dal (o : dal_op) : ui unit := λ w,
  match run_op o (db w) with
  | (file, Ok _) =>
      (World file (clients_cache w) (services_cache w) (log w ++ [EvWrite o]),
       Ok tt)
  | (file, Raise e) =>
      (World file (clients_cache w) (services_cache w) (log w),
       Raise (SqlError e))
  end.

Definition update_cache : ui unit := λ w,
  (World (db w) None ∅
     (log w ++ [EvClear ClientQueries; EvClear ServiceQueries]),
   Ok tt).

(** The cached functions; [now] is the reading of the clock at the call. *)
Definition get_clients_df (now : Z) : ui (list (Z * Client.row)) := λ w,
  let miss :=
    let rows := select_clients (db w) in
    (World (db w) (Some (Cached rows now)) (services_cache w)
       (log w ++ [EvQuery ClientQueries]),
     Ok rows) in
  match clients_cache w with
  | Some e => if fresh now e then (w, Ok (value e)) else miss
  | None => miss
  end.

Definition get_services_df (now : Z) (start end_ : option string)
  : ui (list Joined.row) := λ w,
  let miss :=
    let rows := select_services start end_ (db w) in
    (World (db w) (clients_cache w)
       (<[(start, end_) := Cached rows now]> (services_cache w))
       (log w ++ [EvQuery ServiceQueries]),
     Ok rows) in
  match services_cache w !! (start, end_) with
  | Some e => if fresh now e then (w, Ok (value e)) else miss
  | None => miss
  end.

(** *** The six places of [main] that write *)

(** "Guardar cliente nuevo" (lines 186-192) *)
Definition guardar_cliente_nuevo (new_name new_phone new_address
    new_notes : string) : ui unit :=
  if String.eqb (py_strip new_name) EmptyString then mret tt
  else
    dal (OpAddClient new_name new_phone new_address new_notes);;
    update_cache.

(** "Agregar servicio a la Agenda" (lines 206-219); [client_id] is the
    value line 179 or 195 gave it, [amount] the value of a number input
    whose lower bound is 0, handed on as [float(amount)]. *)
Definition agregar_servicio (now : Z) (client_choice : string)
    (client_id : option Z) (new_name new_phone new_address new_notes : string)
    (service_date : Py.date) (hh mm : Z) (service_type : string)
    (amount : Z) (status notes : string) : ui unit :=
  client_id ←
    (if String.eqb client_choice "(Nuevo cliente)" then
       if String.eqb (py_strip new_name) EmptyString then raise StopScript
       else
         dal (OpAddClient new_name new_phone new_address new_notes);;
         update_cache;;
         clients_df ← get_clients_df now;
         client_row ←
           iloc0 (List.filter (λ r, String.eqb (Client.name r.2) new_name)
                    clients_df);
         mret (Some client_row.1)
     else mret client_id);
  dal (OpAddService (Some (Py.isoformat service_date))
         (Some (Py.strftime_HM hh mm)) client_id
         (Some (py_strip service_type)) (Some (Float amount)) (Some status)
         (Some (py_strip notes)));;
  update_cache.

(** "Guardar cambios" of a service (lines 278-285); [client_map] is the
    dictionary of line 265. *)
Definition guardar_cambios_servicio (selected_id : Z)
    (client_map : gmap string Z) (client_name_edit : string)
    (service_date_edit : Py.date) (hh mm : Z) (service_type_edit : string)
    (amount_edit : Z) (status_edit notes_edit : string) : ui unit :=
  let new_client_id :=
    if String.eqb client_name_edit "(Sin cliente)" then None
    else client_map !! client_name_edit in
  dal (OpUpdateService selected_id (Some (Py.isoformat service_date_edit))
         (Some (Py.strftime_HM hh mm)) new_client_id
         (Some (py_strip service_type_edit)) (Some (Float amount_edit))
         (Some status_edit) (Some (py_strip notes_edit)));;
  update_cache.

(** "Eliminar servicio" (lines 286-289) *)
Definition eliminar_servicio (selected_id : Z) : ui unit :=
  dal (OpDeleteService selected_id);;
  update_cache.

(** "Guardar cambios (cliente)" (lines 318-321) *)
Definition guardar_cambios_cliente (cid : Z) (name_edit phone_edit
    address_edit notes_edit : string) : ui unit :=
  dal (OpUpdateClient cid name_edit phone_edit address_edit notes_edit);;
  update_cache.

(** "Eliminar cliente" (lines 322-325) *)
Definition eliminar_cliente (cid : Z) : ui unit :=
  dal (OpDeleteClient cid);;
  update_cache.

(** A press of one of the six buttons, with the values of its form. *)
Inductive button :=
| GuardarClienteNuevo (new_name new_phone new_address new_notes : string)
| AgregarServicio (now : Z) (client_choice : string) (client_id : option Z)
    (new_name new_phone new_address new_notes : string)
    (service_date : Py.date) (hh mm : Z) (service_type : string)
    (amount : Z) (status notes : string)
| GuardarCambiosServicio (selected_id : Z) (client_map : gmap string Z)
    (client_name_edit : string) (service_date_edit : Py.date) (hh mm : Z)
    (service_type_edit : string) (amount_edit : Z)
    (status_edit notes_edit : string)
| EliminarServicio (selected_id : Z)
| GuardarCambiosCliente (cid : Z) (name_edit phone_edit address_edit
    notes_edit : string)
| EliminarCliente (cid : Z).

Definition press (b : button) : ui unit :=
  match b with
  | GuardarClienteNuevo n p a t => guardar_cliente_nuevo n p a t
  | AgregarServicio now ch c n p a t d hh mm ty am s no =>
      agregar_servicio now ch c n p a t d hh mm ty am s no
  | GuardarCambiosServicio i cm ce d hh mm ty am s no =>
      guardar_cambios_servicio i cm ce d hh mm ty am s no
  | EliminarServicio i => eliminar_servicio i
  | GuardarCambiosCliente i n p a t => guardar_cambios_cliente i n p a t
  | EliminarCliente i => eliminar_cliente i
  end.

End Application.

(** ** The monthly summary (lines 331-333) *)

(** [Series.sum()]: missing values are skipped. *)
Definition series_sum (l : list (option Z)) : Z :=
  foldl (λ acc x, acc + default 0 x) 0 l.

(** The mask [df["status"] == v]. *)
Definition status_is (v : string) (r : Joined.row) : bool :=
  match Service.status (Joined.service r) with
  | Some s => String.eqb s v
  | None => false
  end.

Definition df_empty {A} (df : list A) : bool :=
  match df with [] => true | _ => false end.

Definition amount_where (v : string) (df : list Joined.row) : Z :=
  series_sum
    ((λ r, Service.amount (Joined.service r))
       <$> List.filter (status_is v) df).

Definition ingresos_pagados (df : list Joined.row) : Z :=
  if df_empty df then 0 else amount_where "Pagado" df.

Definition cobros_pendientes (df : list Joined.row) : Z :=
  if df_empty df then 0 else amount_where "Pendiente" df.

Definition total_servicios (df : list Joined.row) : Z :=
  if df_empty df then 0 else Z.of_nat (length df).

(** ** Vocabulary of the properties *)

(** Every stored amount is a number and is not negative. *)
Definition amount_nonneg (r : Service.row) : Prop :=
  ∃ a, Service.amount r = Some a ∧ 0 <= a.

Definition amounts_nonneg (file : store) : Prop :=
  map_Forall (λ _ r, amount_nonneg r) (services file).

(** The amount a call hands to the store, if the call writes one. *)
Definition op_amount_nonneg (o : dal_op) : Prop :=
  match o with
  | OpAddService _ _ _ _ a _ _ | OpUpdateService _ _ _ _ _ a _ _ =>
      ∃ v, a = Some v ∧ 0 <= number_value v
  | _ => True
  end.

(** Order of texts, and of optional texts with [NULL] first. *)
Definition text_lt (a b : string) : Prop := String.compare a b = Lt.

Definition text_le (a b : string) : Prop := String.compare a b ≠ Gt.

Definition time_lt (a b : option string) : Prop :=
  match a, b with
  | None, Some _ => True
  | Some x, Some y => text_lt x y
  | _, None => False
  end.

(** Ascending date, then ascending time: the two keys of the [ORDER BY]
    clause of the agenda. *)
Definition agenda_le (a b : Joined.row) : Prop :=
  let da := Service.service_date (Joined.service a) in
  let db := Service.service_date (Joined.service b) in
  let ta := Service.service_time (Joined.service a) in
  let tb := Service.service_time (Joined.service b) in
  text_lt da db ∨ (da = db ∧ (time_lt ta tb ∨ ta = tb)).


(** Ascending name: the key of the [ORDER BY] clause of the directory. *)
Definition directory_le (a b : Z * Client.row) : Prop :=
  text_le (Client.name a.2) (Client.name b.2).

(** The date [d] lies in the half-open interval from [start] (included)
    to [end_] (excluded); the three texts are read as dates. *)
Definition in_range {RT : Runtime} (start end_ d : string) : Prop :=
  match sqlite_date start, sqlite_date end_, sqlite_date d with
  | Some lo, Some hi, Some x => text_le lo x ∧ text_lt x hi
  | _, _, _ => False
  end.

#[global] Instance in_range_dec {RT : Runtime} (start end_ d : string) :
  Decision (in_range start end_ d).
Proof.
  unfold in_range, text_le, text_lt.
  destruct (sqlite_date start), (sqlite_date end_), (sqlite_date d);
    apply _.
Defined.





(** A record of events in which every write is followed at once by the
    clearing of the two caches, and nothing is cleared otherwise. *)
Inductive disciplined : list event → Prop :=
| disciplined_nil : disciplined []
| disciplined_query f evs :
    disciplined evs → disciplined (EvQuery f :: evs)
| disciplined_write o evs :
    disciplined evs →
    disciplined
      (EvWrite o :: EvClear ClientQueries :: EvClear ServiceQueries :: evs).

(** No cached entry is stale: each one holds what its query returns on
    the database file as it is now. *)
Definition coherent {RT : Runtime} (w : world) : Prop :=
  (∀ e, clients_cache w = Some e → value e = select_clients (db w))
  ∧ (∀ k e, services_cache w !! k = Some e →
            value e = select_services k.1 k.2 (db w)).

(** A computation of the interface that extends the record in a
    disciplined way and leaves no stale entry behind. *)
Definition tidy {RT : Runtime} {A} (m : ui A) : Prop :=
  ∀ w, ∃ evs,
    log (m w).1 = log w ++ evs
    ∧ disciplined evs
    ∧ (coherent w → coherent (m w).1).

(** The amount a form hands over is the value of a number input whose
    lower bound is 0. *)
Definition form_amount_ok (b : button) : Prop :=
  match b with
  | AgregarServicio _ _ _ _ _ _ _ _ _ _ _ amount _ _ => 0 <= amount
  | GuardarCambiosServicio _ _ _ _ _ _ _ amount_edit _ _ => 0 <= amount_edit
  | _ => True
  end.

(** A computation of the interface under which a property of the database
    file is kept. *)
Definition keeps (P : store → Prop) {A} (m : ui A) : Prop :=
  ∀ w, P (db w) → P (db (m w).1).

(** ** Sample data *)

Definition sample_ops : list dal_op :=
  [OpAddClient "Luis" "555-0102" "Calle 2" EmptyString;
   OpAddClient " Ana " "555-0101" "Calle 1" EmptyString;
   OpAddService (Some "2024-12-01") (Some "10:00") (Some 1)
     (Some "Fumigacion general") (Some (Float 100)) (Some "Pagado")
     (Some EmptyString);
   OpAddService (Some "2024-12-15") (Some "09:30") (Some 2)
     (Some "Fumigacion general") (Some (Float 50)) (Some "Pendiente")
     (Some EmptyString);
   OpAddService (Some "2024-12-15") (Some "09:30") (Some 1)
     (Some "Control de plagas") (Some (Float 25)) (Some "Pagado")
     (Some EmptyString);
   OpAddService (Some "2025-01-01") (Some "08:00") None
     (Some "Fumigacion general") (Some (Float 70)) (Some "Pendiente")
     (Some EmptyString)]%string.

Definition sample_store : store :=
  run_ops (RT:=reference_runtime) sample_ops empty_store.

(** A store in which a service refers to a client that does not exist:
    [add_service] takes any [client_id]. *)
Definition dangling_store : store :=
  (add_service (Some "2024-03-05") (Some "09:30")
     (Some 7) (Some "Fumigacion general") (Some (Float 0)) (Some "Pendiente")
     (Some EmptyString) empty_store).1%string.

(** The two statements of [delete_client], each committed by itself: the
    arrangement the function does not have. *)
Definition committed_one_by_one (client_id : Z) : list step :=
  [Execute (DetachServices client_id); Commit;
   Execute (DeleteClient client_id); Commit].

Definition sample_world : world :=
  World sample_store
    (Some (Cached (select_clients (RT:=reference_runtime) sample_store) 0))
    ∅ [].

(** Calendar order of two dates, and the dates that [date(y, m, d)]
    builds. *)
Definition date_compare (a b : Py.date) : comparison :=
  match Py.year a ?= Py.year b with
  | Eq =>
      match Py.month a ?= Py.month b with
      | Eq => Py.day a ?= Py.day b
      | c => c
      end
  | c => c
  end.

Definition well_formed (d : Py.date) : Prop :=
  Py.date_new (Py.year d) (Py.month d) (Py.day d) = Some d.

(** * Part I, continued: further definitions *)

(** ** The blocks of the writing functions *)

(** The steps each writing function runs inside its [with] block. *)
Definition op_steps {RT : Runtime} (o : dal_op) : list step :=
  match o with
  | OpAddClient n p a t =>
      [Execute (InsertClient (py_strip n) (py_strip p) (py_strip a)
                  (py_strip t));
       Commit]
  | OpUpdateClient i n p a t =>
      [Execute (UpdateClient i (py_strip n) (py_strip p) (py_strip a)
                  (py_strip t));
       Commit]
  | OpDeleteClient i => delete_client_steps i
  | OpAddService d t c ty a s n =>
      [Execute (InsertService d t c ty a s n); Commit]
  | OpUpdateService i d t c ty a s n =>
      [Execute (UpdateService i d t c ty a s n); Commit]
  | OpDeleteService i => [Execute (DeleteService i); Commit]
  end.

(** A block that commits once, after its last statement. *)
Definition commits_at_end (steps : list step) : Prop :=
  ∃ stmts, steps = (Execute <$> stmts) ++ [Commit].

(** ** Values and keys *)

(** The integers handed to [add_service] or [update_service] with a row,
    the client and an amount that is an [int], fit in 64 bits. *)
Definition fits (c : option Z) (a : option number) : Prop :=
  (∀ k, c = Some k → int64 k) ∧ (∀ z, a = Some (Int z) → int64 z).

(** ** Keys and references *)

(** No key of a table is above the sequence of the table. *)
Definition ids_ok (file : store) : Prop :=
  (∀ k, is_Some (clients file !! k) → k <= clients_seq file)
  ∧ (∀ k, is_Some (services file !! k) → k <= services_seq file).

(** Every service that names a client names one that is in the table. *)
Definition referential_integrity (file : store) : Prop :=
  ∀ sid r c, services file !! sid = Some r →
             Service.client_id r = Some c →
             is_Some (clients file !! c).

(** The client a call hands to [add_service] or [update_service], if it
    hands one, is in the table at the time of the call. *)
Definition op_client_known (o : dal_op) (file : store) : Prop :=
  match o with
  | OpAddService _ _ c _ _ _ _ | OpUpdateService _ _ _ c _ _ _ _ =>
      ∀ k, c = Some k → is_Some (clients file !! k)
  | _ => True
  end.

(** The sequence of stores a sequence of calls goes through, checked call
    by call. *)
Fixpoint clients_known (ops : list dal_op) {RT : Runtime} (file : store)
  : Prop :=
  match ops with
  | [] => True
  | o :: rest =>
      op_client_known o file ∧ clients_known rest (run_op o file).1
  end.

(** ** What a deleted client leaves in the agenda *)

(** The row of the agenda with the three columns of the client blank. *)
Definition without_client (r : Joined.row) : Joined.row :=
  Joined.Row (Joined.id r)
    (Service.set_client_id None (Joined.service r)) None None None.

Definition forget_client (cid : Z) (r : Joined.row) : Joined.row :=
  if decide (Service.client_id (Joined.service r) = Some cid)
  then without_client r else r.

(** The row of the agenda of a service of client [cid], with the three
    columns of the client as given. *)
Definition with_client (cid : Z) (name phone address : string)
    (r : Joined.row) : Joined.row :=
  if decide (Service.client_id (Joined.service r) = Some cid)
  then Joined.Row (Joined.id r) (Joined.service r) (Some name) (Some phone)
         (Some address)
  else r.

(** The rows the agenda query keeps: all of them unless both bounds are
    given (texts that are not empty), else those of the interval. *)
Definition selected {RT : Runtime} (start end_ : option string)
    (r : Joined.row) : Prop :=
  match start, end_ with
  | Some s, Some e =>
      s ≠ EmptyString → e ≠ EmptyString →
      in_range s e (Service.service_date (Joined.service r))
  | _, _ => True
  end.

(** ** A session of the application *)

(** What happens between two states of the application: a button is
    pressed, or the script reads one of the two cached functions. *)
Inductive action :=
| Press (b : button)
| ReadClients (now : Z)
| ReadServices (now : Z) (start end_ : option string).

Definition act {RT : Runtime} (a : action) (w : world) : world :=
  match a with
  | Press b => (press b w).1
  | ReadClients now => (get_clients_df now w).1
  | ReadServices now start end_ => (get_services_df now start end_ w).1
  end.

Definition session {RT : Runtime} (acts : list action) (w : world) : world :=
  foldl (λ w a, act a w) w acts.

(** The application as it starts on a database file: nothing cached,
    nothing recorded. *)
Definition start_world (file : store) : world := World file None ∅ [].

(** ** The forms *)

(** What the widgets of the two service forms guarantee: a date of the
    calendar, a time of the clock, an amount that is not negative, one of
    the two statuses. *)
Definition form_values_ok (d : Py.date) (hh mm amount : Z) (status : string)
  : Prop :=
  well_formed d ∧ 0 <= hh < 24 ∧ 0 <= mm < 60 ∧ 0 <= amount
  ∧ (status = "Pendiente"%string ∨ status = "Pagado"%string).

Definition form_ok (b : button) : Prop :=
  match b with
  | AgregarServicio _ _ _ _ _ _ _ d hh mm _ amount status _
  | GuardarCambiosServicio _ _ _ d hh mm _ amount status _ =>
      form_values_ok d hh mm amount status
  | _ => True
  end.

(** A service as the forms write it. *)
Definition form_row (r : Service.row) : Prop :=
  (∃ d, well_formed d ∧ Service.service_date r = Py.isoformat d)
  ∧ (∃ hh mm, 0 <= hh < 24 ∧ 0 <= mm < 60
              ∧ Service.service_time r = Some (Py.strftime_HM hh mm))
  ∧ is_Some (Service.service_type r)
  ∧ (∃ a, Service.amount r = Some a ∧ 0 <= a)
  ∧ (Service.status r = Some "Pendiente"%string
     ∨ Service.status r = Some "Pagado"%string)
  ∧ is_Some (Service.notes r).

Definition form_rows (file : store) : Prop :=
  map_Forall (λ _ r, form_row r) (services file).

(** The dictionary of line 265, from the name of a client to its key: a
    later row of the frame replaces an earlier one of the same name. *)
Definition client_map_of (clients_df : list (Z * Client.row))
  : gmap string Z :=
  foldl (λ m row, <[Client.name row.2 := row.1]> m) ∅ clients_df.

(** ** [export_excel] (lines 133-152) *)

(** [pd.to_datetime(column).dt.date] on a column of texts: the dates, or
    [None] when the conversion raises. *)
Class Pandas := {
  to_datetime_date : list string → option (list Py.date)
}.

Module AgendaSheet.
Record row := Row {
  Fecha : string;
  Hora : option string;
  Cliente : option string;
  Telefono : option string;
  Direccion : option string;
  Servicio : option string;
  Monto : option Z;
  Estatus : option string;
  Observaciones : option string
}.
End AgendaSheet.

Module ClientesSheet.
Record row := Row {
  Cliente : string;
  Telefono : option string;
  Direccion : option string;
  Notas : option string
}.
End ClientesSheet.

(** The two sheets of the workbook.  [fecha_dates] holds the column
    "Fecha" of the first sheet when line 144 replaced it by dates; when it
    is [None] the column holds the texts of the rows. *)
Record workbook := Workbook {
  agenda_sheet : list AgendaSheet.row;
  fecha_dates : option (list Py.date);
  clientes_sheet : list ClientesSheet.row
}.

Definition agenda_sheet_row (r : Joined.row) : AgendaSheet.row :=
  let s := Joined.service r in
  AgendaSheet.Row (Service.service_date s) (Service.service_time s)
    (Joined.client r) (Joined.phone r) (Joined.address r)
    (Service.service_type s) (Service.amount s) (Service.status s)
    (Service.notes s).

Definition clientes_sheet_row (r : Z * Client.row) : ClientesSheet.row :=
  ClientesSheet.Row (Client.name r.2) (Client.phone r.2)
    (Client.address r.2) (Client.notes r.2).

Section Workbook.
Context {RT : Runtime} {PD : Pandas}.

(** The WHERE clause of the export; a bound that is [None] is bound to the
    statement as [NULL], and [date(NULL)] is [NULL]. *)
Definition export_where (start end_ : option string) (r : Joined.row)
  : bool :=
  let d := sqlite_date (Service.service_date (Joined.service r)) in
  sql_true (sql_and (sql_ge d (start ≫= sqlite_date))
                    (sql_lt d (end_ ≫= sqlite_date))).

(** The workbook [export_excel] writes to "export_agenda.xlsx". *)
Definition export_excel (start end_ : option string) (file : store)
  : workbook :=
  let servicios :=
    agenda_sheet_row
      <$> order_by by_date_time
            (List.filter (export_where start end_)
               (left_join (clients file) <$> table_scan (services file))) in
  let fechas :=
    if df_empty servicios then None
    else to_datetime_date (AgendaSheet.Fecha <$> servicios) in
  Workbook servicios fechas (clientes_sheet_row <$> select_clients file).

End Workbook.

(** The row a call writes to [services], if it writes one, is as the
    forms write it. *)
Definition writes_form_row (o : dal_op) : Prop :=
  match o with
  | OpAddService d t c ty a s n | OpUpdateService _ d t c ty a s n =>
      ∀ row, service_row d t c ty a s n = Ok row → form_row row
  | _ => True
  end.

(** ** The client the edit form of a service shows (lines 265-269) *)

(** The keys of the dictionary of line 265 in the order Python keeps
    them: each name where it came first. *)
Definition client_map_keys (clients_df : list (Z * Client.row))
  : list string :=
  foldl (λ ks row, if decide (Client.name row.2 ∈ ks) then ks
                   else ks ++ [Client.name row.2]) [] clients_df.

(** Line 266: the dictionary turned round, from key to name. *)
Definition inv_client_map (clients_df : list (Z * Client.row))
  : gmap Z string :=
  foldl (λ m n, match client_map_of clients_df !! n with
                | Some v => <[v := n]> m
                | None => m
                end) ∅ (client_map_keys clients_df).

(** Line 267. *)
Definition current_client_name (clients_df : list (Z * Client.row))
    (client_id : option Z) : string :=
  default "(Sin cliente)"%string
    (client_id ≫= λ k, inv_client_map clients_df !! k).

(** Python's [list.index], where the value is in the list. *)
Fixpoint list_index (x : string) (l : list string) : option nat :=
  match l with
  | [] => None
  | y :: l' => if decide (y = x) then Some 0%nat else S <$> list_index x l'
  end.

(** Lines 268-269: the choice the select box holds until the user picks
    another one, [options[index]]. *)
Definition client_name_edit_default (clients_df : list (Z * Client.row))
    (client_id : option Z) : string :=
  let options := "(Sin cliente)"%string :: client_map_keys clients_df in
  let current := current_client_name clients_df client_id in
  let index :=
    if decide (current ∈ options) then default 0%nat (list_index current options)
    else 0%nat in
  default "(Sin cliente)"%string (options !! index).

(** ** Further sample data *)

(** The sample with a second client named "Ana" (key 3). *)
Definition namesake_store : store :=
  run_ops (RT:=reference_runtime)
    (sample_ops ++ [OpAddClient "Ana" "555-0103" "Calle 3" EmptyString])
    empty_store.

(** A conversion to run [export_excel] on the sample: it reads the texts
    that [Py.isoformat] writes and raises on any other text (pandas
    reads further formats). *)
Definition iso_parse (s : string) : option Py.date :=
  match list_ascii_of_string s with
  | [y1; y2; y3; y4; s1; m1; m2; s2; d1; d2] =>
      if forallb is_digit [y1; y2; y3; y4; m1; m2; d1; d2]
         && Ascii.eqb s1 "-" && Ascii.eqb s2 "-"
      then
        Py.date_new
          (1000 * digit_val y1 + 100 * digit_val y2 + 10 * digit_val y3
           + digit_val y4)
          (10 * digit_val m1 + digit_val m2)
          (10 * digit_val d1 + digit_val d2)
      else None
  | _ => None
  end.

Definition reference_pandas : Pandas :=
  {| to_datetime_date := mapM iso_parse |}.

(** * Part II: properties *)

(** ** Month arithmetic *)

Example month_bounds_2024_12 :
  month_bounds 2024 12 = Some (Py.Date 2024 12 1, Py.Date 2025 1 1).
Proof. reflexivity. Qed.

Example month_bounds_2024_12_iso :
  (λ '(a, b), (Py.isoformat a, Py.isoformat b)) <$> month_bounds 2024 12
  = Some ("2024-12-01"%string, "2025-01-01"%string).
Proof. reflexivity. Qed.

Lemma date_new_first_of_month (y m : Z) :
  1 <= y <= 9999 → 1 <= m <= 12 →
  Py.date_new y m 1 = Some (Py.Date y m 1).
Proof.
  intros Hy Hm. unfold Py.date_new, Py.MINYEAR, Py.MAXYEAR.
  assert (Hd : 1 <= Py.days_in_month y m).
  { unfold Py.days_in_month. repeat case_match; lia. }
  rewrite !(proj2 (Z.leb_le _ _)) by lia. reflexivity.
Qed.

(** C4 (as amended): December rolls into January of the next year, for
    every year whose successor is still a year of [datetime.date]
    (1 to 9998); for the other months the upper bound is the first day of
    the next month of the same year.  The function reads nothing but its
    two arguments. *)
Theorem month_bounds_rollover (year month : Z) :
  1 <= month <= 12 →
  1 <= year <= (if month =? 12 then 9998 else 9999) →
  month_bounds year month
  = Some (Py.Date year month 1,
          if month =? 12 then Py.Date (year + 1) 1 1
          else Py.Date year (month + 1) 1).
Proof.
  intros Hm Hy. unfold month_bounds.
  destruct (month =? 12) eqn:E.
  - apply Z.eqb_eq in E. subst month.
    rewrite !date_new_first_of_month by lia. reflexivity.
  - apply Z.eqb_neq in E.
    rewrite !date_new_first_of_month by lia. reflexivity.
Qed.

Lemma month_bounds_rollover_witness :
  month_bounds 2024 12 = Some (Py.Date 2024 12 1, Py.Date 2025 1 1).
Proof. apply (month_bounds_rollover 2024 12); simpl; lia. Defined.

(** C4 (as stated) fails in the last year of [datetime.date]: the first of
    December 9999 exists, the first of January 10000 does not. *)
Lemma month_bounds_last_year :
  month_bounds 9999 12 = None ∧
  ¬ (∀ year, month_bounds year 12
             = Some (Py.Date year 12 1, Py.Date (year + 1) 1 1)).
Proof.
  split; [reflexivity|]. intros H. specialize (H 9999). discriminate H.
Qed.

(** ** Numbers *)

Lemma binds_int_true (z : Z) : int64 z → binds_int z = true.
Proof. apply bool_decide_eq_true_2. Qed.

Lemma binds_int_false (z : Z) : ¬ int64 z → binds_int z = false.
Proof. apply bool_decide_eq_false_2. Qed.

Lemma nearest_double_small (z : Z) : Z.abs z <= 2 ^ 53 → nearest_double z = z.
Proof.
  intros Hz. unfold nearest_double.
  destruct (Z.abs z <? 2 ^ 53) eqn:E; [done|].
  apply Z.ltb_ge in E.
  assert (Hcases : z = 2 ^ 53 ∨ z = - 2 ^ 53) by lia.
  destruct Hcases as [-> | ->]; reflexivity.
Qed.

Lemma nearest_double_nonneg (z : Z) : 0 <= z → 0 <= nearest_double z.
Proof.
  intros Hz. unfold nearest_double.
  destruct (Z.abs z <? 2 ^ 53) eqn:E; [done|]. apply Z.ltb_ge in E.
  assert (He : 53 <= Z.log2 (Z.abs z)).
  { apply Z.log2_le_pow2; lia. }
  assert (Hp : 0 < 2 ^ (Z.log2 (Z.abs z) - 52)).
  { apply Z.pow_pos_nonneg; lia. }
  assert (Hq : 0 <= Z.abs z / 2 ^ (Z.log2 (Z.abs z) - 52)).
  { apply Z.div_pos; lia. }
  apply Z.mul_nonneg_nonneg; [lia|].
  apply Z.mul_nonneg_nonneg; [|lia].
  destruct (_ || _); lia.
Qed.

Lemma to_real_nonneg (n : number) : 0 <= number_value n → 0 <= to_real n.
Proof. destruct n; simpl; [apply nearest_double_nonneg|done]. Qed.

(** ** Blocks of statements *)

Lemma exec_stmt_bound (s : stmt) (st : store) :
  binds s = true → exec_stmt s st = exec_bound s st.
Proof. unfold exec_stmt. by intros ->. Qed.

Lemma exec_stmt_overflow (s : stmt) (st : store) :
  binds s = false → exec_stmt s st = Raise OverflowError.
Proof. unfold exec_stmt. by intros ->. Qed.

Lemma with_connection_single (s : stmt) (file : store) :
  with_connection [Execute s; Commit] file
  = match exec_stmt s file with
    | Ok st => (st, Ok tt)
    | Raise e => (file, Raise e)
    end.
Proof.
  unfold with_connection, run, execute, connect, view; simpl.
  destruct (exec_stmt s file); reflexivity.
Qed.

Lemma max_rowid_bound {A} (t : gmap Z A) (k : Z) :
  is_Some (t !! k) → k <= max_rowid t.
Proof.
  unfold max_rowid. revert k.
  apply (map_fold_weak_ind
           (λ (r : Z) (m : gmap Z A), ∀ k, is_Some (m !! k) → k <= r)).
  - intros k [x Hx]. by rewrite lookup_empty in Hx.
  - intros i x m r _ IH k Hk.
    destruct (decide (i = k)) as [->|Hne]; [lia|].
    rewrite lookup_insert_ne in Hk by done. specialize (IH k Hk). lia.
Qed.

Lemma max_rowid_nonneg {A} (t : gmap Z A) : 0 <= max_rowid t.
Proof.
  unfold max_rowid.
  apply (map_fold_weak_ind (λ (r : Z) (_ : gmap Z A), 0 <= r)); [done|].
  intros. lia.
Qed.

Lemma new_rowid_fresh {A} (seq : Z) (t : gmap Z A) (k : Z) :
  new_rowid seq t = Ok k → t !! k = None ∧ seq < k ∧ int64 k.
Proof.
  unfold new_rowid, MAX_ROWID, int64. case_match eqn:E; [|done].
  intros [= <-]. apply Z.ltb_lt in E.
  pose proof (max_rowid_nonneg t). split; [|lia].
  destruct (t !! _) eqn:Ek; [|done].
  pose proof (max_rowid_bound t _ (mk_is_Some _ _ Ek)). lia.
Qed.

Section DataAccessProperties.
Context {RT : Runtime}.

Lemma delete_client_eq (cid : Z) (file : store) :
  int64 cid →
  delete_client cid file
  = (Store (delete cid (clients file)) (detach cid <$> services file)
       (clients_seq file) (services_seq file), Ok tt).
Proof.
  intros Hcid%binds_int_true.
  unfold delete_client, delete_client_steps, with_connection, run, execute,
    exec_stmt. simpl. by rewrite Hcid.
Qed.

Lemma delete_client_overflow (cid : Z) (file : store) :
  ¬ int64 cid → delete_client cid file = (file, Raise OverflowError).
Proof.
  intros Hcid%binds_int_false.
  unfold delete_client, delete_client_steps, with_connection, run, execute,
    exec_stmt. simpl. by rewrite Hcid.
Qed.

Lemma add_service_eq d t c ty a s n (file : store) :
  add_service d t c ty a s n file
  = match exec_stmt (InsertService d t c ty a s n) file with
    | Ok st => (st, Ok tt)
    | Raise e => (file, Raise e)
    end.
Proof. apply with_connection_single. Qed.

Lemma update_service_eq i d t c ty a s n (file : store) :
  update_service i d t c ty a s n file
  = match exec_stmt (UpdateService i d t c ty a s n) file with
    | Ok st => (st, Ok tt)
    | Raise e => (file, Raise e)
    end.
Proof. apply with_connection_single. Qed.

(** ** Creation and lookup of a service *)

(** C10 (as amended): a service that [add_service] accepted is found by
    [get_service_by_id] under the key the store gave it (the new value of
    the sequence of the table, a key no row had before), with the date,
    the time, the client, the type, the status and the notes that were
    passed, and with the amount the [REAL] column keeps: the float
    nearest to the number passed.  That is the number itself when it is
    a float, and when it is an integer of at most 53 bits.  Acceptance
    already says that the status passed the CHECK of the table and that
    the integers passed fit in 64 bits. *)
Theorem add_service_roundtrip
    (service_date service_time : option string) (client_id : option Z)
    (service_type : option string) (amount : option number)
    (status notes : option string) (file file' : store) :
  add_service service_date service_time client_id service_type amount
    status notes file = (file', Ok tt) →
  ∃ row,
    get_service_by_id (services_seq file') file'
      = Ok (Some (services_seq file', row))
    ∧ services file !! services_seq file' = None
    ∧ Some (Service.service_date row) = service_date
    ∧ Service.service_time row = service_time
    ∧ Service.client_id row = client_id
    ∧ Service.service_type row = service_type
    ∧ Service.amount row = to_real <$> amount
    ∧ (∀ x, amount = Some (Float x) →
            Service.amount row = Some (number_value (Float x)))
    ∧ (∀ z, amount = Some (Int z) → Z.abs z <= 2 ^ 53 →
            Service.amount row = Some z)
    ∧ Service.status row = status
    ∧ Service.notes row = notes.
Proof.
  intros Hadd. rewrite add_service_eq in Hadd. unfold exec_stmt in Hadd.
  destruct (binds _); [|done]. simpl in Hadd.
  destruct (new_rowid _ _) as [k|] eqn:Hk; [|done].
  apply new_rowid_fresh in Hk as (Hfresh & _ & Hint).
  unfold service_row in Hadd.
  destruct service_date as [d|]; [|done].
  destruct (status_check status); [|done].
  injection Hadd as <-. simpl.
  eexists. unfold get_service_by_id. simpl.
  rewrite binds_int_true, lookup_insert_eq by done. simpl.
  repeat split; try done.
  - by intros x ->.
  - intros z -> Hz. simpl. by rewrite nearest_double_small.
Qed.

(** ** Keys that no row has *)

Lemma detach_id_fmap (cid : Z) (t : gmap Z Service.row) :
  (∀ sid r, t !! sid = Some r → Service.client_id r ≠ Some cid) →
  detach cid <$> t = t.
Proof.
  intros Hno. apply map_eq. intros sid. rewrite lookup_fmap.
  destruct (t !! sid) as [r|] eqn:E; [|done]. simpl. f_equal.
  unfold detach. case_decide; [|done]. by destruct (Hno sid r E).
Qed.

(** C8 (as amended): on a key of 64 bits that no row has, the lookup
    answers [None], and [delete_service], [update_client] and
    [update_service] (its other integers being of 64 bits too) return
    without an error and leave the store as it was.  [delete_client]
    returns without an error and leaves the table of clients as it was;
    it leaves the whole store as it was when no service refers to the
    key, and otherwise sets the references to it to [NULL].  On an
    integer that does not fit in 64 bits, which is the key of no row, each
    of the five functions raises [OverflowError] and leaves the store as
    it was. *)
Theorem absent_key_no_error (k : Z) (file : store) :
  (int64 k → services file !! k = None →
     get_service_by_id k file = Ok None
     ∧ delete_service k file = (file, Ok tt)
     ∧ ∀ d t c ty a s n,
         binds_key c = true → binds_number a = true →
         update_service k d t c ty a s n file = (file, Ok tt))
  ∧ (int64 k → clients file !! k = None →
     (∀ n p a t, update_client k n p a t file = (file, Ok tt))
     ∧ (delete_client k file).2 = Ok tt
     ∧ clients (delete_client k file).1 = clients file
     ∧ ((∀ sid r, services file !! sid = Some r →
                  Service.client_id r ≠ Some k) →
        delete_client k file = (file, Ok tt))
     ∧ (∀ sid r, services file !! sid = Some r →
          services (delete_client k file).1 !! sid = Some (detach k r)))
  ∧ (¬ int64 k →
     get_service_by_id k file = Raise OverflowError
     ∧ delete_service k file = (file, Raise OverflowError)
     ∧ delete_client k file = (file, Raise OverflowError)
     ∧ (∀ n p a t,
          update_client k n p a t file = (file, Raise OverflowError))
     ∧ (∀ d t c ty a s n,
          update_service k d t c ty a s n file
          = (file, Raise OverflowError))).
Proof.
  split; [|split].
  - intros Hint%binds_int_true Hk. split; [|split].
    + unfold get_service_by_id. by rewrite Hint, Hk.
    + unfold delete_service. rewrite with_connection_single.
      rewrite exec_stmt_bound by done.
      destruct file; simpl in *. by rewrite delete_id.
    + intros d t c ty a s n Hc Ha. rewrite update_service_eq.
      rewrite exec_stmt_bound by (simpl; by rewrite Hint, Hc, Ha).
      simpl. by rewrite Hk.
  - intros Hint Hk. split; [|split; [|split; [|split]]].
    + intros. unfold update_client. rewrite with_connection_single.
      rewrite exec_stmt_bound by by apply binds_int_true.
      simpl. by rewrite Hk.
    + by rewrite delete_client_eq.
    + rewrite delete_client_eq by done. simpl. by apply delete_id.
    + intros Hno. rewrite delete_client_eq by done.
      rewrite delete_id, detach_id_fmap by done. by destruct file.
    + intros sid r Hr. rewrite delete_client_eq by done. simpl.
      by rewrite lookup_fmap, Hr.
  - intros Hint. pose proof (binds_int_false k Hint) as Hb.
    split; [|split; [|split; [|split]]].
    + unfold get_service_by_id. by rewrite Hb.
    + unfold delete_service. rewrite with_connection_single.
      by rewrite exec_stmt_overflow.
    + by apply delete_client_overflow.
    + intros. unfold update_client. rewrite with_connection_single.
      by rewrite exec_stmt_overflow.
    + intros. rewrite update_service_eq.
      rewrite exec_stmt_overflow; [done|]. simpl. by rewrite Hb.
Qed.

(** ** Deleting a client *)

Lemma delete_client_services (cid sid : Z) (file : store) :
  int64 cid →
  services (delete_client cid file).1 !! sid
  = detach cid <$> services file !! sid.
Proof. intros Hint. rewrite delete_client_eq by done. apply lookup_fmap. Qed.

(** C2: [delete_client] runs its two statements in one transaction and
    commits once, after both.  Whatever the number of steps done when the
    block is interrupted, and whichever step fails, the database file is
    the one from before the call or the one a complete call leaves; so as
    long as the client row is in the file no reference to it was touched,
    and once the row is gone no service refers to it.  (The key is one
    the statements take: an integer of 64 bits, as every key of a row
    is.) *)
Theorem delete_client_atomic (cid : Z) (file : store) (k : nat) :
  int64 cid →
  delete_client_steps cid
    = [Execute (DetachServices cid); Execute (DeleteClient cid); Commit]
  ∧ (interrupted k (delete_client_steps cid) file = file
     ∨ interrupted k (delete_client_steps cid) file
       = (delete_client cid file).1)
  ∧ ((k ≤ 2)%nat → interrupted k (delete_client_steps cid) file = file)
  ∧ ((3 ≤ k)%nat →
     interrupted k (delete_client_steps cid) file
     = (delete_client cid file).1)
  ∧ with_connection_faulty k (delete_client_steps cid) file
    = (if (k <? 3)%nat then (file, Raise OperationalError)
       else delete_client cid file)
  ∧ (is_Some (clients file !! cid) →
     clients (interrupted k (delete_client_steps cid) file) !! cid = None →
     ∀ sid r,
       services (interrupted k (delete_client_steps cid) file) !! sid
         = Some r →
       Service.client_id r ≠ Some cid).
Proof.
  intros Hint. pose proof (binds_int_true cid Hint) as Hb.
  split; [reflexivity|].
  assert (Hrun : ∀ j,
            interrupted j (delete_client_steps cid) file
            = (if (j <? 3)%nat then file else (delete_client cid file).1)
            ∧ with_connection_faulty j (delete_client_steps cid) file
              = (if (j <? 3)%nat then (file, Raise OperationalError)
                 else delete_client cid file)).
  { intros j. rewrite delete_client_eq by done.
    unfold interrupted, with_connection_faulty, delete_client_steps.
    destruct j as [|[|[|j]]]; simpl; unfold execute, exec_stmt; simpl;
      rewrite ?Hb; simpl; try done.
    by destruct j. }
  destruct (Hrun k) as [Hi Hf].
  assert (Hcases : (k ≤ 2)%nat
                   ∧ interrupted k (delete_client_steps cid) file = file
                   ∨ (3 ≤ k)%nat
                     ∧ interrupted k (delete_client_steps cid) file
                       = (delete_client cid file).1).
  { rewrite Hi. destruct (k <? 3)%nat eqn:E.
    - left. apply Nat.ltb_lt in E. split; [lia|done].
    - right. apply Nat.ltb_ge in E. split; [lia|done]. }
  split; [|split; [|split; [|split]]].
  - destruct Hcases as [[_ ->]|[_ ->]]; auto.
  - intros ?. destruct Hcases as [[_ ->]|[? _]]; [done|lia].
  - intros ?. destruct Hcases as [[? _]|[_ ->]]; [lia|done].
  - exact Hf.
  - intros [c Hc] Hgone sid r Hr.
    destruct Hcases as [[_ Heq]|[_ Heq]]; rewrite Heq in Hgone, Hr.
    + congruence.
    + rewrite delete_client_services in Hr by done.
      destruct (services file !! sid) as [r0|]; [|done].
      injection Hr as <-. unfold detach. by case_decide.
Qed.

(** ** Amounts *)

Lemma service_row_amount d t c ty a s n r :
  service_row d t c ty a s n = Ok r → Service.amount r = to_real <$> a.
Proof.
  unfold service_row. repeat case_match; try done. by intros [= <-].
Qed.

Lemma run_op_amounts (o : dal_op) (file : store) :
  op_amount_nonneg o → amounts_nonneg file →
  amounts_nonneg (run_op o file).1.
Proof.
  unfold amounts_nonneg. intros Ho Hinv.
  assert (Hrow : ∀ d t c ty a s n row,
            (∃ v, a = Some v ∧ 0 <= number_value v) →
            service_row d t c ty a s n = Ok row → amount_nonneg row).
  { intros d t c ty a s n row (v & -> & Hv) Er.
    apply service_row_amount in Er. unfold amount_nonneg.
    rewrite Er. simpl. eexists. split; [done|]. by apply to_real_nonneg. }
  destruct o; cbn [run_op op_amount_nonneg] in *.
  - unfold add_client. rewrite with_connection_single.
    unfold exec_stmt. simpl. by destruct (new_rowid _ _).
  - unfold update_client. rewrite with_connection_single.
    unfold exec_stmt. destruct (binds _); [|done]. simpl.
    by destruct (clients file !! _).
  - destruct (decide (int64 client_id)) as [Hint|Hint].
    + rewrite delete_client_eq by done. simpl. apply map_Forall_fmap.
      eapply map_Forall_impl; [exact Hinv|]. intros sid row Hr. simpl.
      unfold detach. by case_decide.
    + by rewrite delete_client_overflow.
  - rewrite add_service_eq. unfold exec_stmt.
    destruct (binds _); [|done]. simpl.
    destruct (new_rowid _ _); [|done].
    destruct (service_row _ _ _ _ _ _ _) as [row|] eqn:Er; [|done]. simpl.
    apply map_Forall_insert_2; [|done]. by eapply Hrow.
  - rewrite update_service_eq. unfold exec_stmt.
    destruct (binds _); [|done]. simpl.
    destruct (services file !! _); [|done].
    destruct (service_row _ _ _ _ _ _ _) as [row|] eqn:Er; [|done]. simpl.
    apply map_Forall_insert_2; [|done]. by eapply Hrow.
  - unfold delete_service. rewrite with_connection_single.
    unfold exec_stmt. destruct (binds _); [|done]. simpl.
    by apply map_Forall_delete.
Qed.

Lemma run_ops_amounts (ops : list dal_op) (file : store) :
  Forall op_amount_nonneg ops → amounts_nonneg file →
  amounts_nonneg (run_ops ops file).
Proof.
  unfold run_ops. intros Hops. revert file.
  induction Hops as [|o ops Ho _ IH]; intros file Hinv; simpl; [done|].
  apply IH. by apply run_op_amounts.
Qed.

End DataAccessProperties.
(** ** Order of texts *)

Lemma ascii_compare_lt_trans (a b c : ascii) :
  Ascii.compare a b = Lt → Ascii.compare b c = Lt → Ascii.compare a c = Lt.
Proof.
  unfold Ascii.compare. rewrite !N.compare_lt_iff. lia.
Qed.

Lemma text_lt_trans (x y z : string) : text_lt x y → text_lt y z → text_lt x z.
Proof.
  unfold text_lt. revert y z.
  induction x as [|a x IH]; intros [|b y] [|c z]; simpl; try done.
  destruct (Ascii.compare a b) eqn:Eab; try done;
    destruct (Ascii.compare b c) eqn:Ebc; try done.
  - apply Ascii.compare_eq_iff in Eab, Ebc. subst.
    rewrite (proj2 (N.compare_eq_iff _ _) eq_refl : Ascii.compare c c = Eq).
    apply IH.
  - apply Ascii.compare_eq_iff in Eab. subst. by rewrite Ebc.
  - apply Ascii.compare_eq_iff in Ebc. subst. by rewrite Eab.
  - by rewrite (ascii_compare_lt_trans _ _ _ Eab Ebc).
Qed.

Lemma text_lt_irrefl (x : string) : ¬ text_lt x x.
Proof.
  unfold text_lt. intros Hlt.
  pose proof (String.compare_antisym x x) as Ha. rewrite Hlt in Ha. done.
Qed.

Lemma text_lt_gt (x y : string) : String.compare x y = Gt → text_lt y x.
Proof.
  unfold text_lt. intros Hgt. rewrite String.compare_antisym, Hgt. done.
Qed.

Lemma text_le_lt_eq (x y : string) : text_le x y ↔ text_lt x y ∨ x = y.
Proof.
  unfold text_le, text_lt. split.
  - destruct (String.compare x y) eqn:E; try done; [|by left].
    right. by apply String.compare_eq_iff.
  - intros [Hlt| ->]; [by rewrite Hlt|].
    intros Hgt. by apply text_lt_gt, text_lt_irrefl in Hgt.
Qed.

Lemma time_lt_trans (a b c : option string) :
  time_lt a b → time_lt b c → time_lt a c.
Proof.
  destruct a, b, c; simpl; try done. apply text_lt_trans.
Qed.

Lemma text_le_trans (x y z : string) : text_le x y → text_le y z → text_le x z.
Proof.
  rewrite !text_le_lt_eq. intros [Hxy| ->] [Hyz| ->]; auto.
  left. by eapply text_lt_trans.
Qed.

Lemma text_le_total (x y : string) : text_le x y ∨ text_le y x.
Proof.
  unfold text_le. destruct (String.compare x y) eqn:E; [by left..|].
  right. apply text_lt_gt in E. unfold text_lt in E. by rewrite E.
Qed.

Lemma leb_text_le (x y : string) : String.leb x y = true ↔ text_le x y.
Proof.
  unfold String.leb, text_le. by destruct (String.compare x y).
Qed.

Lemma time_leb_spec (a b : option string) :
  time_leb a b = true ↔ time_lt a b ∨ a = b.
Proof.
  destruct a as [x|], b as [y|]; simpl.
  - rewrite leb_text_le, text_le_lt_eq. split; intros [?|?]; auto.
    + right. congruence.
    + right. congruence.
  - split; [done|]. by intros [[]|?].
  - split; [by left|done].
  - split; [by right|done].
Qed.

Lemma agenda_le_trans (a b c : Joined.row) :
  agenda_le a b → agenda_le b c → agenda_le a c.
Proof.
  unfold agenda_le. simpl.
  intros [H1|[E1 H1]] [H2|[E2 H2]].
  - left. eapply text_lt_trans; eauto.
  - left. by rewrite <- E2.
  - left. by rewrite E1.
  - right. split; [congruence|].
    destruct H1 as [H1|T1], H2 as [H2|T2].
    + left. eapply time_lt_trans; eauto.
    + left. by rewrite <- T2.
    + left. by rewrite T1.
    + right. congruence.
Qed.

Lemma time_lt_total (a b : option string) : time_lt a b ∨ a = b ∨ time_lt b a.
Proof.
  destruct a as [x|], b as [y|]; simpl; auto.
  unfold text_lt. destruct (String.compare x y) eqn:E.
  - apply String.compare_eq_iff in E. subst. auto.
  - auto.
  - right. right. by apply text_lt_gt.
Qed.

Lemma agenda_le_total (a b : Joined.row) : agenda_le a b ∨ agenda_le b a.
Proof.
  unfold agenda_le. simpl.
  destruct (String.compare (Service.service_date (Joined.service a))
              (Service.service_date (Joined.service b))) eqn:E.
  - apply String.compare_eq_iff in E.
    destruct (time_lt_total (Service.service_time (Joined.service a))
                (Service.service_time (Joined.service b))) as [H|[H|H]];
      auto 6.
  - left. by left.
  - right. left. by apply text_lt_gt.
Qed.

Lemma StronglySorted_impl {A} (R1 R2 : relation A) (l : list A) :
  (∀ x y, R1 x y → R2 x y) → StronglySorted R1 l → StronglySorted R2 l.
Proof.
  intros HR. induction 1 as [|x l _ IH Hall]; constructor; [done|].
  eapply Forall_impl; [exact Hall|]. intros y. apply HR.
Qed.

(** ** Reading a table and ordering rows *)

#[local] Instance rowid_le_trans {A} : Transitive (@rowid_le A).
Proof. intros a b c. unfold rowid_le. lia. Qed.

#[local] Instance rowid_le_total {A} : Total (@rowid_le A).
Proof. intros a b. unfold rowid_le. lia. Qed.

Lemma table_scan_Permutation {A} (t : gmap Z A) :
  table_scan t ≡ₚ map_to_list t.
Proof. apply merge_sort_Permutation. Qed.

Lemma elem_of_table_scan {A} (t : gmap Z A) (k : Z) (v : A) :
  (k, v) ∈ table_scan t ↔ t !! k = Some v.
Proof. by rewrite table_scan_Permutation, elem_of_map_to_list. Qed.

Lemma table_scan_length {A} (t : gmap Z A) : length (table_scan t) = size t.
Proof. by rewrite table_scan_Permutation, length_map_to_list. Qed.

(** ** The two sorters *)

Lemma insert_row_Permutation {A} (le : A → A → bool) (x : A) (l : list A) :
  insert_row le x l ≡ₚ x :: l.
Proof.
  induction l as [|y l IH]; simpl; [done|].
  destruct (le x y); [done|]. rewrite IH. apply Permutation_swap.
Qed.

Lemma insertion_sort_Permutation {A} (le : A → A → bool) (l : list A) :
  insertion_sort le l ≡ₚ l.
Proof.
  induction l as [|x l IH]; simpl; [done|].
  by rewrite insert_row_Permutation, IH.
Qed.

Section InsertionSort.
Context {A : Type} (le : A → A → bool).
Hypothesis le_total : ∀ x y, le x y = true ∨ le y x = true.

Lemma HdRel_insert_row (y x : A) (l : list A) :
  le y x = true → HdRel (λ a b, le a b = true) y l →
  HdRel (λ a b, le a b = true) y (insert_row le x l).
Proof.
  intros Hyx Hhd. destruct l as [|z l]; simpl; [by constructor|].
  destruct (le x z); constructor; [done|]. by inversion Hhd.
Qed.

Lemma Sorted_insert_row (x : A) (l : list A) :
  Sorted (λ a b, le a b = true) l →
  Sorted (λ a b, le a b = true) (insert_row le x l).
Proof.
  induction 1 as [|y l Hs IH Hhd]; simpl.
  - by repeat constructor.
  - destruct (le x y) eqn:E.
    + constructor; [by constructor|]. by constructor.
    + constructor; [done|]. apply HdRel_insert_row; [|done].
      destruct (le_total x y); congruence.
Qed.

Lemma Sorted_insertion_sort (l : list A) :
  Sorted (λ a b, le a b = true) (insertion_sort le l).
Proof.
  induction l as [|x l IH]; simpl; [constructor|].
  by apply Sorted_insert_row.
Qed.

End InsertionSort.

Lemma reference_sorts : sorts (RT:=reference_runtime).
Proof.
  intros A le l. split; [apply insertion_sort_Permutation|].
  intros Htrans Htotal. apply Sorted_StronglySorted.
  - intros x y z. apply Htrans.
  - by apply Sorted_insertion_sort.
Qed.


Lemma list_filter_bool {A} (f : A → bool) (P : A → Prop)
    `{∀ x, Decision (P x)} (l : list A) :
  (∀ x, f x = true ↔ P x) → List.filter f l = filter P l.
Proof.
  intros Hf. induction l as [|x l IH]; [done|]. simpl.
  rewrite filter_cons, IH. destruct (f x) eqn:E.
  - rewrite decide_True; [done|]. by apply Hf.
  - rewrite decide_False; [done|]. rewrite <- Hf. congruence.
Qed.

(** ** The directory of clients *)

Lemma by_name_spec (a b : Z * Client.row) :
  by_name a b = true ↔ directory_le a b.
Proof. apply leb_text_le. Qed.

Section Directory.
Context {RT : Runtime}.
Hypothesis Hsorts : sorts.

Lemma order_by_Permutation {A} (le : A → A → bool) (l : list A) :
  order_by le l ≡ₚ l.
Proof. apply Hsorts. Qed.

Lemma elem_of_select_clients (file : store) (row : Z * Client.row) :
  row ∈ select_clients file ↔ clients file !! row.1 = Some row.2.
Proof.
  unfold select_clients. rewrite order_by_Permutation.
  destruct row as [k v]. apply elem_of_table_scan.
Qed.

Lemma select_clients_sorted (file : store) :
  StronglySorted directory_le (select_clients file).
Proof.
  unfold select_clients.
  destruct (Hsorts _ by_name (table_scan (clients file))) as [_ Hsorted].
  apply (StronglySorted_impl (λ a b, by_name a b = true)).
  - intros a b. apply by_name_spec.
  - apply Hsorted.
    + intros x y z. rewrite !by_name_spec. apply text_le_trans.
    + intros x y. rewrite !by_name_spec. apply text_le_total.
Qed.

End Directory.

(** ** Dates as texts

    The interface stores [isoformat] texts.  On them the order of texts is
    the order of the calendar, and the reference [iso_date] is the
    identity. *)

Lemma digit_mod (n : Z) : Py.digit n = Py.digit (n mod 10).
Proof. unfold Py.digit. by rewrite Z.mod_mod. Qed.

(** A property of the ten digits is checked digit by digit. *)
Lemma each_digit (P : Z → Prop) :
  (∀ n : nat, (n < 10)%nat → P (Z.of_nat n)) → ∀ x, 0 <= x < 10 → P x.
Proof.
  intros HP x Hx. rewrite <- (Z2Nat.id x) by lia. apply HP. lia.
Qed.

Ltac split_digit n k :=
  lazymatch k with
  | O => exfalso; lia
  | S ?k' => destruct n as [|n]; [|split_digit n k']
  end.

Lemma digit_compare (a b : Z) :
  Ascii.compare (Py.digit a) (Py.digit b) = (a mod 10 ?= b mod 10).
Proof.
  rewrite (digit_mod a), (digit_mod b).
  pose proof (Z.mod_pos_bound a 10 eq_refl) as Ha.
  pose proof (Z.mod_pos_bound b 10 eq_refl) as Hb.
  revert Hb. generalize (b mod 10). revert Ha. generalize (a mod 10).
  apply (each_digit (λ x, ∀ y, 0 <= y < 10 → _ = (x ?= y))).
  intros n Hn.
  apply (each_digit (λ y, _ = (Z.of_nat n ?= y))).
  intros m Hm.
  split_digit n 10%nat; split_digit m 10%nat; reflexivity.
Qed.

Lemma digit_is_digit (n : Z) : is_digit (Py.digit n) = true.
Proof.
  rewrite digit_mod.
  apply (each_digit (λ x, is_digit (Py.digit x) = true));
    [|by apply Z.mod_pos_bound].
  intros k Hk. split_digit k 10%nat; reflexivity.
Qed.

Lemma digit_val_digit (n : Z) : digit_val (Py.digit n) = n mod 10.
Proof.
  rewrite digit_mod.
  apply (each_digit (λ x, digit_val (Py.digit x) = x));
    [|by apply Z.mod_pos_bound].
  intros k Hk. split_digit k 10%nat; reflexivity.
Qed.

Lemma append_cons (c : ascii) (s t : string) :
  (String c s +:+ t) = String c (s +:+ t).
Proof. reflexivity. Qed.

Lemma append_empty (t : string) : (EmptyString +:+ t) = t.
Proof. reflexivity. Qed.

Lemma append_empty_r (s : string) : (s +:+ EmptyString) = s.
Proof. induction s as [|c s IH]; [done|]. by rewrite append_cons, IH. Qed.

Lemma compare_cons (c c' : ascii) (s t : string) :
  String.compare (String c s) (String c' t)
  = match Ascii.compare c c' with
    | Eq => String.compare s t
    | ne => ne
    end.
Proof. reflexivity. Qed.

Lemma compare_pad2 (a b : Z) (s t : string) :
  0 <= a < 100 → 0 <= b < 100 →
  String.compare (Py.pad2 a ++ s) (Py.pad2 b ++ t)
  = match a ?= b with Eq => String.compare s t | c => c end.
Proof.
  intros Ha Hb. unfold Py.pad2.
  rewrite !append_cons, !append_empty, !compare_cons, !digit_compare.
  destruct (Z.compare_spec ((a / 10) mod 10) ((b / 10) mod 10));
    destruct (Z.compare_spec (a mod 10) (b mod 10));
    destruct (Z.compare_spec a b);
    try reflexivity; exfalso; Z.div_mod_to_equations; lia.
Qed.

Lemma pad2_mod (n : Z) : Py.pad2 n = Py.pad2 (n mod 100).
Proof.
  unfold Py.pad2. rewrite (digit_mod (n / 10)), (digit_mod n).
  rewrite (digit_mod (n mod 100 / 10)), (digit_mod (n mod 100)).
  do 2 f_equal; [|f_equal]; Z.div_mod_to_equations; lia.
Qed.

Lemma pad4_split (n : Z) (s : string) :
  (Py.pad4 n ++ s = Py.pad2 (n / 100) ++ (Py.pad2 (n mod 100) ++ s))%string.
Proof.
  unfold Py.pad4. rewrite (pad2_mod n). unfold Py.pad2.
  rewrite !append_cons, !append_empty.
  rewrite (digit_mod (n / 1000)), (digit_mod (n / 100 / 10)).
  do 2 f_equal. Z.div_mod_to_equations; lia.
Qed.

Lemma compare_pad4 (a b : Z) (s t : string) :
  0 <= a < 10000 → 0 <= b < 10000 →
  String.compare (Py.pad4 a ++ s) (Py.pad4 b ++ t)
  = match a ?= b with Eq => String.compare s t | c => c end.
Proof.
  intros Ha Hb. rewrite !pad4_split.
  rewrite compare_pad2 by (Z.div_mod_to_equations; lia).
  rewrite compare_pad2 by (Z.div_mod_to_equations; lia).
  destruct (Z.compare_spec (a / 100) (b / 100));
    destruct (Z.compare_spec (a mod 100) (b mod 100));
    destruct (Z.compare_spec a b);
    try reflexivity; exfalso; Z.div_mod_to_equations; lia.
Qed.

Lemma well_formed_bounds (d : Py.date) :
  well_formed d →
  1 <= Py.year d <= 9999 ∧ 1 <= Py.month d <= 12 ∧ 1 <= Py.day d <= 31.
Proof.
  unfold well_formed, Py.date_new, Py.MINYEAR, Py.MAXYEAR.
  destruct (_ && _) eqn:E; [|done]. intros _.
  repeat (apply andb_prop in E as [E ?]).
  assert (Py.days_in_month (Py.year d) (Py.month d) <= 31).
  { unfold Py.days_in_month. repeat case_match; lia. }
  lia.
Qed.

Lemma isoformat_compare (a b : Py.date) :
  well_formed a → well_formed b →
  String.compare (Py.isoformat a) (Py.isoformat b) = date_compare a b.
Proof.
  intros Ha%well_formed_bounds Hb%well_formed_bounds.
  unfold Py.isoformat, date_compare.
  rewrite compare_pad4 by lia.
  destruct (Py.year a ?= Py.year b); try reflexivity.
  rewrite !append_cons, !append_empty, compare_cons.
  change (Ascii.compare "-" "-") with Eq. cbv iota.
  rewrite compare_pad2 by lia.
  destruct (Py.month a ?= Py.month b); try reflexivity.
  rewrite ?append_cons, ?append_empty, compare_cons.
  change (Ascii.compare "-" "-") with Eq. cbv iota.
  rewrite <- (append_empty_r (Py.pad2 (Py.day a))) at 1.
  rewrite <- (append_empty_r (Py.pad2 (Py.day b))) at 1.
  rewrite compare_pad2 by lia.
  by destruct (Py.day a ?= Py.day b).
Qed.

Lemma iso_date_isoformat (d : Py.date) :
  well_formed d → iso_date (Py.isoformat d) = Some (Py.isoformat d).
Proof.
  intros Hwf. pose proof (well_formed_bounds d Hwf) as Hb.
  unfold iso_date.
  change (list_ascii_of_string (Py.isoformat d))
    with [Py.digit (Py.year d / 1000); Py.digit (Py.year d / 100);
          Py.digit (Py.year d / 10); Py.digit (Py.year d); "-"%char;
          Py.digit (Py.month d / 10); Py.digit (Py.month d); "-"%char;
          Py.digit (Py.day d / 10); Py.digit (Py.day d)].
  cbn [forallb]. rewrite !digit_is_digit.
  change (Ascii.eqb "-" "-") with true. cbn [andb].
  rewrite !digit_val_digit.
  replace (1000 * ((Py.year d / 1000) mod 10)
           + 100 * ((Py.year d / 100) mod 10)
           + 10 * ((Py.year d / 10) mod 10) + Py.year d mod 10)
    with (Py.year d) by (Z.div_mod_to_equations; lia).
  replace (10 * ((Py.month d / 10) mod 10) + Py.month d mod 10)
    with (Py.month d) by (Z.div_mod_to_equations; lia).
  replace (10 * ((Py.day d / 10) mod 10) + Py.day d mod 10)
    with (Py.day d) by (Z.div_mod_to_equations; lia).
  by rewrite Hwf.
Qed.

(** ** The agenda query *)

Lemma by_date_time_spec (a b : Joined.row) :
  by_date_time a b = true ↔ agenda_le a b.
Proof.
  unfold by_date_time, agenda_le, text_lt. simpl.
  destruct (String.compare _ _) eqn:E.
  - apply String.compare_eq_iff in E. rewrite time_leb_spec.
    split; [by right|]. by intros [?|[_ ?]].
  - split; [by left|done].
  - split; [done|]. intros [?|[Heq _]]; [done|].
    rewrite Heq in E. by apply text_lt_gt, text_lt_irrefl in E.
Qed.

Lemma elem_of_joined (cs : gmap Z Client.row) (ss : gmap Z Service.row)
    (r : Joined.row) :
  r ∈ left_join cs <$> table_scan ss
  ↔ ∃ k s, ss !! k = Some s ∧ r = left_join cs (k, s).
Proof.
  rewrite list_elem_of_fmap. split.
  - intros [[k s] [-> Hin]]. exists k, s. by rewrite <- elem_of_table_scan.
  - intros (k & s & Hks & ->). exists (k, s). by rewrite elem_of_table_scan.
Qed.

Section QueryProperties.
Context {RT : Runtime}.
Hypothesis Hsorts : sorts.

Lemma where_range_spec (start end_ : string) (r : Joined.row) :
  where_range start end_ r = true
  ↔ in_range start end_ (Service.service_date (Joined.service r)).
Proof.
  unfold where_range, in_range, text_le, text_lt, sql_ge, sql_lt,
    String.leb, String.ltb.
  destruct (sqlite_date start) as [lo|], (sqlite_date end_) as [hi|],
           (sqlite_date _) as [x|]; simpl;
    repeat (destruct (String.compare _ _)); simpl; intuition congruence.
Qed.

(** On the texts the interface stores and passes ([isoformat] of a date),
    the interval is the interval of the calendar, provided [date()] reads
    such a text as itself. *)
Lemma in_range_isoformat (lo hi d : Py.date) :
  well_formed lo → well_formed hi → well_formed d →
  sqlite_date (Py.isoformat lo) = Some (Py.isoformat lo) →
  sqlite_date (Py.isoformat hi) = Some (Py.isoformat hi) →
  sqlite_date (Py.isoformat d) = Some (Py.isoformat d) →
  in_range (Py.isoformat lo) (Py.isoformat hi) (Py.isoformat d)
  ↔ date_compare lo d ≠ Gt ∧ date_compare d hi = Lt.
Proof.
  intros Hlo Hhi Hd Elo Ehi Ed. unfold in_range, text_le, text_lt.
  rewrite Elo, Ehi, Ed. by rewrite !isoformat_compare.
Qed.

Lemma select_services_all (file : store) :
  select_services None None file
  = order_by by_date_time
      (left_join (clients file) <$> table_scan (services file)).
Proof. reflexivity. Qed.

Lemma select_services_some (start end_ : string) (file : store) :
  start ≠ EmptyString → end_ ≠ EmptyString →
  select_services (Some start) (Some end_) file
  = order_by by_date_time
      (List.filter (where_range start end_)
         (left_join (clients file) <$> table_scan (services file))).
Proof.
  intros Hs He. unfold select_services, Py.truthy.
  rewrite !(proj2 (String.eqb_neq _ _)) by done. reflexivity.
Qed.

Lemma order_by_date_time_sorted (l : list Joined.row) :
  StronglySorted agenda_le (order_by by_date_time l).
Proof.
  destruct (Hsorts _ by_date_time l) as [_ Hsorted].
  apply (StronglySorted_impl (λ a b, by_date_time a b = true)).
  - intros a b. apply by_date_time_spec.
  - apply Hsorted.
    + intros x y z. rewrite !by_date_time_spec. apply agenda_le_trans.
    + intros x y. rewrite !by_date_time_spec. apply agenda_le_total.
Qed.


(** C3: with two bounds (texts that are not empty) the query returns the
    rows of the query without bounds whose date lies in the half-open
    interval, each once: a row dated [start] is returned when the
    interval is not empty, a row dated [end_] never is.  Without bounds
    it returns one row for each service of the table. *)
Theorem select_services_range (start end_ : string) (file : store) :
  start ≠ EmptyString → end_ ≠ EmptyString →
  select_services (Some start) (Some end_) file
  ≡ₚ filter (λ r, in_range start end_
                    (Service.service_date (Joined.service r)))
       (select_services None None file)
  ∧ (∀ r, r ∈ select_services None None file →
          Service.service_date (Joined.service r) = start →
          in_range start end_ start →
          r ∈ select_services (Some start) (Some end_) file)
  ∧ (∀ r, r ∈ select_services (Some start) (Some end_) file →
          Service.service_date (Joined.service r) ≠ end_)
  ∧ (∀ r, r ∈ select_services None None file
          ↔ ∃ k s, services file !! k = Some s
                   ∧ r = left_join (clients file) (k, s))
  ∧ length (select_services None None file) = size (services file).
Proof.
  intros Hs He.
  assert (Heq : select_services (Some start) (Some end_) file
    ≡ₚ filter (λ r, in_range start end_
                      (Service.service_date (Joined.service r)))
         (select_services None None file)).
  { rewrite select_services_some, select_services_all by done.
    rewrite (list_filter_bool (where_range start end_)
               (λ r, in_range start end_
                       (Service.service_date (Joined.service r))))
      by apply where_range_spec.
    by rewrite !(order_by_Permutation Hsorts). }
  split; [exact Heq|]. split; [|split; [|split]].
  - intros r Hr Hd Hin. rewrite Heq. apply list_elem_of_filter.
    split; [|done]. by rewrite Hd.
  - intros r Hr Hd. rewrite Heq in Hr.
    apply list_elem_of_filter in Hr as [Hin _]. rewrite Hd in Hin.
    unfold in_range in Hin.
    destruct (sqlite_date start), (sqlite_date end_); try done.
    destruct Hin as [_ Hlt]. by apply text_lt_irrefl in Hlt.
  - intros r. rewrite select_services_all, (order_by_Permutation Hsorts).
    apply elem_of_joined.
  - rewrite select_services_all, (order_by_Permutation Hsorts), length_fmap.
    apply table_scan_length.
Qed.

End QueryProperties.


(** ** The monthly summary *)






(** ** Writes and the cache *)

Lemma disciplined_app (evs1 evs2 : list event) :
  disciplined evs1 → disciplined evs2 → disciplined (evs1 ++ evs2).
Proof. induction 1; intros; simpl; try constructor; auto. Qed.

Section ApplicationProperties.
Context {RT : Runtime}.

Lemma run_op_raise (o : dal_op) (file : store) (e : sql_error) :
  (run_op o file).2 = Raise e → (run_op o file).1 = file.
Proof.
  destruct o; cbn [run_op];
    unfold add_client, update_client, add_service, update_service,
      delete_service;
    rewrite ?with_connection_single;
    try (destruct (exec_stmt _ _); done).
  destruct (decide (int64 client_id)).
  - by rewrite delete_client_eq.
  - by rewrite delete_client_overflow.
Qed.

Lemma write_clear_run (o : dal_op) (w : world) :
  (dal o;; update_cache) w
  = match run_op o (db w) with
    | (file, Ok _) =>
        (World file None ∅
           (log w ++ [EvWrite o; EvClear ClientQueries;
                      EvClear ServiceQueries]),
         Ok tt)
    | (file, Raise e) =>
        (World file (clients_cache w) (services_cache w) (log w),
         Raise (SqlError e))
    end.
Proof.
  unfold mbind, ui_bind, dal, update_cache.
  destruct (run_op o (db w)) as [file [[]|e]]; simpl; [|done].
  by rewrite <- app_assoc.
Qed.

Lemma tidy_ret {A} (a : A) : tidy (mret a).
Proof. intros w. exists []. simpl. rewrite app_nil_r. split; [done|split; [constructor|done]]. Qed.

Lemma tidy_raise {A} (e : exn) : tidy (@raise A e).
Proof. intros w. exists []. simpl. rewrite app_nil_r. split; [done|split; [constructor|done]]. Qed.

Lemma tidy_bind {A B} (m : ui A) (k : A → ui B) :
  tidy m → (∀ a, tidy (k a)) → tidy (m ≫= k).
Proof.
  intros Hm Hk w. destruct (Hm w) as (evs1 & Hlog1 & Hd1 & Hc1).
  unfold mbind, ui_bind. destruct (m w) as [w1 [a|e]]; simpl in *.
  - destruct (Hk a w1) as (evs2 & Hlog2 & Hd2 & Hc2).
    exists (evs1 ++ evs2). rewrite Hlog2, Hlog1, app_assoc.
    split; [done|]. split; [by apply disciplined_app|auto].
  - exists evs1. auto.
Qed.

Lemma tidy_ext {A} (m m' : ui A) : (∀ w, m w = m' w) → tidy m → tidy m'.
Proof. intros Heq Hm w. rewrite <- Heq. apply Hm. Qed.

Lemma ui_bind_assoc {A B C} (m : ui A) (k1 : A → ui B) (k2 : B → ui C)
    (w : world) :
  ((m ≫= k1) ≫= k2) w = (m ≫= λ a, k1 a ≫= k2) w.
Proof.
  unfold mbind, ui_bind. destruct (m w) as [w1 [a|e]]; [|done].
  by destruct (k1 a w1) as [w2 [b|e]].
Qed.

Lemma tidy_iloc0 {A} (l : list A) : tidy (iloc0 l).
Proof. destruct l; [apply tidy_raise|apply tidy_ret]. Qed.

Lemma tidy_write_clear (o : dal_op) : tidy (dal o;; update_cache).
Proof.
  intros w. rewrite write_clear_run.
  pose proof (run_op_raise o (db w)) as Hraise.
  destruct (run_op o (db w)) as [file [[]|e]]; simpl in *.
  - eexists. split; [done|]. split; [repeat constructor|].
    intros _. split; [done|]. intros k e Hk. simpl in Hk.
    by rewrite lookup_empty in Hk.
  - exists []. rewrite app_nil_r. split; [done|]. split; [constructor|].
    rewrite (Hraise e eq_refl). by destruct w.
Qed.

Lemma tidy_get_clients_df (now : Z) : tidy (get_clients_df now).
Proof.
  intros w. unfold get_clients_df.
  assert (Hhit : ∃ evs, log w = log w ++ evs ∧ disciplined evs
                        ∧ (coherent w → coherent w)).
  { exists []. rewrite app_nil_r. split; [done|split; [constructor|done]]. }
  assert (Hmiss : ∃ evs,
    log w ++ [EvQuery ClientQueries] = log w ++ evs ∧ disciplined evs
    ∧ (coherent w →
       coherent (World (db w) (Some (Cached (select_clients (db w)) now))
                   (services_cache w) (log w ++ [EvQuery ClientQueries])))).
  { eexists. split; [done|]. split; [repeat constructor|].
    intros [_ Hs]. split; [|done]. simpl. by intros e [= <-]. }
  destruct (clients_cache w) as [e|]; [|exact Hmiss].
  destruct (fresh now e); [exact Hhit|exact Hmiss].
Qed.

Lemma tidy_get_services_df (now : Z) (start end_ : option string) :
  tidy (get_services_df now start end_).
Proof.
  intros w. unfold get_services_df.
  assert (Hhit : ∃ evs, log w = log w ++ evs ∧ disciplined evs
                        ∧ (coherent w → coherent w)).
  { exists []. rewrite app_nil_r. split; [done|split; [constructor|done]]. }
  assert (Hmiss : ∃ evs,
    log w ++ [EvQuery ServiceQueries] = log w ++ evs ∧ disciplined evs
    ∧ (coherent w →
       coherent
         (World (db w) (clients_cache w)
            (<[(start, end_) :=
                 Cached (select_services start end_ (db w)) now]>
               (services_cache w))
            (log w ++ [EvQuery ServiceQueries])))).
  { eexists. split; [done|]. split; [repeat constructor|].
    intros [Hc Hs]. split; [done|]. simpl. intros k e.
    destruct (decide ((start, end_) = k)) as [<-|Hne].
    - rewrite lookup_insert_eq. by intros [= <-].
    - rewrite lookup_insert_ne by done. apply Hs. }
  destruct (services_cache w !! (start, end_)) as [e|]; [|exact Hmiss].
  destruct (fresh now e); [exact Hhit|exact Hmiss].
Qed.

Lemma tidy_press (b : button) : tidy (press b).
Proof.
  destruct b; cbn [press];
    unfold guardar_cliente_nuevo, agregar_servicio, guardar_cambios_servicio,
      eliminar_servicio, guardar_cambios_cliente, eliminar_cliente;
    try apply tidy_write_clear.
  - case_match; [apply tidy_ret|apply tidy_write_clear].
  - apply tidy_bind; [|intros; apply tidy_write_clear].
    case_match; [|apply tidy_ret].
    case_match; [apply tidy_raise|].
    eapply tidy_ext; [intros; apply ui_bind_assoc|].
    apply tidy_bind; [apply tidy_write_clear|intros _].
    apply tidy_bind; [apply tidy_get_clients_df|intros clients_df].
    apply tidy_bind; [apply tidy_iloc0|intros; apply tidy_ret].
Qed.

Lemma bind_write_clear_ok {A} (m : ui A) (o : A → dal_op) (w : world) :
  ((m ≫= λ a, dal (o a);; update_cache) w).2 = Ok tt →
  clients_cache ((m ≫= λ a, dal (o a);; update_cache) w).1 = None
  ∧ services_cache ((m ≫= λ a, dal (o a);; update_cache) w).1 = ∅.
Proof.
  change ((m ≫= λ a, dal (o a);; update_cache) w)
    with (match m w with
          | (w', Ok a) => (dal (o a);; update_cache) w'
          | (w', Raise e) => (w', Raise e)
          end).
  destruct (m w) as [w1 [a|e]]; [|done].
  rewrite write_clear_run. by destruct (run_op _ _) as [file [[]|e]].
Qed.

Lemma write_clear_ok (o : dal_op) (w : world) :
  ((dal o;; update_cache) w).2 = Ok tt →
  clients_cache ((dal o;; update_cache) w).1 = None
  ∧ services_cache ((dal o;; update_cache) w).1 = ∅.
Proof.
  rewrite write_clear_run. by destruct (run_op _ _) as [file [[]|e]].
Qed.

Lemma press_ok_clean (b : button) (w : world) :
  (press b w).2 = Ok tt →
  (press b w).1 = w
  ∨ (clients_cache (press b w).1 = None ∧ services_cache (press b w).1 = ∅).
Proof.
  destruct b; cbn [press];
    unfold guardar_cliente_nuevo, agregar_servicio, guardar_cambios_servicio,
      eliminar_servicio, guardar_cambios_cliente, eliminar_cliente;
    try (intros; right; by apply write_clear_ok).
  - case_match; [by left|]. intros. right. by apply write_clear_ok.
  - intros. right. by apply bind_write_clear_ok.
Qed.

(** C7: whatever button is pressed, what it adds to the record of events
    is disciplined: each write that succeeded is followed at once by the
    clearing of the cache of the clients and of the cache of the services,
    and no cache is cleared at another moment.  When the press succeeded
    and wrote, both caches are empty at its end; and if no cached entry
    was stale before the press, none is after it.  The same holds for any
    of the six writing functions called the way the interface calls them
    (the call, then [update_cache]). *)
Theorem press_clears_after_write (b : button) (w : world) :
  (∃ evs,
     log (press b w).1 = log w ++ evs
     ∧ disciplined evs
     ∧ ((press b w).2 = Ok tt → (∃ o, EvWrite o ∈ evs) →
        clients_cache (press b w).1 = None
        ∧ services_cache (press b w).1 = ∅)
     ∧ (coherent w → coherent (press b w).1))
  ∧ (∀ o file,
       run_op o (db w) = (file, Ok tt) →
       (dal o;; update_cache) w
       = (World file None ∅
            (log w ++ [EvWrite o; EvClear ClientQueries;
                       EvClear ServiceQueries]),
          Ok tt)).
Proof.
  split.
  - destruct (tidy_press b w) as (evs & Hlog & Hd & Hc).
    exists evs. split; [done|]. split; [done|]. split; [|done].
    intros Hok [o Ho]. destruct (press_ok_clean b w Hok) as [Hsame|?]; [|done].
    rewrite Hsame in Hlog. rewrite <- (app_nil_r (log w)) in Hlog at 1.
    apply app_inv_head in Hlog. subst evs. by apply elem_of_nil in Ho.
  - intros o file Hrun. by rewrite write_clear_run, Hrun.
Qed.

(** C1: [delete_client], on the key of a client (an integer of 64 bits,
    as every key of a row is), returns without an error; every service
    that referred to the client is still in the table, unchanged but for
    its [client_id], which is [NULL]; the other services are untouched;
    and the client is no longer among the rows of the directory query,
    read from the store or, after the button "Eliminar cliente", through
    the cache. *)
Theorem delete_client_detaches (cid : Z) (file : store) :
  int64 cid → sorts →
  (delete_client cid file).2 = Ok tt
  ∧ (∀ sid r, services file !! sid = Some r →
        Service.client_id r = Some cid →
        services (delete_client cid file).1 !! sid
        = Some (Service.set_client_id None r))
  ∧ (∀ sid r, services file !! sid = Some r →
        Service.client_id r ≠ Some cid →
        services (delete_client cid file).1 !! sid = Some r)
  ∧ dom (services (delete_client cid file).1) = dom (services file)
  ∧ (∀ row, row ∈ select_clients (delete_client cid file).1 ↔
            row ∈ select_clients file ∧ row.1 ≠ cid)
  ∧ (∀ w now, db w = file →
        ((eliminar_cliente cid;; get_clients_df now) w).2
        = Ok (select_clients (delete_client cid file).1)).
Proof.
  intros Hint Hsorts.
  split; [by rewrite delete_client_eq|]. split; [|split; [|split; [|split]]].
  - intros sid r Hr Hc. rewrite delete_client_services, Hr by done. simpl.
    unfold detach. by rewrite decide_True.
  - intros sid r Hr Hc. rewrite delete_client_services, Hr by done. simpl.
    unfold detach. by rewrite decide_False.
  - rewrite delete_client_eq by done. simpl. apply dom_fmap_L.
  - intros row. rewrite !(elem_of_select_clients Hsorts).
    rewrite delete_client_eq by done. simpl.
    rewrite lookup_delete_Some. intuition auto.
  - intros w now <-. unfold eliminar_cliente.
    change ((dal (OpDeleteClient cid);; update_cache;; get_clients_df now) w)
      with (((dal (OpDeleteClient cid);; update_cache) ≫=
              λ _, get_clients_df now) w).
    unfold mbind at 1. unfold ui_bind at 1. rewrite write_clear_run.
    cbn [run_op]. by rewrite delete_client_eq.
Qed.

(** ** Amounts written through the forms *)

Lemma keeps_ret (P : store → Prop) {A} (a : A) : keeps P (mret a).
Proof. by intros w. Qed.

Lemma keeps_raise (P : store → Prop) {A} (e : exn) : keeps P (@raise A e).
Proof. by intros w. Qed.

Lemma keeps_bind (P : store → Prop) {A B} (m : ui A) (k : A → ui B) :
  keeps P m → (∀ a, keeps P (k a)) → keeps P (m ≫= k).
Proof.
  intros Hm Hk w Hw. specialize (Hm w Hw).
  unfold mbind, ui_bind. destruct (m w) as [w1 [a|e]]; [|done].
  by apply Hk.
Qed.

Lemma keeps_dal (P : store → Prop) (o : dal_op) :
  (∀ file, P file → P (run_op o file).1) → keeps P (dal o).
Proof.
  intros Ho w Hw. specialize (Ho _ Hw). unfold dal.
  by destruct (run_op o (db w)) as [file [[]|e]].
Qed.

Lemma keeps_update_cache (P : store → Prop) : keeps P update_cache.
Proof. by intros w. Qed.

Lemma keeps_get_clients_df (P : store → Prop) (now : Z) :
  keeps P (get_clients_df now).
Proof.
  intros w Hw. unfold get_clients_df.
  destruct (clients_cache w) as [e|]; [|done]. by destruct (fresh now e).
Qed.

Lemma keeps_iloc0 (P : store → Prop) {A} (l : list A) : keeps P (iloc0 l).
Proof. destruct l; [apply keeps_raise|apply keeps_ret]. Qed.

Lemma keeps_write_clear (P : store → Prop) (o : dal_op) :
  (∀ file, P file → P (run_op o file).1) → keeps P (dal o;; update_cache).
Proof.
  intros Ho. apply keeps_bind; [by apply keeps_dal|].
  intros _. apply keeps_update_cache.
Qed.

Lemma press_amounts (b : button) :
  form_amount_ok b → keeps amounts_nonneg (press b).
Proof.
  intros Hb.
  assert (Hop : ∀ o, op_amount_nonneg o →
                     keeps amounts_nonneg (dal o;; update_cache)).
  { intros o Ho. apply keeps_write_clear. intros file.
    by apply run_op_amounts. }
  assert (Hfloat : ∀ x, 0 <= x →
                        ∃ v, Some (Float x) = Some v ∧ 0 <= number_value v).
  { intros x Hx. eexists. split; [done|]. by apply nearest_double_nonneg. }
  destruct b; cbn [press form_amount_ok] in *;
    unfold guardar_cliente_nuevo, agregar_servicio, guardar_cambios_servicio,
      eliminar_servicio, guardar_cambios_cliente, eliminar_cliente;
    try (apply Hop; simpl; eauto).
  - case_match; [apply keeps_ret|by apply Hop].
  - apply keeps_bind; [|intros; apply Hop; simpl; eauto].
    case_match; [|apply keeps_ret].
    case_match; [apply keeps_raise|].
    apply keeps_bind; [by apply keeps_dal; intros; apply run_op_amounts|].
    intros _. apply keeps_bind; [apply keeps_update_cache|]. intros _.
    apply keeps_bind; [apply keeps_get_clients_df|]. intros clients_df.
    apply keeps_bind; [apply keeps_iloc0|intros; apply keeps_ret].
Qed.

(** C9 (as amended): the data access functions store the amount they are
    given.  In a store in which every amount is a number that is not
    negative (the empty store is one), a sequence of calls that hands only
    such amounts to [add_service] and [update_service] leaves every amount
    a number that is not negative; and so does every press of a button,
    since the amount inputs of the two forms have the lower bound 0. *)
Theorem amounts_stay_nonneg :
  amounts_nonneg empty_store
  ∧ (∀ ops file, Forall op_amount_nonneg ops → amounts_nonneg file →
                 amounts_nonneg (run_ops ops file))
  ∧ (∀ b w, form_amount_ok b → amounts_nonneg (db w) →
            amounts_nonneg (db (press b w).1)).
Proof.
  split; [apply map_Forall_empty|]. split.
  - apply run_ops_amounts.
  - intros b w Hb. by apply press_amounts.
Qed.

End ApplicationProperties.
(** ** The model at work on the sample data *)

Example sample_directory :
  (λ r, (r.1, Client.name r.2))
    <$> select_clients (RT:=reference_runtime) sample_store
  = [(2, "Ana"%string); (1, "Luis"%string)].
Proof. reflexivity. Qed.

(** December 2024 of the sample: the bounds of the month, the rows of the
    month (services 2 and 3 share date and time), the three figures. *)
Example sample_december :
  let df :=
    select_services (RT:=reference_runtime) (Some "2024-12-01"%string)
      (Some "2025-01-01"%string) sample_store in
  (λ '(a, b), (Py.isoformat a, Py.isoformat b)) <$> month_bounds 2024 12
    = Some ("2024-12-01"%string, "2025-01-01"%string)
  ∧ Joined.id <$> df = [1; 2; 3]
  ∧ Joined.id <$> select_services (RT:=reference_runtime) None None
                    sample_store = [1; 2; 3; 4]
  ∧ (ingresos_pagados df, cobros_pendientes df, total_servicios df)
    = (125, 50, 3).
Proof. vm_compute. auto. Qed.

(** The float nearest to an integer: the integer itself up to 53 bits,
    then every second integer, halves to the even neighbour. *)
Example sample_nearest_double :
  nearest_double 9007199254740992 = 9007199254740992
  ∧ nearest_double 9007199254740993 = 9007199254740992
  ∧ nearest_double 9007199254740995 = 9007199254740996
  ∧ nearest_double (-9007199254740993) = -9007199254740992
  ∧ nearest_double 9223372036854775807 = 9223372036854775808.
Proof. vm_compute. auto. Qed.

Lemma delete_client_detaches_witness :
  services (delete_client 1 sample_store).1 !! 3
  = Some (Service.Row "2024-12-15" (Some "09:30"%string) None
            (Some "Control de plagas"%string) (Some 25)
            (Some "Pagado"%string) (Some EmptyString)).
Proof.
  assert (Hint : int64 1) by (unfold int64; lia).
  apply (proj1 (proj2 (delete_client_detaches (RT:=reference_runtime)
                         1 sample_store Hint reference_sorts)) 3
           (Service.Row "2024-12-15" (Some "09:30"%string) (Some 1)
              (Some "Control de plagas"%string) (Some 25)
              (Some "Pagado"%string) (Some EmptyString)));
    reflexivity.
Defined.

Lemma delete_client_atomic_witness :
  interrupted 2 (delete_client_steps 1) sample_store = sample_store
  ∧ interrupted 3 (delete_client_steps 1) sample_store
    = (delete_client 1 sample_store).1.
Proof.
  assert (Hint : int64 1) by (unfold int64; lia).
  split.
  - apply (proj1 (proj2 (proj2 (delete_client_atomic 1 sample_store 2
                                  Hint)))).
    lia.
  - apply (proj1 (proj2 (proj2 (proj2
             (delete_client_atomic 1 sample_store 3 Hint))))).
    lia.
Defined.

(** The atomicity is that of the single commit: were each statement
    committed by itself, an interruption between the two would leave the
    references removed and the client in place. *)
Example committed_one_by_one_is_not_atomic :
  interrupted 2 (committed_one_by_one 1) sample_store ≠ sample_store
  ∧ interrupted 2 (committed_one_by_one 1) sample_store
    ≠ (delete_client 1 sample_store).1.
Proof.
  split; intros Heq.
  - apply (f_equal (λ st, Service.client_id <$> services st !! 1)) in Heq.
    vm_compute in Heq. discriminate Heq.
  - apply (f_equal (λ st, Client.name <$> clients st !! 1)) in Heq.
    vm_compute in Heq. discriminate Heq.
Qed.

Lemma select_services_range_witness :
  select_services (RT:=reference_runtime) (Some "2024-12-01"%string)
    (Some "2025-01-01"%string) sample_store
  ≡ₚ filter (λ r, in_range (RT:=reference_runtime) "2024-12-01"
                    "2025-01-01" (Service.service_date (Joined.service r)))
       (select_services (RT:=reference_runtime) None None sample_store).
Proof.
  apply (select_services_range (RT:=reference_runtime) reference_sorts
           "2024-12-01" "2025-01-01" sample_store); discriminate.
Defined.



Lemma press_clears_after_write_witness :
  (dal (RT:=reference_runtime) (OpDeleteClient 1);; update_cache) sample_world
  = (World (delete_client 1 sample_store).1 None ∅
       [EvWrite (OpDeleteClient 1); EvClear ClientQueries;
        EvClear ServiceQueries],
     Ok tt).
Proof.
  apply (proj2 (press_clears_after_write (RT:=reference_runtime)
                  (EliminarCliente 1) sample_world)
           (OpDeleteClient 1) (delete_client 1 sample_store).1).
  reflexivity.
Defined.

Lemma absent_key_no_error_witness :
  get_service_by_id 9 sample_store = Ok None
  ∧ delete_service 9 sample_store = (sample_store, Ok tt).
Proof.
  assert (Hint : int64 9) by (unfold int64; lia).
  destruct (proj1 (absent_key_no_error (RT:=reference_runtime)
                     9 sample_store) Hint eq_refl) as (Hget & Hdel & _).
  split; [exact Hget|exact Hdel].
Defined.

Lemma amounts_stay_nonneg_witness : amounts_nonneg sample_store.
Proof.
  apply (proj1 (proj2 (amounts_stay_nonneg (RT:=reference_runtime)))
           sample_ops empty_store).
  - repeat constructor; simpl; eexists;
      (split; [reflexivity|vm_compute; discriminate]).
  - apply (proj1 (amounts_stay_nonneg (RT:=reference_runtime))).
Defined.

Lemma add_service_roundtrip_witness :
  ∃ row,
    get_service_by_id
      (services_seq
         (add_service (Some "2025-02-03"%string) (Some "16:45"%string)
            (Some 2) (Some "Desratizacion"%string) (Some (Float 350))
            (Some "Pendiente"%string) (Some "Traer escalera"%string)
            sample_store).1)
      (add_service (Some "2025-02-03"%string) (Some "16:45"%string)
         (Some 2) (Some "Desratizacion"%string) (Some (Float 350))
         (Some "Pendiente"%string) (Some "Traer escalera"%string)
         sample_store).1
    = Ok (Some (services_seq
                  (add_service (Some "2025-02-03"%string)
                     (Some "16:45"%string) (Some 2)
                     (Some "Desratizacion"%string) (Some (Float 350))
                     (Some "Pendiente"%string)
                     (Some "Traer escalera"%string) sample_store).1, row))
    ∧ Service.client_id row = Some 2
    ∧ Service.amount row = Some 350
    ∧ Service.notes row = Some "Traer escalera"%string.
Proof.
  destruct (add_service_roundtrip (Some "2025-02-03"%string)
              (Some "16:45"%string) (Some 2) (Some "Desratizacion"%string)
              (Some (Float 350)) (Some "Pendiente"%string)
              (Some "Traer escalera"%string) sample_store
              (add_service (Some "2025-02-03"%string) (Some "16:45"%string)
                 (Some 2) (Some "Desratizacion"%string) (Some (Float 350))
                 (Some "Pendiente"%string) (Some "Traer escalera"%string)
                 sample_store).1)
    as (row & Hget & _ & _ & _ & Hclient & _ & _ & Hfloat & _ & _ & Hnotes).
  - vm_compute. reflexivity.
  - exists row. split; [exact Hget|]. split; [exact Hclient|].
    split; [exact (Hfloat 350 eq_refl)|exact Hnotes].
Defined.

(** C10 (as stated) fails for an integer amount of more than 53 bits: the
    [REAL] column keeps the float nearest to it, and the lookup returns
    that float. *)
Lemma add_service_rounds_amount :
  (add_service (Some "2024-03-05"%string) None None None
     (Some (Int 9007199254740993)) (Some "Pendiente"%string) None
     empty_store).2 = Ok tt
  ∧ get_service_by_id 1
      (add_service (Some "2024-03-05"%string) None None None
         (Some (Int 9007199254740993)) (Some "Pendiente"%string) None
         empty_store).1
    = Ok (Some (1, Service.Row "2024-03-05" None None None
                     (Some 9007199254740992) (Some "Pendiente"%string)
                     None)).
Proof. split; vm_compute; reflexivity. Qed.

(** C8 (as stated) fails in two ways.  No client has the key 7, yet
    [delete_client] changes the store, because a service refers to that
    key.  And the integer 2^63 is the key of no row, yet the lookup
    raises [OverflowError] for it. *)
Lemma delete_client_absent_key_changes_store :
  clients dangling_store !! 7 = None
  ∧ Service.client_id <$> services dangling_store !! 1 = Some (Some 7)
  ∧ Service.client_id <$> services (delete_client 7 dangling_store).1 !! 1
    = Some None
  ∧ (delete_client 7 dangling_store).1 ≠ dangling_store
  ∧ services dangling_store !! 9223372036854775808 = None
  ∧ get_service_by_id 9223372036854775808 dangling_store
    = Raise OverflowError.
Proof.
  split; [reflexivity|]. split; [reflexivity|]. split; [reflexivity|].
  split; [|split; reflexivity].
  intros Heq.
  apply (f_equal (λ st, Service.client_id <$> services st !! 1)) in Heq.
  vm_compute in Heq. discriminate Heq.
Qed.

(** C9 (as stated) fails: [add_service] stores a negative amount as it is,
    [update_service] too, and an amount that was not given is stored as
    [NULL], not as 0. *)
Lemma add_service_stores_negative_amount :
  Service.amount
    <$> services (add_service (Some "2024-03-05"%string) None None None
                    (Some (Int (-5))) (Some "Pendiente"%string) None
                    empty_store).1 !! 1
  = Some (Some (-5))
  ∧ ¬ amounts_nonneg
        (add_service (Some "2024-03-05"%string) None None None
           (Some (Int (-5))) (Some "Pendiente"%string) None empty_store).1
  ∧ Service.amount
      <$> services (update_service 3 (Some "2024-12-15"%string) None None
                      None (Some (Int (-1))) (Some "Pagado"%string) None
                      sample_store).1 !! 3
    = Some (Some (-1))
  ∧ Service.amount
      <$> services (add_service (Some "2024-03-05"%string) None None None
                      None (Some "Pendiente"%string) None empty_store).1 !! 1
    = Some None.
Proof.
  split; [reflexivity|]. split; [|split; reflexivity].
  intros Hall. specialize (Hall 1 _ eq_refl) as (a & Ha & Hpos).
  vm_compute in Ha. injection Ha as <-. lia.
Qed.

(** * Part II, continued: further properties *)

(** ** All or nothing *)

Lemma run_without_commit (stmts : list stmt) (con : connection) :
  durable (run (Execute <$> stmts) con).1 = durable con.
Proof.
  revert con. induction stmts as [|s stmts IH]; intros con; [done|].
  rewrite fmap_cons. cbn [run]. unfold execute.
  destruct (exec_stmt s (view con)); [|done]. by rewrite IH.
Qed.

Lemma run_app (steps1 steps2 : list step) (con : connection) :
  run (steps1 ++ steps2) con
  = match run steps1 con with
    | (con', Ok _) => run steps2 con'
    | (con', Raise e) => (con', Raise e)
    end.
Proof.
  revert con. induction steps1 as [|[s|] steps1 IH]; intros con; simpl.
  - done.
  - destruct (execute s con); [apply IH|done].
  - apply IH.
Qed.

Lemma run_faulty_without_commit (stmts : list stmt) (fault : nat)
    (con : connection) :
  durable (run_faulty fault (Execute <$> stmts) con).1 = durable con.
Proof.
  revert fault con.
  induction stmts as [|s stmts IH]; intros fault con; [by destruct fault|].
  rewrite fmap_cons. destruct fault as [|fault]; [done|].
  cbn [run_faulty]. unfold execute.
  destruct (exec_stmt s (view con)); [|done]. by rewrite IH.
Qed.

Lemma run_faulty_late (steps : list step) (fault : nat) (con : connection) :
  (length steps ≤ fault)%nat → run_faulty fault steps con = run steps con.
Proof.
  revert fault con.
  induction steps as [|[s|] steps IH]; intros fault con Hlen;
    [by destruct fault|..]; simpl in Hlen;
    (destruct fault as [|fault]; [lia|]); cbn [run_faulty run].
  - destruct (execute s con); [|done]. apply IH. lia.
  - apply IH. lia.
Qed.

Lemma run_faulty_app_early (steps1 steps2 : list step) (fault : nat)
    (con : connection) :
  (fault < length steps1)%nat →
  run_faulty fault (steps1 ++ steps2) con = run_faulty fault steps1 con.
Proof.
  revert fault con.
  induction steps1 as [|[s|] steps1 IH]; intros fault con Hlen;
    simpl in Hlen; [lia|..];
    (destruct fault as [|fault]; [done|]); cbn [app run_faulty].
  - destruct (execute s con); [|done]. apply IH. lia.
  - apply IH. lia.
Qed.

Lemma run_faulty_at_commit (stmts : list stmt) (con : connection) :
  durable (run_faulty (length stmts) ((Execute <$> stmts) ++ [Commit]) con).1
  = durable con.
Proof.
  revert con. induction stmts as [|s stmts IH]; intros con; [done|].
  rewrite fmap_cons. cbn [length app run_faulty]. unfold execute.
  destruct (exec_stmt s (view con)); [|done]. by rewrite IH.
Qed.

Section Blocks.
Context {RT : Runtime}.

Lemma run_op_steps (o : dal_op) (file : store) :
  run_op o file = with_connection (op_steps o) file.
Proof. by destruct o. Qed.

Lemma op_steps_commit_at_end (o : dal_op) : commits_at_end (op_steps o).
Proof.
  destruct o; cbn [op_steps]; unfold delete_client_steps;
    first [eexists [_]; reflexivity | eexists [_; _]; reflexivity].
Qed.

(** X1: each of the six writing functions runs a block that commits once,
    at its end.  Such a block is all or nothing: interrupted after any
    number of steps, or with any one step failing, it leaves the database
    file as it was before the call or as the complete call leaves it, and
    a call that raises leaves it as it was. *)
Theorem writes_all_or_nothing (o : dal_op) (k : nat) (file : store) :
  (interrupted k (op_steps o) file = file
   ∨ interrupted k (op_steps o) file = (run_op o file).1)
  ∧ ((with_connection_faulty k (op_steps o) file).1 = file
     ∨ with_connection_faulty k (op_steps o) file = run_op o file)
  ∧ ((k < length (op_steps o))%nat →
     (with_connection_faulty k (op_steps o) file).1 = file
     ∧ interrupted k (op_steps o) file = file)
  ∧ ((run_op o file).2 ≠ Ok tt → (run_op o file).1 = file).
Proof.
  rewrite run_op_steps.
  destruct (op_steps_commit_at_end o) as [stmts ->].
  set (steps := (Execute <$> stmts) ++ [Commit]).
  assert (Hlen : length steps = S (length stmts)).
  { unfold steps. rewrite length_app, length_fmap. simpl. lia. }
  assert (Hearly : (k < length steps)%nat →
            (with_connection_faulty k steps file).1 = file
            ∧ interrupted k steps file = file).
  { intros Hk. split.
    - unfold with_connection_faulty.
      destruct (run_faulty k steps (connect file)) as [con r] eqn:E.
      simpl. change con with (con, r).1. rewrite <- E. unfold steps.
      destruct (decide (k = length stmts)) as [->|Hne].
      + apply run_faulty_at_commit.
      + rewrite run_faulty_app_early by (rewrite length_fmap; lia).
        apply run_faulty_without_commit.
    - unfold interrupted, steps.
      rewrite take_app_le by (rewrite length_fmap; lia).
      rewrite <- fmap_take. apply run_without_commit. }
  assert (Hlate : (length steps ≤ k)%nat →
            with_connection_faulty k steps file = with_connection steps file
            ∧ interrupted k steps file = (with_connection steps file).1).
  { intros Hk. split.
    - unfold with_connection_faulty, with_connection.
      by rewrite run_faulty_late.
    - unfold interrupted, with_connection. rewrite take_ge by done.
      by destruct (run steps (connect file)). }
  split; [|split; [|split]].
  - destruct (decide (k < length steps)%nat) as [Hk|Hk].
    + left. by apply Hearly.
    + right. apply Hlate. lia.
  - destruct (decide (k < length steps)%nat) as [Hk|Hk].
    + left. by apply Hearly.
    + right. apply Hlate. lia.
  - exact Hearly.
  - unfold with_connection, steps. rewrite run_app.
    pose proof (run_without_commit stmts (connect file)) as Hd.
    destruct (run (Execute <$> stmts) (connect file)) as [con [[]|e]];
      simpl in *; [done|]. by intros _.
Qed.

End Blocks.

(** ** The calls one by one *)

Section Calls.
Context {RT : Runtime}.

Lemma add_client_eq n p a t (file : store) :
  add_client n p a t file
  = match exec_stmt (InsertClient (py_strip n) (py_strip p) (py_strip a)
                       (py_strip t)) file with
    | Ok st => (st, Ok tt)
    | Raise e => (file, Raise e)
    end.
Proof. apply with_connection_single. Qed.

Lemma update_client_eq i n p a t (file : store) :
  update_client i n p a t file
  = match exec_stmt (UpdateClient i (py_strip n) (py_strip p) (py_strip a)
                       (py_strip t)) file with
    | Ok st => (st, Ok tt)
    | Raise e => (file, Raise e)
    end.
Proof. apply with_connection_single. Qed.

Lemma delete_service_eq i (file : store) :
  int64 i →
  delete_service i file
  = (Store (clients file) (delete i (services file)) (clients_seq file)
       (services_seq file), Ok tt).
Proof.
  intros Hi%binds_int_true. unfold delete_service.
  by rewrite with_connection_single, exec_stmt_bound.
Qed.

Lemma delete_service_overflow i (file : store) :
  ¬ int64 i → delete_service i file = (file, Raise OverflowError).
Proof.
  intros Hi%binds_int_false. unfold delete_service.
  by rewrite with_connection_single, exec_stmt_overflow.
Qed.

Lemma fits_binds (c : option Z) (a : option number) :
  binds_key c && binds_number a = true ↔ fits c a.
Proof.
  unfold fits, binds_key, binds_number, binds_int.
  rewrite andb_true_iff. split.
  - intros [Hc Ha]. split.
    + intros k ->. by apply bool_decide_eq_true in Hc.
    + intros z ->. by apply bool_decide_eq_true in Ha.
  - intros [Hc Ha]. split.
    + destruct c as [k|]; [|done]. apply bool_decide_eq_true. by apply Hc.
    + destruct a as [[z|x]|]; try done. apply bool_decide_eq_true.
      by apply Ha.
Qed.

Lemma insert_service_binds d t c ty a s n :
  binds (InsertService d t c ty a s n) = true ↔ fits c a.
Proof. apply fits_binds. Qed.

Lemma update_service_binds i d t c ty a s n :
  binds (UpdateService i d t c ty a s n) = true ↔ int64 i ∧ fits c a.
Proof.
  cbn [binds]. rewrite <- andb_assoc, andb_true_iff, fits_binds.
  unfold binds_int. by rewrite bool_decide_eq_true.
Qed.

Lemma status_check_spec (s : option string) :
  status_check s = true
  ↔ s = None ∨ s = Some "Pagado"%string ∨ s = Some "Pendiente"%string.
Proof.
  destruct s as [v|]; simpl.
  - rewrite orb_true_iff, !String.eqb_eq.
    split; [intros [->| ->]; auto|intros [?|[?|?]]; simplify_eq; auto].
  - split; auto.
Qed.

Lemma service_row_ok d t c ty a s n :
  status_check s = true →
  service_row (Some d) t c ty a s n
  = Ok (Service.Row d t c ty (to_real <$> a) s n).
Proof. intros Hs. unfold service_row. by rewrite Hs. Qed.

Lemma service_row_bad d t c ty a s n :
  ¬ (is_Some d ∧ status_check s = true) →
  service_row d t c ty a s n = Raise IntegrityError.
Proof.
  intros Hbad. unfold service_row. destruct d as [d|]; [|done].
  destruct (status_check s); [|done]. destruct Hbad. eauto.
Qed.

(** X2: what [services] accepts.  The integers handed over must fit in
    64 bits, or the call raises [OverflowError].  Then, with a key left,
    [add_service] stores the row exactly when a date is given and the
    status is missing, 'Pagado' or 'Pendiente'; otherwise it raises
    [IntegrityError]; with no key left it raises [OperationalError].
    [update_service] of a row that exists applies the same constraints.
    A call that raises leaves the store as it was. *)
Theorem service_constraints (d t : option string) (c : option Z)
    (ty : option string) (a : option number) (s n : option string)
    (file : store) :
  let valid :=
    is_Some d ∧ (s = None ∨ s = Some "Pagado"%string
                 ∨ s = Some "Pendiente"%string) in
  let has_key :=
    Z.max (services_seq file) (max_rowid (services file)) < MAX_ROWID in
  (fits c a → has_key → valid → (add_service d t c ty a s n file).2 = Ok tt)
  ∧ (fits c a → has_key → ¬ valid →
     add_service d t c ty a s n file = (file, Raise IntegrityError))
  ∧ (fits c a → ¬ has_key →
     add_service d t c ty a s n file = (file, Raise OperationalError))
  ∧ (¬ fits c a →
     add_service d t c ty a s n file = (file, Raise OverflowError))
  ∧ (∀ i, int64 i → fits c a → is_Some (services file !! i) → valid →
          (update_service i d t c ty a s n file).2 = Ok tt)
  ∧ (∀ i, int64 i → fits c a → is_Some (services file !! i) → ¬ valid →
          update_service i d t c ty a s n file
          = (file, Raise IntegrityError))
  ∧ (∀ i, ¬ (int64 i ∧ fits c a) →
          update_service i d t c ty a s n file
          = (file, Raise OverflowError)).
Proof.
  intros valid has_key. unfold valid, has_key. clear valid has_key.
  assert (Hadd : fits c a →
            exec_stmt (InsertService d t c ty a s n) file
            = exec_bound (InsertService d t c ty a s n) file).
  { intros Hf. apply exec_stmt_bound. by apply insert_service_binds. }
  assert (Hupd : ∀ i, int64 i → fits c a →
            exec_stmt (UpdateService i d t c ty a s n) file
            = exec_bound (UpdateService i d t c ty a s n) file).
  { intros i Hi Hf. apply exec_stmt_bound. by apply update_service_binds. }
  split; [|split; [|split; [|split; [|split; [|split]]]]].
  - intros Hf Hk [[d' ->] Hs%status_check_spec].
    rewrite add_service_eq, Hadd by done.
    cbn [exec_bound]. unfold new_rowid. rewrite (proj2 (Z.ltb_lt _ _) Hk).
    by rewrite service_row_ok.
  - intros Hf Hk Hbad. rewrite <- status_check_spec in Hbad.
    rewrite add_service_eq, Hadd by done. cbn [exec_bound].
    unfold new_rowid. rewrite (proj2 (Z.ltb_lt _ _) Hk).
    by rewrite service_row_bad.
  - intros Hf Hk. rewrite add_service_eq, Hadd by done. cbn [exec_bound].
    unfold new_rowid. by rewrite (proj2 (Z.ltb_ge _ _)) by lia.
  - intros Hf. rewrite add_service_eq, exec_stmt_overflow; [done|].
    destruct (binds _) eqn:E; [|done].
    by apply insert_service_binds in E.
  - intros i Hi Hf [r Hr] [[d' ->] Hs%status_check_spec].
    rewrite update_service_eq, Hupd by done. cbn [exec_bound].
    by rewrite Hr, service_row_ok.
  - intros i Hi Hf [r Hr] Hbad. rewrite <- status_check_spec in Hbad.
    rewrite update_service_eq, Hupd by done. cbn [exec_bound].
    by rewrite Hr, service_row_bad.
  - intros i Hf. rewrite update_service_eq, exec_stmt_overflow; [done|].
    destruct (binds _) eqn:E; [|done].
    by apply update_service_binds in E.
Qed.

(** ** Keys *)

Lemma run_op_ids (o : dal_op) (file : store) :
  ids_ok file →
  ids_ok (run_op o file).1
  ∧ clients_seq file <= clients_seq (run_op o file).1
  ∧ services_seq file <= services_seq (run_op o file).1
  ∧ (∀ k, k <= clients_seq file →
          is_Some (clients (run_op o file).1 !! k) →
          is_Some (clients file !! k))
  ∧ (∀ k, k <= services_seq file →
          is_Some (services (run_op o file).1 !! k) →
          is_Some (services file !! k)).
Proof.
  intros [Hc Hs].
  assert (Hsame : ids_ok file ∧ clients_seq file <= clients_seq file
            ∧ services_seq file <= services_seq file
            ∧ (∀ k, k <= clients_seq file → is_Some (clients file !! k) →
                    is_Some (clients file !! k))
            ∧ (∀ k, k <= services_seq file → is_Some (services file !! k) →
                    is_Some (services file !! k))).
  { repeat split; auto; lia. }
  destruct o; cbn [run_op].
  - rewrite add_client_eq. unfold exec_stmt. simpl.
    destruct (new_rowid _ _) as [k|] eqn:Hk; [|done].
    apply new_rowid_fresh in Hk as (Hfresh & Hlt & _). simpl.
    split; [split; simpl; [|done]|split; [lia|split; [lia|split; [|done]]]].
    + intros j Hj. destruct (decide (k = j)) as [->|Hne]; [lia|].
      rewrite lookup_insert_ne in Hj by done. specialize (Hc j Hj). lia.
    + intros j Hj. rewrite lookup_insert_ne by lia. done.
  - rewrite update_client_eq. unfold exec_stmt.
    destruct (binds _); [|done]. simpl.
    destruct (clients file !! client_id) eqn:E; [|done]. simpl.
    assert (Hdom : ∀ j, is_Some (<[client_id := Client.Row (py_strip name)
                          (Some (py_strip phone)) (Some (py_strip address))
                          (Some (py_strip notes))]> (clients file) !! j)
                        → is_Some (clients file !! j)).
    { intros j. destruct (decide (client_id = j)) as [<-|Hne].
      - by rewrite E.
      - by rewrite lookup_insert_ne. }
    repeat split; simpl; auto; lia.
  - destruct (decide (int64 client_id)) as [Hint|Hint];
      [|by rewrite delete_client_overflow].
    rewrite delete_client_eq by done. simpl.
    assert (Hdel : ∀ j, is_Some (delete client_id (clients file) !! j)
                        → is_Some (clients file !! j)).
    { intros j [x Hx]. apply lookup_delete_Some in Hx as [_ Hx]. eauto. }
    assert (Hmap : ∀ j, is_Some ((detach client_id <$> services file) !! j)
                        → is_Some (services file !! j)).
    { intros j. rewrite lookup_fmap. by rewrite fmap_is_Some. }
    repeat split; simpl; auto; lia.
  - rewrite add_service_eq. unfold exec_stmt.
    destruct (binds _); [|done]. simpl.
    destruct (new_rowid _ _) as [k|] eqn:Hk; [|done].
    apply new_rowid_fresh in Hk as (Hfresh & Hlt & _).
    destruct (service_row _ _ _ _ _ _ _) as [row|]; [|done]. simpl.
    split; [split; simpl; [done|]|split; [lia|split; [lia|split; [done|]]]].
    + intros j Hj. destruct (decide (k = j)) as [->|Hne]; [lia|].
      rewrite lookup_insert_ne in Hj by done. specialize (Hs j Hj). lia.
    + intros j Hj. rewrite lookup_insert_ne by lia. done.
  - rewrite update_service_eq. unfold exec_stmt.
    destruct (binds _); [|done]. simpl.
    destruct (services file !! service_id) eqn:E; [|done].
    destruct (service_row _ _ _ _ _ _ _) as [row|]; [|done]. simpl.
    assert (Hdom : ∀ j, is_Some (<[service_id := row]> (services file) !! j)
                        → is_Some (services file !! j)).
    { intros j. destruct (decide (service_id = j)) as [<-|Hne].
      - by rewrite E.
      - by rewrite lookup_insert_ne. }
    repeat split; simpl; auto; lia.
  - destruct (decide (int64 service_id)) as [Hint|Hint];
      [|by rewrite delete_service_overflow].
    rewrite delete_service_eq by done. simpl.
    assert (Hdel : ∀ j, is_Some (delete service_id (services file) !! j)
                        → is_Some (services file !! j)).
    { intros j [x Hx]. apply lookup_delete_Some in Hx as [_ Hx]. eauto. }
    repeat split; simpl; auto; lia.
Qed.

(** X3: keys are never given twice.  In a store where no key is above
    the sequence of its table (the empty store is one), any sequence of
    calls keeps it so and never lowers a sequence; a key at or below the
    sequence that no row has (the key of a deleted row, for one) is never
    the key of a row again. *)
Theorem keys_never_reused (ops : list dal_op) (file : store) :
  ids_ok file →
  ids_ok (run_ops ops file)
  ∧ clients_seq file <= clients_seq (run_ops ops file)
  ∧ services_seq file <= services_seq (run_ops ops file)
  ∧ (∀ k, k <= clients_seq file → clients file !! k = None →
          clients (run_ops ops file) !! k = None)
  ∧ (∀ k, k <= services_seq file → services file !! k = None →
          services (run_ops ops file) !! k = None).
Proof.
  unfold run_ops. revert file.
  induction ops as [|o ops IH]; intros file Hok; simpl.
  - split; [done|]. repeat split; auto; lia.
  - destruct (run_op_ids o file Hok) as (Hok1 & Hc1 & Hs1 & Hkc & Hks).
    destruct (IH _ Hok1) as (Hok2 & Hc2 & Hs2 & Hkc2 & Hks2).
    split; [done|]. split; [lia|]. split; [lia|]. split.
    + intros k Hk Hnone. apply Hkc2; [lia|].
      destruct (clients (run_op o file).1 !! k) eqn:E; [|done].
      destruct (Hkc k Hk (mk_is_Some _ _ E)) as [x Hx]. congruence.
    + intros k Hk Hnone. apply Hks2; [lia|].
      destruct (services (run_op o file).1 !! k) eqn:E; [|done].
      destruct (Hks k Hk (mk_is_Some _ _ E)) as [x Hx]. congruence.
Qed.

End Calls.

(** ** The agenda as a collection of rows *)

Lemma table_scan_keys_NoDup {A} (t : gmap Z A) : NoDup (table_scan t).*1.
Proof. rewrite table_scan_Permutation. apply NoDup_fst_map_to_list. Qed.

Lemma joined_ids_NoDup (cs : gmap Z Client.row) (ss : gmap Z Service.row) :
  NoDup (Joined.id <$> (left_join cs <$> table_scan ss)).
Proof.
  rewrite <- list_fmap_compose.
  rewrite (list_fmap_ext _ fst (table_scan ss)) by done.
  apply table_scan_keys_NoDup.
Qed.

Lemma NoDup_same_id (f : Joined.row → Joined.row) (l : list Joined.row) :
  (∀ r, Joined.id (f r) = Joined.id r) →
  NoDup (Joined.id <$> l) → NoDup (f <$> l).
Proof.
  intros Hf Hl. apply (NoDup_fmap_1 Joined.id).
  rewrite <- list_fmap_compose.
  rewrite (list_fmap_ext _ Joined.id l); [done|].
  intros i r _. apply Hf.
Qed.

Section Agenda.
Context {RT : Runtime}.
Hypothesis Hsorts : sorts.

Lemma selected_spec (start end_ : option string) (r : Joined.row) :
  selected start end_ r
  ↔ match start, end_ with
    | Some s, Some e =>
        if Py.truthy start && Py.truthy end_
        then where_range s e r = true else True
    | _, _ => True
    end.
Proof.
  unfold selected, Py.truthy. destruct start as [s|], end_ as [e|]; try done.
  destruct (String.eqb s EmptyString) eqn:Es;
    [apply String.eqb_eq in Es|apply String.eqb_neq in Es];
    (destruct (String.eqb e EmptyString) eqn:Ee;
     [apply String.eqb_eq in Ee|apply String.eqb_neq in Ee]); simpl;
    rewrite ?where_range_spec; split; auto; intros; congruence.
Qed.

Lemma elem_of_select_services (start end_ : option string) (file : store)
    (r : Joined.row) :
  r ∈ select_services start end_ file
  ↔ selected start end_ r
    ∧ ∃ k v, services file !! k = Some v
             ∧ r = left_join (clients file) (k, v).
Proof.
  rewrite selected_spec. unfold select_services.
  rewrite (order_by_Permutation Hsorts).
  destruct start as [s|], end_ as [e|];
    try (rewrite elem_of_joined; tauto).
  destruct (Py.truthy (Some s) && Py.truthy (Some e)).
  - rewrite list_elem_of_In, filter_In, <- list_elem_of_In, elem_of_joined.
    tauto.
  - rewrite elem_of_joined. tauto.
Qed.

Lemma select_services_ids_NoDup (start end_ : option string)
    (file : store) :
  NoDup (Joined.id <$> select_services start end_ file).
Proof.
  unfold select_services. rewrite (order_by_Permutation Hsorts).
  pose proof (joined_ids_NoDup (clients file) (services file)) as Hall.
  assert (Hsub : ∀ f, NoDup (Joined.id <$> List.filter f
                    (left_join (clients file) <$> table_scan (services file)))).
  { intros f. revert Hall.
    generalize (left_join (clients file) <$> table_scan (services file)).
    intros l. induction l as [|x l IH]; [done|].
    rewrite fmap_cons. intros [Hx Hl]%NoDup_cons. simpl.
    destruct (f x); [|by apply IH]. rewrite fmap_cons.
    apply NoDup_cons. split; [|by apply IH].
    intros Hin. apply Hx. apply list_elem_of_fmap in Hin as (y & -> & Hy).
    apply list_elem_of_fmap. exists y. split; [done|].
    apply list_elem_of_In. apply list_elem_of_In, filter_In in Hy. tauto. }
  destruct start, end_; try done. by case_match.
Qed.

Lemma select_services_NoDup (start end_ : option string) (file : store) :
  NoDup (select_services start end_ file).
Proof. eapply NoDup_fmap_1, select_services_ids_NoDup. Qed.

Lemma selected_same_date (start end_ : option string) (r r' : Joined.row) :
  Service.service_date (Joined.service r')
  = Service.service_date (Joined.service r) →
  selected start end_ r' ↔ selected start end_ r.
Proof. unfold selected. by intros ->. Qed.

Lemma left_join_deleted (cid k : Z) (cs : gmap Z Client.row)
    (v : Service.row) :
  left_join (delete cid cs) (k, detach cid v)
  = forget_client cid (left_join cs (k, v)).
Proof.
  unfold left_join, forget_client, detach, without_client. simpl.
  destruct (decide (Service.client_id v = Some cid)) as [Hc|Hc]; [done|].
  destruct (Service.client_id v) as [c|]; [|done]. simpl.
  rewrite lookup_delete_ne; [done|congruence].
Qed.

(** X4: deleting a client changes the agenda in one way only: the rows of
    the services of that client have their client columns blank (and
    [client_id] null).  The rows are the same services, each once,
    whatever the bounds of the query. *)
Theorem delete_client_agenda (cid : Z) (start end_ : option string)
    (file : store) :
  int64 cid →
  select_services start end_ (delete_client cid file).1
  ≡ₚ forget_client cid <$> select_services start end_ file.
Proof.
  intros Hint. apply NoDup_Permutation.
  - apply select_services_NoDup.
  - apply NoDup_same_id; [|apply select_services_ids_NoDup].
    intros r. unfold forget_client, without_client. by case_decide.
  - intros r. rewrite list_elem_of_fmap, elem_of_select_services.
    rewrite delete_client_eq by done. simpl. split.
    + intros (Hsel & k & v' & Hkv & ->).
      rewrite lookup_fmap in Hkv.
      destruct (services file !! k) as [v|] eqn:E; [|done].
      injection Hkv as <-. exists (left_join (clients file) (k, v)).
      rewrite left_join_deleted. split; [done|].
      apply elem_of_select_services. split; [|eauto].
      eapply selected_same_date; [|exact Hsel].
      rewrite left_join_deleted.
      unfold forget_client, without_client. by case_decide.
    + intros (r0 & -> & Hr0). apply elem_of_select_services in Hr0
        as (Hsel & k & v & Hkv & ->).
      split.
      * eapply selected_same_date; [|exact Hsel].
        unfold forget_client, without_client. by case_decide.
      * exists k, (detach cid v). rewrite lookup_fmap, Hkv.
        by rewrite left_join_deleted.
Qed.

(** X5: [delete_service], on a key of 64 bits, never raises; afterwards
    the lookup of the key answers [None], the other services and the
    clients are as before, and the agenda holds the rows from before
    without the row of that key. *)
Theorem delete_service_removes (i : Z) (start end_ : option string)
    (file : store) :
  int64 i →
  (delete_service i file).2 = Ok tt
  ∧ get_service_by_id i (delete_service i file).1 = Ok None
  ∧ (∀ j, j ≠ i →
          get_service_by_id j (delete_service i file).1
          = get_service_by_id j file)
  ∧ clients (delete_service i file).1 = clients file
  ∧ select_services start end_ (delete_service i file).1
    ≡ₚ filter (λ r, Joined.id r ≠ i) (select_services start end_ file).
Proof.
  intros Hint. rewrite delete_service_eq by done. simpl.
  unfold get_service_by_id. simpl.
  split; [done|].
  split; [by rewrite binds_int_true, lookup_delete_eq by done|].
  split; [by intros j Hj; rewrite lookup_delete_ne|]. split; [done|].
  apply NoDup_Permutation.
  - apply select_services_NoDup.
  - apply NoDup_filter, select_services_NoDup.
  - intros r. rewrite list_elem_of_filter, !elem_of_select_services. simpl.
    split.
    + intros (Hsel & k & v & Hkv & ->).
      apply lookup_delete_Some in Hkv as [Hne Hkv]. split; [done|].
      split; [done|]. eauto.
    + intros (Hid & Hsel & k & v & Hkv & ->). split; [done|].
      exists k, v. split; [|done]. by rewrite lookup_delete_ne.
Qed.

Lemma left_join_updated (cid k : Z) (n p a : string) (t : option string)
    (cs : gmap Z Client.row) (v : Service.row) :
  left_join (<[cid := Client.Row n (Some p) (Some a) t]> cs) (k, v)
  = with_client cid n p a (left_join cs (k, v)).
Proof.
  unfold left_join, with_client. simpl.
  destruct (decide (Service.client_id v = Some cid)) as [Hc|Hc].
  - rewrite Hc. simpl. by rewrite lookup_insert_eq.
  - destruct (Service.client_id v) as [c|]; [|done]. simpl.
    rewrite lookup_insert_ne; [done|congruence].
Qed.

(** X6: [update_client] of a client that exists never raises; the row of
    the client holds the four texts, stripped; the other clients and all
    services are as before; and the agenda shows the new name, phone and
    address on the rows of the services of that client, the rows being
    otherwise the same. *)
Theorem update_client_shows (cid : Z) (n p a t : string)
    (start end_ : option string) (file : store) :
  int64 cid → is_Some (clients file !! cid) →
  (update_client cid n p a t file).2 = Ok tt
  ∧ clients (update_client cid n p a t file).1 !! cid
    = Some (Client.Row (py_strip n) (Some (py_strip p)) (Some (py_strip a))
              (Some (py_strip t)))
  ∧ (∀ j, j ≠ cid →
          clients (update_client cid n p a t file).1 !! j
          = clients file !! j)
  ∧ services (update_client cid n p a t file).1 = services file
  ∧ select_services start end_ (update_client cid n p a t file).1
    ≡ₚ with_client cid (py_strip n) (py_strip p) (py_strip a)
         <$> select_services start end_ file.
Proof.
  intros Hint [old Hold]. rewrite update_client_eq.
  rewrite exec_stmt_bound by by apply binds_int_true.
  cbn [exec_bound]. rewrite Hold. simpl.
  split; [done|]. split; [by rewrite lookup_insert_eq|].
  split; [by intros j Hj; rewrite lookup_insert_ne|]. split; [done|].
  apply NoDup_Permutation.
  - apply select_services_NoDup.
  - apply NoDup_same_id; [|apply select_services_ids_NoDup].
    intros r. unfold with_client. by case_decide.
  - intros r. rewrite list_elem_of_fmap, elem_of_select_services. simpl.
    split.
    + intros (Hsel & k & v & Hkv & ->).
      exists (left_join (clients file) (k, v)).
      rewrite left_join_updated. split; [done|].
      apply elem_of_select_services. split; [|eauto].
      eapply selected_same_date; [|exact Hsel].
      rewrite left_join_updated. unfold with_client. by case_decide.
    + intros (r0 & -> & Hr0). apply elem_of_select_services in Hr0
        as (Hsel & k & v & Hkv & ->).
      split.
      * eapply selected_same_date; [|exact Hsel].
        unfold with_client. by case_decide.
      * exists k, v. by rewrite left_join_updated.
Qed.

(** X7: with a key left, [add_client] never raises, whatever the four
    texts (a name that is blank once stripped is stored as the empty
    text: the function does not look at it); the new client has a key
    above the sequence, that no row had; the directory lists it with the
    four texts stripped, next to the clients from before; the services are
    untouched. *)
Theorem add_client_lists (n p a t : string) (file : store) :
  Z.max (clients_seq file) (max_rowid (clients file)) < MAX_ROWID →
  ∃ k,
    add_client n p a t file
    = (Store (<[k := Client.Row (py_strip n) (Some (py_strip p))
                       (Some (py_strip a)) (Some (py_strip t))]>
                (clients file))
         (services file) k (services_seq file), Ok tt)
    ∧ clients file !! k = None
    ∧ clients_seq file < k
    ∧ ∀ row, row ∈ select_clients (add_client n p a t file).1
             ↔ row ∈ select_clients file
               ∨ row = (k, Client.Row (py_strip n) (Some (py_strip p))
                             (Some (py_strip a)) (Some (py_strip t))).
Proof.
  intros Hroom. rewrite add_client_eq. unfold exec_stmt.
  cbn [binds exec_bound].
  destruct (new_rowid (clients_seq file) (clients file)) as [k|e] eqn:Hk.
  - exists k. apply new_rowid_fresh in Hk as (Hfresh & Hlt & _).
    split; [done|]. split; [done|]. split; [done|].
    intros [j c]. rewrite !(elem_of_select_clients Hsorts). simpl.
    rewrite lookup_insert_Some. split.
    + intros [[<- <-]|[_ Hj]]; auto.
    + intros [Hj|[= -> ->]]; [|auto]. right. split; [|done].
      intros ->. congruence.
  - unfold new_rowid in Hk. by rewrite (proj2 (Z.ltb_lt _ _) Hroom) in Hk.
Qed.

(** X8: a service that [add_service] accepted is one more row of the
    agenda: the agenda from before holds the rows of the new agenda
    without the row of the new key, and the new row is in the new agenda
    exactly when the bounds of the query select it.  The clients are
    untouched. *)
Theorem add_service_agenda (d t : option string) (c : option Z)
    (ty : option string) (a : option number) (s n : option string)
    (file file' : store) :
  add_service d t c ty a s n file = (file', Ok tt) →
  ∃ row,
    services file' = <[services_seq file' := row]> (services file)
    ∧ services file !! services_seq file' = None
    ∧ clients file' = clients file
    ∧ (∀ start end_,
         select_services start end_ file
         ≡ₚ filter (λ r, Joined.id r ≠ services_seq file')
              (select_services start end_ file'))
    ∧ (∀ start end_,
         left_join (clients file) (services_seq file', row)
           ∈ select_services start end_ file'
         ↔ selected start end_
             (left_join (clients file) (services_seq file', row))).
Proof.
  intros Hadd. rewrite add_service_eq in Hadd. unfold exec_stmt in Hadd.
  destruct (binds _); [|done]. cbn [exec_bound] in Hadd.
  destruct (new_rowid _ _) as [k|] eqn:Hk; [|done].
  apply new_rowid_fresh in Hk as (Hfresh & _ & _).
  destruct (service_row _ _ _ _ _ _ _) as [row|]; [|done].
  injection Hadd as <-. simpl. exists row.
  split; [done|]. split; [done|]. split; [done|]. split.
  - intros start end_. apply NoDup_Permutation.
    + apply select_services_NoDup.
    + apply NoDup_filter, select_services_NoDup.
    + intros r.
      rewrite list_elem_of_filter, !elem_of_select_services. simpl. split.
      * intros (Hsel & j & v & Hjv & ->). simpl.
        split; [congruence|]. split; [done|]. exists j, v. split; [|done].
        rewrite lookup_insert_ne; [done|congruence].
      * intros (Hid & Hsel & j & v & Hjv & ->). split; [done|].
        exists j, v. split; [|done].
        by rewrite lookup_insert_ne in Hjv by (intros ->; done).
  - intros start end_. rewrite elem_of_select_services. simpl. split.
    + by intros [Hsel _].
    + intros Hsel. split; [done|]. exists k, row.
      by rewrite lookup_insert_eq.
Qed.

(** X9: [update_service] of a service that exists, when it returns
    without raising, leaves under that key the values it was given (of
    the amount, the float nearest to it); the other services, the
    clients, the set of keys and the two sequences are as before. *)
Theorem update_service_overwrites (i : Z) (d t : option string)
    (c : option Z) (ty : option string) (a : option number)
    (s n : option string) (file file' : store) :
  is_Some (services file !! i) →
  update_service i d t c ty a s n file = (file', Ok tt) →
  ∃ row,
    get_service_by_id i file' = Ok (Some (i, row))
    ∧ Some (Service.service_date row) = d
    ∧ Service.service_time row = t
    ∧ Service.client_id row = c
    ∧ Service.service_type row = ty
    ∧ Service.amount row = to_real <$> a
    ∧ Service.status row = s
    ∧ Service.notes row = n
    ∧ (∀ j, j ≠ i → get_service_by_id j file' = get_service_by_id j file)
    ∧ dom (services file') = dom (services file)
    ∧ clients file' = clients file
    ∧ clients_seq file' = clients_seq file
    ∧ services_seq file' = services_seq file.
Proof.
  intros [old Hold] Hup. rewrite update_service_eq in Hup.
  unfold exec_stmt in Hup. destruct (binds _) eqn:Hb; [|done].
  apply update_service_binds in Hb as [Hint _].
  cbn [exec_bound] in Hup. rewrite Hold in Hup.
  unfold service_row in Hup. destruct d as [d'|]; [|done].
  destruct (status_check s); [|done]. injection Hup as <-.
  eexists. unfold get_service_by_id. simpl.
  rewrite binds_int_true, lookup_insert_eq by done.
  simpl. repeat (split; [reflexivity|]).
  split; [by intros j Hj; rewrite lookup_insert_ne|].
  split; [|done]. by apply dom_insert_lookup_L.
Qed.

End Agenda.

(** ** References and the directory *)

Section References.
Context {RT : Runtime}.

Lemma run_op_references (o : dal_op) (file : store) :
  op_client_known o file → referential_integrity file →
  referential_integrity (run_op o file).1.
Proof.
  unfold referential_integrity. intros Ho Hri.
  destruct o; cbn [run_op op_client_known] in *.
  - rewrite add_client_eq. unfold exec_stmt. cbn [binds exec_bound].
    destruct (new_rowid _ _) as [k|] eqn:Hk; [|done]. simpl.
    apply new_rowid_fresh in Hk as (Hfresh & _ & _).
    intros sid row c Hrow Hc. destruct (Hri sid row c Hrow Hc) as [x Hx].
    rewrite lookup_insert_ne; [eauto|congruence].
  - rewrite update_client_eq. unfold exec_stmt.
    destruct (binds _); [|done]. cbn [exec_bound].
    destruct (clients file !! client_id) eqn:E; [|done]. simpl.
    intros sid row c Hrow Hc.
    destruct (decide (client_id = c)) as [->|Hne].
    + by rewrite lookup_insert_eq.
    + rewrite lookup_insert_ne by done. eauto.
  - destruct (decide (int64 client_id)) as [Hint|Hint];
      [|by rewrite delete_client_overflow].
    rewrite delete_client_eq by done. simpl. intros sid row c Hrow Hc.
    rewrite lookup_fmap in Hrow.
    destruct (services file !! sid) as [row0|] eqn:E; [|done].
    injection Hrow as <-. unfold detach in Hc.
    destruct (decide (Service.client_id row0 = Some client_id)) as [?|Hne];
      [done|].
    rewrite lookup_delete_ne by congruence. eauto.
  - rewrite add_service_eq. unfold exec_stmt.
    destruct (binds _); [|done]. cbn [exec_bound].
    destruct (new_rowid _ _) as [k|]; [|done].
    unfold service_row. destruct service_date as [d|]; [|done].
    destruct (status_check status); [|done]. simpl.
    intros sid row c Hrow Hc.
    apply lookup_insert_Some in Hrow as [[_ <-]|[_ Hrow]]; [|eauto].
    by apply Ho.
  - rewrite update_service_eq. unfold exec_stmt.
    destruct (binds _); [|done]. cbn [exec_bound].
    destruct (services file !! service_id); [|done].
    unfold service_row. destruct service_date as [d|]; [|done].
    destruct (status_check status); [|done]. simpl.
    intros sid row c Hrow Hc.
    apply lookup_insert_Some in Hrow as [[_ <-]|[_ Hrow]]; [|eauto].
    by apply Ho.
  - destruct (decide (int64 service_id)) as [Hint|Hint];
      [|by rewrite delete_service_overflow].
    rewrite delete_service_eq by done. simpl. intros sid row c Hrow Hc.
    apply lookup_delete_Some in Hrow as [_ Hrow]. eauto.
Qed.

(** X10: no service is left pointing at a client that is gone.  If every
    service that names a client names one of the table, this is still so
    after any sequence of calls in which [add_service] and
    [update_service] are given no client or a client that is in the table
    at that moment; [delete_client] keeps it by itself, and no service
    names the deleted client (its key an integer of 64 bits) afterwards. *)
Theorem references_kept (ops : list dal_op) (file : store) :
  (clients_known ops file → referential_integrity file →
   referential_integrity (run_ops ops file))
  ∧ (∀ cid sid row, int64 cid →
       services (delete_client cid file).1 !! sid = Some row →
       Service.client_id row ≠ Some cid).
Proof.
  split.
  - unfold run_ops. revert file.
    induction ops as [|o ops IH]; intros file Hknown Hri; [done|].
    destruct Hknown as [Ho Hrest]. simpl. apply IH; [done|].
    by apply run_op_references.
  - intros cid sid row Hint. rewrite delete_client_services by done.
    destruct (services file !! sid) as [row0|]; [|done]. simpl.
    intros [= <-]. unfold detach. by case_decide.
Qed.

End References.

Section DirectoryComplete.
Context {RT : Runtime}.
Hypothesis Hsorts : sorts.

(** X11: the directory lists every client of the table once, with its
    key, in ascending order of name (the order of texts). *)
Theorem directory_complete (file : store) :
  (∀ k c, (k, c) ∈ select_clients file ↔ clients file !! k = Some c)
  ∧ StronglySorted directory_le (select_clients file)
  ∧ NoDup (select_clients file).*1
  ∧ length (select_clients file) = size (clients file).
Proof.
  split; [|split; [|split]].
  - intros k c. by rewrite (elem_of_select_clients Hsorts).
  - by apply select_clients_sorted.
  - unfold select_clients.
    rewrite (order_by_Permutation Hsorts). apply table_scan_keys_NoDup.
  - unfold select_clients. rewrite (order_by_Permutation Hsorts).
    apply table_scan_length.
Qed.

End DirectoryComplete.

(** ** Reading through the cache *)

Section Sessions.
Context {RT : Runtime}.

Lemma coherent_read_clients (now : Z) (w : world) :
  coherent w → (get_clients_df now w).2 = Ok (select_clients (db w)).
Proof.
  intros [Hc _]. unfold get_clients_df.
  destruct (clients_cache w) as [e|] eqn:E; [|done].
  destruct (fresh now e); [|done]. simpl. f_equal. by apply Hc.
Qed.

Lemma coherent_read_services (now : Z) (start end_ : option string)
    (w : world) :
  coherent w →
  (get_services_df now start end_ w).2
  = Ok (select_services start end_ (db w)).
Proof.
  intros [_ Hs]. unfold get_services_df.
  destruct (services_cache w !! (start, end_)) as [e|] eqn:E; [|done].
  destruct (fresh now e); [|done]. simpl. f_equal. by apply (Hs _ _ E).
Qed.

Lemma act_tidy (a : action) (w : world) :
  ∃ evs, log (act a w) = log w ++ evs ∧ disciplined evs
         ∧ (coherent w → coherent (act a w)).
Proof.
  destruct a; cbn [act].
  - apply tidy_press.
  - apply tidy_get_clients_df.
  - apply tidy_get_services_df.
Qed.

Lemma session_tidy (acts : list action) (w : world) :
  ∃ evs, log (session acts w) = log w ++ evs ∧ disciplined evs
         ∧ (coherent w → coherent (session acts w)).
Proof.
  unfold session. revert w.
  induction acts as [|a acts IH]; intros w; simpl.
  - exists []. rewrite app_nil_r. split; [done|]. split; [constructor|done].
  - destruct (act_tidy a w) as (evs1 & Hlog1 & Hd1 & Hc1).
    destruct (IH (act a w)) as (evs2 & Hlog2 & Hd2 & Hc2).
    exists (evs1 ++ evs2). rewrite Hlog2, Hlog1, app_assoc.
    split; [done|]. split; [by apply disciplined_app|auto].
Qed.

(** X12: as long as every write goes through the buttons, a read never
    answers with rows that are out of date.  After any sequence of button
    presses and cached reads, whatever the clock readings, on an
    application started with empty caches, [get_clients_df] answers with
    the directory of the database file as it is, and [get_services_df]
    with its agenda. *)
Theorem reads_are_current (acts : list action) (file : store) (now : Z)
    (start end_ : option string) :
  (get_clients_df now (session acts (start_world file))).2
  = Ok (select_clients (db (session acts (start_world file))))
  ∧ (get_services_df now start end_ (session acts (start_world file))).2
    = Ok (select_services start end_
            (db (session acts (start_world file))))
  ∧ disciplined (log (session acts (start_world file))).
Proof.
  destruct (session_tidy acts (start_world file))
    as (evs & Hlog & Hd & Hc).
  assert (Hcoh : coherent (session acts (start_world file))).
  { apply Hc. split; [done|]. intros k e He. simpl in He.
    by rewrite lookup_empty in He. }
  split; [by apply coherent_read_clients|].
  split; [by apply coherent_read_services|].
  by rewrite Hlog.
Qed.

(** X13: what [update_cache] is for.  After a read that filled the cache
    of the directory at time [now], a write that is not followed by
    [update_cache] stays out of sight: a read before [now + 5 s] answers
    with the rows from before the write and does not go to the database;
    a read at [now + 5 s] or later answers with the rows of the database
    as it is. *)
Theorem stale_until_expiry (o : dal_op) (now later : Z) (w : world) :
  clients_cache w = None →
  let w1 := (get_clients_df now w).1 in
  let w2 := (dal o w1).1 in
  (later < now + 5000 →
   get_clients_df later w2 = (w2, Ok (select_clients (db w))))
  ∧ (now + 5000 <= later →
     (get_clients_df later w2).2 = Ok (select_clients (db w2))).
Proof.
  intros Hnone w1 w2.
  assert (Hcache : clients_cache w2
                   = Some (Cached (select_clients (db w)) now)).
  { unfold w2, w1, dal, get_clients_df. rewrite Hnone. simpl.
    by destruct (run_op o (db w)) as [file [[]|e]]. }
  split; intros Hlater; unfold get_clients_df; rewrite Hcache;
    unfold fresh, TTL; simpl.
  - by rewrite (proj2 (Z.ltb_lt _ _)) by lia.
  - by rewrite (proj2 (Z.ltb_ge _ _)) by lia.
Qed.

End Sessions.

(** ** The button "Agregar servicio a la Agenda" with a new client *)

Lemma first_of_name (n : string) (l : list (Z * Client.row))
    (x : Z * Client.row) (rest : list (Z * Client.row)) :
  List.filter (λ r, String.eqb (Client.name r.2) n) l = x :: rest →
  x ∈ l ∧ Client.name x.2 = n.
Proof.
  intros Hfilter.
  assert (Hin : x ∈ List.filter (λ r, String.eqb (Client.name r.2) n) l).
  { rewrite Hfilter. apply list_elem_of_here. }
  apply list_elem_of_In, filter_In in Hin as [Hin Hn].
  split; [by apply list_elem_of_In|]. by apply String.eqb_eq.
Qed.

Section NewClient.
Context {RT : Runtime}.
Hypothesis Hsorts : sorts.

Lemma add_client_run (n p a t : string) (file : store) :
  Z.max (clients_seq file) (max_rowid (clients file)) < MAX_ROWID →
  add_client n p a t file
  = (Store (<[Z.max (clients_seq file) (max_rowid (clients file)) + 1
              := Client.Row (py_strip n) (Some (py_strip p))
                   (Some (py_strip a)) (Some (py_strip t))]>
              (clients file))
       (services file)
       (Z.max (clients_seq file) (max_rowid (clients file)) + 1)
       (services_seq file), Ok tt).
Proof.
  intros Hroom. rewrite add_client_eq. unfold exec_stmt.
  cbn [binds exec_bound]. unfold new_rowid.
  by rewrite (proj2 (Z.ltb_lt _ _) Hroom).
Qed.

(** The press, once the name has passed the check and the client is in
    the table: the directory is read afresh and searched for the name as
    it was typed. *)
Lemma agregar_nuevo_run (now : Z) (cid : option Z) (n p a t : string)
    (d : Py.date) (hh mm : Z) (ty : string) (am : Z) (st no : string)
    (w : world) (db1 : store) :
  py_strip n ≠ EmptyString →
  add_client n p a t (db w) = (db1, Ok tt) →
  press (AgregarServicio now "(Nuevo cliente)" cid n p a t d hh mm ty am
           st no) w
  = let w2 :=
      World db1 (Some (Cached (select_clients db1) now)) ∅
        (log w ++ [EvWrite (OpAddClient n p a t); EvClear ClientQueries;
                   EvClear ServiceQueries; EvQuery ClientQueries]) in
    match List.filter (λ r, String.eqb (Client.name r.2) n)
            (select_clients db1) with
    | [] => (w2, Raise IndexError)
    | row :: _ =>
        (dal (OpAddService (Some (Py.isoformat d))
                (Some (Py.strftime_HM hh mm)) (Some row.1)
                (Some (py_strip ty)) (Some (Float am)) (Some st)
                (Some (py_strip no)));;
         update_cache) w2
    end.
Proof.
  intros Hname Hadd. cbn [press]. unfold agregar_servicio.
  change (String.eqb "(Nuevo cliente)" "(Nuevo cliente)") with true.
  cbv iota. rewrite (proj2 (String.eqb_neq _ _) Hname).
  unfold mbind at 1. unfold ui_bind at 1.
  unfold mbind at 1. unfold ui_bind at 1.
  unfold dal at 1. cbn [run_op db]. rewrite Hadd.
  unfold mbind at 1. unfold ui_bind at 1. unfold update_cache at 1.
  unfold mbind at 1. unfold ui_bind at 1. unfold get_clients_df.
  cbn [clients_cache db services_cache log]. rewrite <- !app_assoc.
  cbn [app].
  unfold mbind at 1. unfold ui_bind at 1.
  by destruct (List.filter _ (select_clients db1)).
Qed.

(** X14: a new client whose name, as the form hands it over, has white
    space before or after it is saved, and the service is not.  The
    client is stored under the stripped name, the directory is then
    searched for the name as handed over, nothing is found (no client has
    that name), and the press ends with [IndexError] before [add_service]
    is reached. *)
Theorem agregar_nuevo_padded_name (now : Z) (cid : option Z)
    (n p a t : string) (d : Py.date) (hh mm : Z) (ty : string) (am : Z)
    (st no : string) (w : world) :
  py_strip n ≠ EmptyString →
  py_strip n ≠ n →
  (∀ k c, clients (db w) !! k = Some c → Client.name c ≠ n) →
  Z.max (clients_seq (db w)) (max_rowid (clients (db w))) < MAX_ROWID →
  ∃ w' k,
    press (AgregarServicio now "(Nuevo cliente)" cid n p a t d hh mm ty am
             st no) w = (w', Raise IndexError)
    ∧ services (db w') = services (db w)
    ∧ clients (db w) !! k = None
    ∧ clients (db w')
      = <[k := Client.Row (py_strip n) (Some (py_strip p))
                 (Some (py_strip a)) (Some (py_strip t))]> (clients (db w)).
Proof.
  intros Hname Hpad Hnone Hroom.
  pose proof (add_client_run n p a t (db w) Hroom) as Hadd.
  rewrite (agregar_nuevo_run _ _ _ _ _ _ _ _ _ _ _ _ _ _ _ Hname Hadd).
  cbv zeta.
  destruct (List.filter _ _) as [|row rest] eqn:Hf.
  - eexists _, _. split; [reflexivity|]. simpl. split; [done|].
    split; [|done].
    destruct (clients (db w) !! _) as [c|] eqn:E; [|done].
    pose proof (max_rowid_bound (clients (db w)) _ (mk_is_Some _ _ E)). lia.
  - exfalso.
    assert (Hin : row ∈ row :: rest) by apply list_elem_of_here.
    rewrite <- Hf in Hin.
    apply list_elem_of_In, filter_In in Hin as [Hin Heq].
    apply list_elem_of_In, (elem_of_select_clients Hsorts) in Hin.
    simpl in Hin.
    apply String.eqb_eq in Heq.
    apply lookup_insert_Some in Hin as [[_ Hrow]|[_ Hrow]].
    + rewrite <- Hrow in Heq. simpl in Heq. done.
    + by apply (Hnone _ _ Hrow).
Qed.

(** X15: a new client whose name has no white space around it is saved,
    and so is the service.  The service is attached to a client of that
    name: to the new client when the name was not taken; when it was, the
    new client is one more client of the name, and the service goes to
    the one of them that the directory lists first, which the order of
    the query leaves open.  Both caches are empty at the end. *)
Theorem agregar_nuevo_attaches (now : Z) (cid : option Z)
    (n p a t : string) (d : Py.date) (hh mm : Z) (ty : string) (am : Z)
    (st no : string) (w : world) :
  n ≠ EmptyString → py_strip n = n →
  st = "Pendiente"%string ∨ st = "Pagado"%string →
  (∀ k, is_Some (clients (db w) !! k) → int64 k) →
  Z.max (clients_seq (db w)) (max_rowid (clients (db w))) < MAX_ROWID →
  Z.max (services_seq (db w)) (max_rowid (services (db w))) < MAX_ROWID →
  ∃ w' kc ks k0 c0,
    press (AgregarServicio now "(Nuevo cliente)" cid n p a t d hh mm ty am
             st no) w = (w', Ok tt)
    ∧ clients (db w) !! kc = None
    ∧ clients (db w')
      = <[kc := Client.Row n (Some (py_strip p)) (Some (py_strip a))
                  (Some (py_strip t))]> (clients (db w))
    ∧ services (db w) !! ks = None
    ∧ services (db w')
      = <[ks := Service.Row (Py.isoformat d) (Some (Py.strftime_HM hh mm))
                  (Some k0) (Some (py_strip ty)) (Some (nearest_double am))
                  (Some st) (Some (py_strip no))]> (services (db w))
    ∧ clients (db w') !! k0 = Some c0
    ∧ Client.name c0 = n
    ∧ ((∀ k c, clients (db w) !! k = Some c → Client.name c ≠ n) → k0 = kc)
    ∧ clients_cache w' = None
    ∧ services_cache w' = ∅.
Proof.
  intros Hname Hstrip Hst Hkeys Hroomc Hrooms.
  pose proof (add_client_run n p a t (db w) Hroomc) as Hadd.
  rewrite Hstrip in Hadd.
  assert (Hname' : py_strip n ≠ EmptyString) by congruence.
  rewrite (agregar_nuevo_run _ _ _ _ _ _ _ _ _ _ _ _ _ _ _ Hname' Hadd).
  cbv zeta.
  set (kc := Z.max (clients_seq (db w)) (max_rowid (clients (db w))) + 1)
    in *.
  set (new := Client.Row n (Some (py_strip p)) (Some (py_strip a))
                (Some (py_strip t))) in *.
  set (db1 := Store (<[kc := new]> (clients (db w))) (services (db w)) kc
                (services_seq (db w))) in *.
  assert (Hfresh : clients (db w) !! kc = None).
  { destruct (clients (db w) !! kc) as [c|] eqn:E; [|done].
    pose proof (max_rowid_bound (clients (db w)) _ (mk_is_Some _ _ E)).
    unfold kc in *. lia. }
  assert (Hkc : int64 kc).
  { pose proof (max_rowid_nonneg (clients (db w))).
    unfold kc, int64, MAX_ROWID in *. lia. }
  destruct (List.filter _ _) as [|row rest] eqn:Hf.
  { exfalso.
    assert (Hin : (kc, new) ∈ @nil (Z * Client.row)); [|by inversion Hin].
    rewrite <- Hf. apply list_elem_of_In, filter_In. split.
    - apply list_elem_of_In, (elem_of_select_clients Hsorts). simpl.
      by rewrite lookup_insert_eq.
    - by apply String.eqb_eq. }
  destruct (first_of_name n _ _ _ Hf) as (Hrow & Hrown).
  apply (elem_of_select_clients Hsorts) in Hrow. simpl in Hrow.
  assert (Hrowk : int64 row.1).
  { apply lookup_insert_Some in Hrow as [[<- _]|[_ Hold]]; [done|].
    apply Hkeys. eauto. }
  rewrite write_clear_run. cbn [run_op db].
  rewrite add_service_eq.
  rewrite exec_stmt_bound by (simpl; by rewrite binds_int_true).
  cbn [exec_bound]. unfold new_rowid.
  cbn [services_seq services db1].
  rewrite (proj2 (Z.ltb_lt _ _) Hrooms).
  assert (Hs : status_check (Some st) = true).
  { destruct Hst as [-> | ->]; reflexivity. }
  rewrite service_row_ok by done. cbv iota.
  eexists _, kc,
    (Z.max (services_seq (db w)) (max_rowid (services (db w))) + 1),
    row.1, row.2.
  split; [reflexivity|]. simpl.
  split; [done|]. split; [done|]. split.
  { destruct (services (db w) !! _) as [c|] eqn:E; [|done].
    pose proof (max_rowid_bound (services (db w)) _ (mk_is_Some _ _ E)).
    lia. }
  split; [done|]. split; [done|]. split; [done|].
  split; [|done].
  intros Hnone.
  apply lookup_insert_Some in Hrow as [[Heq _]|[_ Hold]]; [done|].
  destruct (Hnone _ _ Hold Hrown).
Qed.

(** X16: the name of a client is checked where a client is created and
    nowhere else.  With a name that is blank once stripped, "Guardar
    cliente nuevo" writes nothing and "Agregar servicio" with a new client
    stops the script before anything is written; but "Guardar cambios
    (cliente)" stores the empty name on the client it edits. *)
Theorem blank_name_checked_at_creation (n p a t : string) (w : world) :
  py_strip n = EmptyString →
  press (GuardarClienteNuevo n p a t) w = (w, Ok tt)
  ∧ (∀ now cid d hh mm ty am st no,
       press (AgregarServicio now "(Nuevo cliente)" cid n p a t d hh mm ty
                am st no) w = (w, Raise StopScript))
  ∧ (∀ cid, int64 cid → is_Some (clients (db w) !! cid) →
       (press (GuardarCambiosCliente cid n p a t) w).2 = Ok tt
       ∧ Client.name
           <$> clients (db (press (GuardarCambiosCliente cid n p a t) w).1)
               !! cid
         = Some EmptyString).
Proof.
  intros Hblank. split; [|split].
  - cbn [press]. unfold guardar_cliente_nuevo.
    by rewrite Hblank.
  - intros. cbn [press]. unfold agregar_servicio.
    change (String.eqb "(Nuevo cliente)" "(Nuevo cliente)") with true.
    cbv iota. by rewrite Hblank.
  - intros cid Hint [old Hold]. cbn [press]. unfold guardar_cambios_cliente.
    rewrite write_clear_run. cbn [run_op].
    rewrite update_client_eq.
    rewrite exec_stmt_bound by by apply binds_int_true.
    cbn [exec_bound]. rewrite Hold. simpl.
    by rewrite lookup_insert_eq, Hblank.
Qed.

End NewClient.

(** ** What the forms write *)

Lemma client_map_of_last (l : list (Z * Client.row)) (n : string) :
  client_map_of l !! n
  = fst <$> last (List.filter (λ r, String.eqb (Client.name r.2) n) l).
Proof.
  unfold client_map_of. induction l as [|x l IH] using rev_ind; [done|].
  rewrite foldl_app, List.filter_app. simpl.
  destruct (String.eqb (Client.name x.2) n) eqn:E.
  - apply String.eqb_eq in E. by rewrite E, lookup_insert_eq, last_snoc.
  - apply String.eqb_neq in E.
    by rewrite lookup_insert_ne, app_nil_r by done.
Qed.

Lemma last_filter_name (l : list (Z * Client.row)) (n : string)
    (x : Z * Client.row) :
  last (List.filter (λ r, String.eqb (Client.name r.2) n) l) = Some x →
  x ∈ l ∧ Client.name x.2 = n.
Proof.
  intros Hlast. apply last_Some in Hlast as [l' Hl'].
  assert (Hin : x ∈ List.filter (λ r, String.eqb (Client.name r.2) n) l).
  { rewrite Hl'. apply elem_of_app. right. apply list_elem_of_here. }
  apply list_elem_of_In, filter_In in Hin as [Hin Hn].
  split; [by apply list_elem_of_In|]. by apply String.eqb_eq.
Qed.

Lemma last_filter_some (l : list (Z * Client.row)) (n : string)
    (x : Z * Client.row) :
  x ∈ l → Client.name x.2 = n →
  is_Some (last (List.filter (λ r, String.eqb (Client.name r.2) n) l)).
Proof.
  intros Hin Hn.
  assert (Hx : x ∈ List.filter (λ r, String.eqb (Client.name r.2) n) l).
  { apply list_elem_of_In, filter_In. split; [by apply list_elem_of_In|].
    by apply String.eqb_eq. }
  destruct (List.filter _ l) as [|y l'] using rev_ind;
    [by apply elem_of_nil in Hx|].
  rewrite last_snoc. eauto.
Qed.

Section Forms.
Context {RT : Runtime}.
Hypothesis Hsorts : sorts.

Lemma client_map_of_client (file : store) (n : string) (k : Z) :
  client_map_of (select_clients file) !! n = Some k →
  ∃ c, clients file !! k = Some c ∧ Client.name c = n.
Proof.
  rewrite client_map_of_last.
  destruct (last _) as [[k' c]|] eqn:E; [|done]. intros [= <-].
  apply last_filter_name in E as [Hin Hn].
  apply (elem_of_select_clients Hsorts) in Hin. eauto.
Qed.

(** X17: in the dictionary the edit form builds from the directory, a
    name stands for the last client of that name in the directory: a
    client of that name, and the only one when no two clients share the
    name.  "Guardar cambios" of a service that exists assigns that
    client; with the choice "(Sin cliente)", or a name no client has, it
    leaves the service without a client. *)
Theorem guardar_cambios_assigns (i : Z) (n : string) (d : Py.date)
    (hh mm : Z) (ty : string) (am : Z) (st no : string) (w : world) :
  int64 i → is_Some (services (db w) !! i) →
  st = "Pendiente"%string ∨ st = "Pagado"%string →
  (∀ k, is_Some (clients (db w) !! k) → int64 k) →
  client_map_of (select_clients (db w)) !! n
  = fst <$> last (List.filter (λ r, String.eqb (Client.name r.2) n)
                    (select_clients (db w)))
  ∧ (∀ k, client_map_of (select_clients (db w)) !! n = Some k →
          ∃ c, clients (db w) !! k = Some c ∧ Client.name c = n)
  ∧ (∀ k c, clients (db w) !! k = Some c → Client.name c = n →
            (∀ k' c', clients (db w) !! k' = Some c' →
                      Client.name c' = n → k' = k) →
            client_map_of (select_clients (db w)) !! n = Some k)
  ∧ (press (GuardarCambiosServicio i (client_map_of (select_clients (db w)))
              n d hh mm ty am st no) w).2 = Ok tt
  ∧ Service.client_id
      <$> services
            (db (press (GuardarCambiosServicio i
                          (client_map_of (select_clients (db w))) n d hh mm
                          ty am st no) w).1) !! i
    = Some (if String.eqb n "(Sin cliente)" then None
            else client_map_of (select_clients (db w)) !! n).
Proof.
  intros Hint [old Hold] Hst Hkeys.
  split; [apply client_map_of_last|].
  split; [intros k; apply client_map_of_client|]. split.
  - intros k c Hk Hn Honly.
    destruct (last_filter_some (select_clients (db w)) n (k, c))
      as [[k' c'] Hlast]; [by apply (elem_of_select_clients Hsorts)|done|].
    rewrite client_map_of_last, Hlast. simpl. f_equal.
    apply last_filter_name in Hlast as [Hin Hn'].
    apply (elem_of_select_clients Hsorts) in Hin. by eapply Honly.
  - cbn [press]. unfold guardar_cambios_servicio. rewrite write_clear_run.
    cbn [run_op]. rewrite update_service_eq.
    rewrite exec_stmt_bound.
    + cbn [exec_bound]. rewrite Hold.
      assert (Hs : status_check (Some st) = true).
      { destruct Hst as [-> | ->]; reflexivity. }
      rewrite service_row_ok by done. simpl.
      split; [done|]. by rewrite lookup_insert_eq.
    + apply update_service_binds. split; [done|]. split; [|done].
      intros k Hk. destruct (String.eqb n "(Sin cliente)"); [done|].
      apply client_map_of_client in Hk as (c & Hc & _). apply Hkeys. eauto.
Qed.

Lemma detach_form_row (cid : Z) (r : Service.row) :
  form_row r → form_row (detach cid r).
Proof. unfold detach. by case_decide. Qed.

Lemma run_op_form_rows (o : dal_op) (file : store) :
  writes_form_row o → form_rows file → form_rows (run_op o file).1.
Proof.
  unfold form_rows. intros Ho Hinv.
  destruct o; cbn [run_op writes_form_row] in *.
  - rewrite add_client_eq. unfold exec_stmt. cbn [binds exec_bound].
    by destruct (new_rowid _ _).
  - rewrite update_client_eq. unfold exec_stmt.
    destruct (binds _); [|done]. cbn [exec_bound].
    by destruct (clients file !! _).
  - destruct (decide (int64 client_id)) as [Hint|Hint];
      [|by rewrite delete_client_overflow].
    rewrite delete_client_eq by done. simpl. apply map_Forall_fmap.
    eapply map_Forall_impl; [exact Hinv|]. intros sid row Hrow.
    apply detach_form_row, Hrow.
  - rewrite add_service_eq. unfold exec_stmt.
    destruct (binds _); [|done]. cbn [exec_bound].
    destruct (new_rowid _ _); [|done].
    destruct (service_row _ _ _ _ _ _ _) as [row|] eqn:Er; [|done]. simpl.
    apply map_Forall_insert_2; [by apply Ho|done].
  - rewrite update_service_eq. unfold exec_stmt.
    destruct (binds _); [|done]. cbn [exec_bound].
    destruct (services file !! _); [|done].
    destruct (service_row _ _ _ _ _ _ _) as [row|] eqn:Er; [|done]. simpl.
    apply map_Forall_insert_2; [by apply Ho|done].
  - destruct (decide (int64 service_id)) as [Hint|Hint];
      [|by rewrite delete_service_overflow].
    rewrite delete_service_eq by done. simpl. by apply map_Forall_delete.
Qed.

Lemma form_values_row (d : Py.date) (hh mm am : Z) (st ty no : string)
    (c : option Z) (row : Service.row) :
  form_values_ok d hh mm am st →
  service_row (Some (Py.isoformat d)) (Some (Py.strftime_HM hh mm)) c
    (Some ty) (Some (Float am)) (Some st) (Some no) = Ok row →
  form_row row.
Proof.
  intros (Hd & Hh & Hm & Ha & Hst). unfold service_row.
  destruct (status_check (Some st)); [|done]. intros [= <-].
  unfold form_row. simpl. split; [eauto|]. split; [eauto 10|].
  split; [eauto|]. split.
  { eexists. split; [done|]. by apply nearest_double_nonneg. }
  split; [|eauto].
  destruct Hst as [-> | ->]; auto.
Qed.

(** X18: every service the forms write has the date as a text
    "YYYY-MM-DD" of a date of the calendar, the time as a text "HH:MM",
    a type, an amount that is not negative, one of the two statuses and
    notes: nothing but the client can be [NULL].  If the services of the
    store are so, they are so after any press of a button. *)
Theorem forms_write_complete_rows (b : button) (w : world) :
  form_ok b → form_rows (db w) → form_rows (db (press b w).1).
Proof.
  intros Hb.
  assert (Hop : ∀ o, writes_form_row o →
                     keeps form_rows (dal o;; update_cache)).
  { intros o Ho. apply keeps_write_clear. intros file.
    by apply run_op_form_rows. }
  revert w. change (keeps form_rows (press b)).
  destruct b; cbn [press form_ok] in *;
    unfold guardar_cliente_nuevo, agregar_servicio, guardar_cambios_servicio,
      eliminar_servicio, guardar_cambios_cliente, eliminar_cliente;
    try (by apply Hop).
  - case_match; [apply keeps_ret|by apply Hop].
  - apply keeps_bind.
    + case_match; [|apply keeps_ret].
      case_match; [apply keeps_raise|].
      apply keeps_bind;
        [by apply keeps_dal; intros; apply run_op_form_rows|].
      intros _. apply keeps_bind; [apply keeps_update_cache|]. intros _.
      apply keeps_bind; [apply keeps_get_clients_df|]. intros clients_df.
      apply keeps_bind; [apply keeps_iloc0|intros; apply keeps_ret].
    + intros c. apply Hop. intros row. by apply form_values_row.
  - apply Hop. intros row. by apply form_values_row.
Qed.

End Forms.

(** ** Months *)

Lemma date_new_Some (y m d : Z) (x : Py.date) :
  Py.date_new y m d = Some x →
  x = Py.Date y m d ∧ 1 <= y <= 9999 ∧ 1 <= m <= 12
  ∧ 1 <= d <= Py.days_in_month y m.
Proof.
  unfold Py.date_new, Py.MINYEAR, Py.MAXYEAR.
  destruct (_ && _) eqn:E; [|done]. intros [= <-].
  repeat (apply andb_prop in E as [E ?]). split; [done|]. lia.
Qed.

Lemma month_bounds_Some (y m : Z) (a b : Py.date) :
  month_bounds y m = Some (a, b) →
  1 <= y <= 9999 ∧ 1 <= m <= 12
  ∧ a = Py.Date y m 1
  ∧ b = (if m =? 12 then Py.Date (y + 1) 1 1 else Py.Date y (m + 1) 1)
  ∧ well_formed a ∧ well_formed b.
Proof.
  unfold month_bounds. intros Hmb.
  destruct (Py.date_new y m 1) as [a'|] eqn:Ea; [|done]. simpl in Hmb.
  destruct (if m =? 12 then _ else _) as [b'|] eqn:Eb; [|done].
  simpl in Hmb. injection Hmb as -> ->.
  pose proof (date_new_Some _ _ _ _ Ea) as (-> & Hy & Hm & _).
  split; [done|]. split; [done|]. split; [done|].
  destruct (m =? 12);
    pose proof (date_new_Some _ _ _ _ Eb) as (-> & _);
    (split; [done|]); split; assumption.
Qed.

Lemma date_compare_number (a b : Py.date) :
  1 <= Py.month a <= 12 → 1 <= Py.day a <= 31 →
  1 <= Py.month b <= 12 → 1 <= Py.day b <= 31 →
  date_compare a b
  = ((Py.year a * 13 + Py.month a) * 32 + Py.day a
     ?= (Py.year b * 13 + Py.month b) * 32 + Py.day b).
Proof.
  intros Hma Hda Hmb Hdb. unfold date_compare.
  destruct (Z.compare_spec (Py.year a) (Py.year b));
    destruct (Z.compare_spec (Py.month a) (Py.month b));
    destruct (Z.compare_spec (Py.day a) (Py.day b));
    symmetry;
    first [apply Z.compare_eq_iff | apply Z.compare_lt_iff
          | apply Z.compare_gt_iff]; lia.
Qed.

Lemma month_holds_date (y m : Z) (a b d : Py.date) :
  month_bounds y m = Some (a, b) → well_formed d →
  date_compare a d ≠ Gt ∧ date_compare d b = Lt
  ↔ Py.year d = y ∧ Py.month d = m.
Proof.
  intros (Hy & Hm & -> & -> & _)%month_bounds_Some
         (Hdy & Hdm & Hdd)%well_formed_bounds.
  rewrite (date_compare_number (Py.Date y m 1) d) by (simpl; lia).
  rewrite Z.compare_le_iff. simpl.
  destruct (m =? 12) eqn:E;
    [apply Z.eqb_eq in E|apply Z.eqb_neq in E];
    rewrite date_compare_number by (simpl; lia);
    rewrite Z.compare_lt_iff; simpl; lia.
Qed.

(** X19: the bounds [month_bounds] gives for a month hold the dates of
    that month and no other date: a date of the calendar is on or after
    the first bound and before the second exactly when its year and month
    are the ones asked for.  The function raises exactly when the month is
    not one of the twelve, the year is not one of [datetime.date] (1 to
    9999), or the month is December 9999. *)
Theorem month_bounds_hold_the_month (y m : Z) :
  (∀ a b d, month_bounds y m = Some (a, b) → well_formed d →
            (date_compare a d ≠ Gt ∧ date_compare d b = Lt
             ↔ Py.year d = y ∧ Py.month d = m))
  ∧ (∀ a b, month_bounds y m = Some (a, b) → date_compare a b = Lt)
  ∧ (month_bounds y m = None
     ↔ ¬ (1 <= m <= 12 ∧ 1 <= y <= 9999 ∧ (m = 12 → y <= 9998))).
Proof.
  split; [|split].
  - intros a b d. apply month_holds_date.
  - intros a b Hmb.
    pose proof (month_bounds_Some _ _ _ _ Hmb) as (Hy & Hm & Ha & _ & Hwa & _).
    apply (month_holds_date y m a b a Hmb Hwa). by subst a.
  - split.
    + intros Hnone (Hm & Hy & Hdec). unfold month_bounds in Hnone.
      rewrite (date_new_first_of_month y m) in Hnone by done.
      destruct (m =? 12) eqn:E;
        [apply Z.eqb_eq in E|apply Z.eqb_neq in E];
        by rewrite date_new_first_of_month in Hnone by lia.
    + intros Hbad. destruct (month_bounds y m) as [[a b]|] eqn:E; [|done].
      pose proof (month_bounds_Some _ _ _ _ E) as (Hy & Hm & _ & -> & _ & Hb).
      destruct Hbad. split; [done|]. split; [done|]. intros ->.
      simpl in Hb. apply well_formed_bounds in Hb. simpl in Hb. lia.
Qed.

Lemma isoformat_not_empty (d : Py.date) : Py.isoformat d ≠ EmptyString.
Proof. unfold Py.isoformat, Py.pad4. by rewrite append_cons. Qed.

Section MonthAgenda.
Context {RT : Runtime}.
Hypothesis Hsorts : sorts.

(** X20: the agenda of a month, as [main] asks for it (the two bounds of
    [month_bounds], each as [isoformat] text), holds the services of that
    month and no other: a service whose date is the [isoformat] text of a
    date of the calendar is in it exactly when the year and the month of
    that date are the ones asked for.  ([date()] is taken to read such a
    text as itself.) *)
Theorem agenda_of_month (y m : Z) (a b d : Py.date) (file : store)
    (r : Joined.row) :
  month_bounds y m = Some (a, b) →
  (∀ x, well_formed x → sqlite_date (Py.isoformat x) = Some (Py.isoformat x)) →
  well_formed d →
  Service.service_date (Joined.service r) = Py.isoformat d →
  r ∈ select_services (Some (Py.isoformat a)) (Some (Py.isoformat b)) file
  ↔ r ∈ select_services None None file
    ∧ Py.year d = y ∧ Py.month d = m.
Proof.
  intros Hmb Hiso Hd Hr.
  pose proof (month_bounds_Some _ _ _ _ Hmb) as (_ & _ & _ & _ & Ha & Hb).
  rewrite !(elem_of_select_services Hsorts). unfold selected. rewrite Hr.
  rewrite <- (month_holds_date y m a b d Hmb Hd).
  rewrite <- (in_range_isoformat a b d) by auto.
  pose proof (isoformat_not_empty a). pose proof (isoformat_not_empty b).
  tauto.
Qed.

End MonthAgenda.

(** ** The summary, again *)







(** ** The export *)

Section ExportProperties.
Context {RT : Runtime} {PD : Pandas}.
Hypothesis Hsorts : sorts.

Lemma export_where_no_bound (start end_ : option string) (r : Joined.row) :
  start = None ∨ end_ = None → export_where start end_ r = false.
Proof.
  unfold export_where, sql_ge, sql_lt.
  intros [-> | ->]; simpl;
    destruct (sqlite_date _); try done;
    [destruct (end_ ≫= sqlite_date)|destruct (start ≫= sqlite_date)];
    simpl; try done;
    by destruct (String.ltb _ _) || by destruct (String.leb _ _).
Qed.

(** X22: the workbook holds what the screen shows.  With two bounds that
    are not empty, the rows of the sheet "Agenda" are the rows of the
    agenda for the same bounds, each once and in ascending order of date
    and time, without the two key columns; the sheet "Clientes" holds the
    rows of the directory in ascending order of name, without the key.
    The export reads the database itself, so it shows this even when a
    cache is out of date.  With a bound that is missing the sheet
    "Agenda" is empty (where the agenda would list every service), and on
    an empty sheet the column of dates is not converted. *)
Theorem export_matches_agenda (start end_ : option string) (file : store) :
  (∀ s e, start = Some s → end_ = Some e →
          s ≠ EmptyString → e ≠ EmptyString →
          ∃ rows,
            agenda_sheet (export_excel start end_ file)
            = agenda_sheet_row <$> rows
            ∧ rows ≡ₚ select_services start end_ file
            ∧ StronglySorted agenda_le rows)
  ∧ (∃ rows,
       clientes_sheet (export_excel start end_ file)
       = clientes_sheet_row <$> rows
       ∧ rows ≡ₚ select_clients file
       ∧ StronglySorted directory_le rows)
  ∧ (start = None ∨ end_ = None →
     agenda_sheet (export_excel start end_ file) = [])
  ∧ (length (agenda_sheet (export_excel start end_ file))
     ≤ size (services file))%nat
  ∧ (agenda_sheet (export_excel start end_ file) = [] →
     fecha_dates (export_excel start end_ file) = None).
Proof.
  split; [|split; [|split; [|split]]].
  - intros s e -> -> Hs He. unfold export_excel. simpl.
    eexists. split; [reflexivity|].
    split; [|by apply order_by_date_time_sorted].
    rewrite select_services_some by done.
    by rewrite !(order_by_Permutation Hsorts).
  - exists (select_clients file). split; [done|]. split; [done|].
    by apply select_clients_sorted.
  - intros Hnone. unfold export_excel. simpl.
    assert (Hnil : List.filter (export_where start end_)
                     (left_join (clients file) <$> table_scan (services file))
                   = []).
    { induction (left_join (clients file) <$> table_scan (services file))
        as [|r l IH]; [done|]. simpl.
      by rewrite export_where_no_bound. }
    rewrite Hnil.
    by rewrite (proj1 (Permutation_nil_r _)
                  (order_by_Permutation Hsorts by_date_time [])).
  - unfold export_excel. simpl.
    rewrite length_fmap, (order_by_Permutation Hsorts).
    rewrite <- table_scan_length,
      <- (length_fmap (left_join (clients file))).
    apply List.filter_length_le.
  - unfold export_excel. simpl. by intros ->.
Qed.

End ExportProperties.

(** ** The edit form left as it opens *)

Lemma elem_of_client_map_keys (l : list (Z * Client.row)) (n : string) :
  n ∈ client_map_keys l ↔ ∃ row, row ∈ l ∧ Client.name row.2 = n.
Proof.
  unfold client_map_keys. induction l as [|x l IH] using rev_ind.
  - simpl. split; [by intros ?%elem_of_nil|].
    intros (row & Hin & _). by apply elem_of_nil in Hin.
  - rewrite foldl_app. simpl. case_decide as Hx.
    + rewrite IH. split.
      * intros (row & Hin & Hn). exists row. rewrite elem_of_app. tauto.
      * intros (row & Hin & Hn). apply elem_of_app in Hin as [Hin|Hin].
        -- by exists row.
        -- apply list_elem_of_singleton in Hin. subst row. apply IH.
           by rewrite <- Hn.
    + rewrite elem_of_app, IH, list_elem_of_singleton. split.
      * intros [(row & Hin & Hn) | ->].
        -- exists row. rewrite elem_of_app. tauto.
        -- exists x. rewrite elem_of_app, list_elem_of_singleton. tauto.
      * intros (row & Hin & Hn). apply elem_of_app in Hin as [Hin|Hin].
        -- left. by exists row.
        -- apply list_elem_of_singleton in Hin. subst row. by right.
Qed.

Lemma turned_round (cm : gmap string Z) (ks : list string) (k : Z)
    (n : string) :
  (∀ n1 n2 v, cm !! n1 = Some v → cm !! n2 = Some v → n1 = n2) →
  foldl (λ (m : gmap Z string) n, match cm !! n with
                                   | Some v => <[v := n]> m
                                   | None => m
                                   end) ∅ ks !! k = Some n
  ↔ n ∈ ks ∧ cm !! n = Some k.
Proof.
  intros Hinj. induction ks as [|x ks IH] using rev_ind.
  - simpl. rewrite lookup_empty. split; [done|].
    intros [Hin _]. by apply elem_of_nil in Hin.
  - rewrite foldl_app. simpl. rewrite elem_of_app, list_elem_of_singleton.
    destruct (cm !! x) as [v|] eqn:Hx.
    + destruct (decide (v = k)) as [->|Hv].
      * rewrite lookup_insert_eq. split.
        -- intros [= <-]. tauto.
        -- intros [_ Hn]. f_equal. by apply (Hinj x n k).
      * rewrite lookup_insert_ne by done. rewrite IH. split; [tauto|].
        intros [[Hin | ->] Hn]; [done|]. congruence.
    + rewrite IH. split; [tauto|].
      intros [[Hin | ->] Hn]; [done|]. congruence.
Qed.

Lemma list_index_elem_of (x : string) (l : list string) :
  x ∈ l → ∃ i, list_index x l = Some i ∧ l !! i = Some x.
Proof.
  induction l as [|y l IH]; [by intros ?%elem_of_nil|].
  intros Hin. simpl. case_decide as Hy.
  - exists 0%nat. by subst.
  - apply elem_of_cons in Hin as [->|Hin]; [done|].
    destruct (IH Hin) as (i & Hi & Hl). exists (S i). by rewrite Hi.
Qed.

Section EditForm.
Context {RT : Runtime}.
Hypothesis Hsorts : sorts.

Lemma inv_client_map_spec (file : store) (k : Z) (n : string) :
  inv_client_map (select_clients file) !! k = Some n
  ↔ client_map_of (select_clients file) !! n = Some k.
Proof.
  unfold inv_client_map. rewrite turned_round.
  - split; [tauto|]. intros Hn. split; [|done].
    rewrite client_map_of_last in Hn.
    destruct (last _) as [row|] eqn:E; [|done].
    apply last_filter_name in E as [Hin Hname].
    apply elem_of_client_map_keys. eauto.
  - intros n1 n2 v H1 H2.
    apply (client_map_of_client Hsorts) in H1 as (c1 & Hc1 & <-).
    apply (client_map_of_client Hsorts) in H2 as (c2 & Hc2 & <-).
    congruence.
Qed.

Lemma client_name_edit_default_current (file : store) (client_id : option Z) :
  client_name_edit_default (select_clients file) client_id
  = current_client_name (select_clients file) client_id.
Proof.
  unfold client_name_edit_default.
  set (current := current_client_name (select_clients file) client_id).
  set (options := "(Sin cliente)"%string
                    :: client_map_keys (select_clients file)).
  assert (Hin : current ∈ options).
  { unfold current, current_client_name, options.
    destruct client_id as [k|]; simpl; [|apply list_elem_of_here].
    destruct (inv_client_map (select_clients file) !! k) as [n|] eqn:Hk;
      simpl; [|apply list_elem_of_here].
    apply list_elem_of_further, elem_of_client_map_keys.
    apply inv_client_map_spec in Hk. rewrite client_map_of_last in Hk.
    destruct (last _) as [row|] eqn:E; [|done].
    apply last_filter_name in E as [Hrow Hname]. eauto. }
  rewrite decide_True by done.
  destruct (list_index_elem_of _ _ Hin) as (i & -> & Hi). simpl.
  by rewrite Hi.
Qed.

(** X23: "Guardar cambios" on the edit form of a service, with the client
    left as the form shows it.  The form shows the client of the service
    when the dictionary of the form has that client under its name, and
    the service then keeps its client; otherwise it shows "(Sin cliente)"
    and saving takes the client off the service.  A client whose name no
    other client has is shown.  Of two clients of one name the form shows
    one at most: the services of the other lose their client when they
    are saved.  A service without a client, or with a client that is not
    in the table, is saved without a client. *)
Theorem untouched_form_client (i : Z) (row : Service.row) (d : Py.date)
    (hh mm : Z) (ty : string) (am : Z) (st no : string) (w : world) :
  int64 i → services (db w) !! i = Some row →
  st = "Pendiente"%string ∨ st = "Pagado"%string →
  (∀ k, is_Some (clients (db w) !! k) → int64 k) →
  let clients_df := select_clients (db w) in
  let choice := client_name_edit_default clients_df (Service.client_id row) in
  let saved :=
    Service.client_id
      <$> services
            (db (press (GuardarCambiosServicio i (client_map_of clients_df)
                          choice d hh mm ty am st no) w).1) !! i in
  (∀ k c, Service.client_id row = Some k →
          clients (db w) !! k = Some c →
          Client.name c ≠ "(Sin cliente)"%string →
          (client_map_of clients_df !! Client.name c = Some k →
           choice = Client.name c ∧ saved = Some (Some k))
          ∧ (client_map_of clients_df !! Client.name c ≠ Some k →
             choice = "(Sin cliente)"%string ∧ saved = Some None)
          ∧ ((∀ k' c', clients (db w) !! k' = Some c' →
                       Client.name c' = Client.name c → k' = k) →
             choice = Client.name c ∧ saved = Some (Some k))
          ∧ (∀ k' c', clients (db w) !! k' = Some c' →
                      Client.name c' = Client.name c → k' ≠ k →
                      choice = Client.name c →
                      client_name_edit_default clients_df (Some k')
                      = "(Sin cliente)"%string))
  ∧ (Service.client_id row = None
     ∨ (∃ k, Service.client_id row = Some k ∧ clients (db w) !! k = None) →
     choice = "(Sin cliente)"%string ∧ saved = Some None).
Proof.
  intros Hint Hrow Hst Hkeys clients_df choice saved.
  subst saved choice clients_df.
  assert (Hsaved : ∀ choice,
            Service.client_id
              <$> services
                    (db (press (GuardarCambiosServicio i
                                  (client_map_of (select_clients (db w)))
                                  choice d hh mm ty am st no) w).1) !! i
            = Some (if String.eqb choice "(Sin cliente)" then None
                    else client_map_of (select_clients (db w)) !! choice)).
  { intros choice. cbn [press]. unfold guardar_cambios_servicio.
    rewrite write_clear_run. cbn [run_op]. rewrite update_service_eq.
    rewrite exec_stmt_bound.
    - cbn [exec_bound]. rewrite Hrow.
      assert (Hs : status_check (Some st) = true).
      { destruct Hst as [-> | ->]; reflexivity. }
      rewrite service_row_ok by done. simpl. by rewrite lookup_insert_eq.
    - apply update_service_binds. split; [done|]. split; [|done].
      intros k Hk. destruct (String.eqb choice "(Sin cliente)"); [done|].
      apply (client_map_of_client Hsorts) in Hk as (c & Hc & _).
      apply Hkeys. eauto. }
  rewrite Hsaved. clear Hsaved.
  assert (Hdefault : ∀ c,
            client_name_edit_default (select_clients (db w)) c
            = default "(Sin cliente)"%string
                (c ≫= λ k, inv_client_map (select_clients (db w)) !! k)).
  { intros c. apply client_name_edit_default_current. }
  assert (Hinv_name : ∀ k c n,
            clients (db w) !! k = Some c →
            inv_client_map (select_clients (db w)) !! k = Some n →
            n = Client.name c).
  { intros k c n Hc Hinv. apply inv_client_map_spec in Hinv.
    apply (client_map_of_client Hsorts) in Hinv as (c0 & Hc0 & <-).
    congruence. }
  rewrite !Hdefault.
  split.
  - intros k c -> Hc Hname. simpl.
    assert (Hshown : client_map_of (select_clients (db w)) !! Client.name c
                     = Some k →
              default "(Sin cliente)"%string
                (inv_client_map (select_clients (db w)) !! k)
              = Client.name c
              ∧ Some (if String.eqb
                           (default "(Sin cliente)"%string
                              (inv_client_map (select_clients (db w)) !! k))
                           "(Sin cliente)"
                      then None
                      else client_map_of (select_clients (db w))
                           !! default "(Sin cliente)"%string
                                (inv_client_map (select_clients (db w))
                                 !! k))
                = Some (Some k)).
    { intros Hcm. pose proof Hcm as Hinv.
      apply inv_client_map_spec in Hinv. rewrite Hinv. simpl.
      split; [done|]. apply String.eqb_neq in Hname.
      by rewrite Hname, Hcm. }
    split; [exact Hshown|]. split; [|split].
    + intros Hcm.
      destruct (inv_client_map (select_clients (db w)) !! k) as [n|] eqn:Hinv;
        [|done].
      pose proof (Hinv_name k c n Hc Hinv) as ->.
      by apply inv_client_map_spec in Hinv.
    + intros Honly. apply Hshown.
      destruct (last_filter_some (select_clients (db w)) (Client.name c)
                  (k, c)) as [[k' c'] Hlast];
        [by apply (elem_of_select_clients Hsorts)|done|].
      rewrite client_map_of_last, Hlast. simpl. f_equal.
      apply last_filter_name in Hlast as [Hin Hn'].
      apply (elem_of_select_clients Hsorts) in Hin. by eapply Honly.
    + intros k' c' Hc' Hn Hne Hchoice. rewrite Hdefault. simpl.
      destruct (inv_client_map (select_clients (db w)) !! k') as [n'|]
        eqn:Hinv'; [|done].
      pose proof (Hinv_name k' c' n' Hc' Hinv') as ->.
      apply inv_client_map_spec in Hinv'. exfalso.
      destruct (inv_client_map (select_clients (db w)) !! k) as [n|]
        eqn:Hinv; simpl in Hchoice; [|congruence].
      subst n. apply inv_client_map_spec in Hinv.
      rewrite Hn in Hinv'. congruence.
  - intros [-> | (k & -> & Hc)]; simpl; [done|].
    destruct (inv_client_map (select_clients (db w)) !! k) as [n|] eqn:Hinv;
      [|done].
    apply inv_client_map_spec in Hinv.
    apply (client_map_of_client Hsorts) in Hinv as (c0 & Hc0 & _).
    congruence.
Qed.

End EditForm.

(** ** The further properties on the sample data *)

(** The export of December 2024 of the sample. *)
Example sample_export :
  let book :=
    export_excel (RT:=reference_runtime) (PD:=reference_pandas)
      (Some "2024-12-01"%string) (Some "2025-01-01"%string) sample_store in
  AgendaSheet.Cliente <$> agenda_sheet book
  = [Some "Luis"%string; Some "Ana"%string; Some "Luis"%string]
  ∧ fecha_dates book
    = Some [Py.Date 2024 12 1; Py.Date 2024 12 15; Py.Date 2024 12 15]
  ∧ ClientesSheet.Cliente <$> clientes_sheet book
    = ["Ana"%string; "Luis"%string].
Proof. vm_compute. auto. Qed.

(** Two clients named "Ana", keys 2 and 3.  With the sorter that leaves
    equal rows as the table has them, a service for a new client "Ana"
    goes to client 2, and the edit form has client 3 under the name. *)
Example sample_namesake :
  let w :=
    (press (RT:=reference_runtime)
       (AgregarServicio 0 "(Nuevo cliente)" None "Ana" "555-0103" "Calle 3"
          EmptyString (Py.Date 2025 2 3) 16 45 "Desratizacion" 350
          "Pendiente" EmptyString) sample_world).1 in
  (λ r, (r.1, Client.name r.2))
    <$> select_clients (RT:=reference_runtime) (db w)
  = [(2, "Ana"%string); (3, "Ana"%string); (1, "Luis"%string)]
  ∧ Service.client_id <$> services (db w) !! 5 = Some (Some 2)
  ∧ client_map_of (select_clients (RT:=reference_runtime) (db w))
    !! "Ana"%string = Some 3.
Proof. vm_compute. auto. Qed.

Lemma int64_sample_keys :
  ∀ k, is_Some (clients sample_store !! k) → int64 k.
Proof.
  intros k [c Hc]. revert k c Hc.
  apply (proj1 (map_Forall_lookup (λ k _, int64 k) (clients sample_store))).
  refine (bool_decide_unpack _ _). vm_compute. exact I.
Qed.

Lemma int64_namesake_keys :
  ∀ k, is_Some (clients namesake_store !! k) → int64 k.
Proof.
  intros k [c Hc]. revert k c Hc.
  apply (proj1 (map_Forall_lookup (λ k _, int64 k)
                  (clients namesake_store))).
  refine (bool_decide_unpack _ _). vm_compute. exact I.
Qed.

Lemma writes_all_or_nothing_witness :
  (with_connection_faulty 1 (op_steps (RT:=reference_runtime)
                               (OpDeleteClient 1)) sample_store).1
  = sample_store
  ∧ interrupted 1 (op_steps (RT:=reference_runtime) (OpDeleteClient 1))
      sample_store = sample_store.
Proof.
  apply (proj1 (proj2 (proj2 (writes_all_or_nothing (RT:=reference_runtime)
                                (OpDeleteClient 1) 1 sample_store)))).
  simpl. lia.
Defined.

Lemma service_constraints_witness :
  add_service (Some "2025-02-03"%string) None None None None
    (Some "Cancelado"%string) None sample_store
  = (sample_store, Raise IntegrityError).
Proof.
  apply (proj1 (proj2 (service_constraints (Some "2025-02-03"%string) None
                         None None None (Some "Cancelado"%string) None
                         sample_store))).
  - split; intros ? H; discriminate H.
  - vm_compute. reflexivity.
  - intros [_ [H | [H | H]]]; discriminate H.
Defined.

Lemma keys_never_reused_witness :
  services
    (run_ops (RT:=reference_runtime)
       [OpAddService (Some "2025-02-03"%string) None None None None None
          None]
       (run_ops (RT:=reference_runtime) (sample_ops ++ [OpDeleteService 4])
          empty_store)) !! 4 = None.
Proof.
  assert (Hempty : ids_ok empty_store).
  { split; intros k [x Hx]; simpl in Hx; rewrite lookup_empty in Hx;
      discriminate Hx. }
  apply (keys_never_reused (RT:=reference_runtime)
           [OpAddService (Some "2025-02-03"%string) None None None None None
              None]
           (run_ops (RT:=reference_runtime)
              (sample_ops ++ [OpDeleteService 4]) empty_store)).
  - apply (keys_never_reused (RT:=reference_runtime)
             (sample_ops ++ [OpDeleteService 4]) empty_store Hempty).
  - vm_compute. discriminate.
  - vm_compute. reflexivity.
Defined.

Lemma delete_client_agenda_witness :
  select_services (RT:=reference_runtime) None None
    (delete_client 1 sample_store).1
  ≡ₚ forget_client 1
       <$> select_services (RT:=reference_runtime) None None sample_store.
Proof.
  assert (Hint : int64 1) by (unfold int64; lia).
  exact (delete_client_agenda (RT:=reference_runtime) reference_sorts 1 None
           None sample_store Hint).
Defined.

Lemma delete_service_removes_witness :
  get_service_by_id 4 (delete_service 4 sample_store).1 = Ok None.
Proof.
  assert (Hint : int64 4) by (unfold int64; lia).
  exact (proj1 (proj2 (delete_service_removes (RT:=reference_runtime)
                         reference_sorts 4 None None sample_store Hint))).
Defined.

Lemma update_client_shows_witness :
  clients (update_client (RT:=reference_runtime) 2 " Ana Maria " "555-0199"
             "Calle 9" EmptyString sample_store).1 !! 2
  = Some (Client.Row (@py_strip reference_runtime " Ana Maria ")
            (Some (@py_strip reference_runtime "555-0199"))
            (Some (@py_strip reference_runtime "Calle 9"))
            (Some (@py_strip reference_runtime EmptyString))).
Proof.
  assert (Hint : int64 2) by (unfold int64; lia).
  assert (Hsome : is_Some (clients sample_store !! 2)).
  { eexists. vm_compute. reflexivity. }
  exact (proj1 (proj2 (update_client_shows (RT:=reference_runtime)
                         reference_sorts 2 " Ana Maria " "555-0199"
                         "Calle 9" EmptyString None None sample_store Hint
                         Hsome))).
Defined.

Lemma add_client_lists_witness :
  ∃ k, clients sample_store !! k = None
       ∧ clients_seq sample_store < k
       ∧ (k, Client.Row (@py_strip reference_runtime "Eva ")
               (Some (@py_strip reference_runtime "555-0104"))
               (Some (@py_strip reference_runtime "Calle 4"))
               (Some (@py_strip reference_runtime EmptyString)))
         ∈ select_clients (RT:=reference_runtime)
             (add_client (RT:=reference_runtime) "Eva " "555-0104" "Calle 4"
                EmptyString sample_store).1.
Proof.
  destruct (add_client_lists (RT:=reference_runtime) reference_sorts "Eva "
              "555-0104" "Calle 4" EmptyString sample_store)
    as (k & _ & Hnone & Hlt & Hmem); [vm_compute; reflexivity|].
  exists k. split; [exact Hnone|]. split; [exact Hlt|].
  apply Hmem. right. reflexivity.
Defined.

Lemma add_service_agenda_witness :
  ∃ row,
    services (add_service (Some "2024-12-24"%string) (Some "12:00"%string)
                (Some 2) None (Some (Int 10)) None None sample_store).1
    = <[services_seq
          (add_service (Some "2024-12-24"%string) (Some "12:00"%string)
             (Some 2) None (Some (Int 10)) None None sample_store).1
        := row]> (services sample_store)
    ∧ select_services (RT:=reference_runtime) None None sample_store
      ≡ₚ filter (λ r, Joined.id r
                      ≠ services_seq
                          (add_service (Some "2024-12-24"%string)
                             (Some "12:00"%string) (Some 2) None
                             (Some (Int 10)) None None sample_store).1)
           (select_services (RT:=reference_runtime) None None
              (add_service (Some "2024-12-24"%string) (Some "12:00"%string)
                 (Some 2) None (Some (Int 10)) None None sample_store).1).
Proof.
  destruct (add_service_agenda (RT:=reference_runtime) reference_sorts
              (Some "2024-12-24"%string) (Some "12:00"%string) (Some 2) None
              (Some (Int 10)) None None sample_store
              (add_service (Some "2024-12-24"%string) (Some "12:00"%string)
                 (Some 2) None (Some (Int 10)) None None sample_store).1)
    as (row & Hrow & _ & _ & Hagenda & _); [vm_compute; reflexivity|].
  exists row. split; [exact Hrow|exact (Hagenda None None)].
Defined.

Lemma update_service_overwrites_witness :
  ∃ row,
    get_service_by_id 2
      (update_service 2 (Some "2024-12-16"%string) None (Some 1)
         (Some "Control de plagas"%string) (Some (Int 80))
         (Some "Pagado"%string) None sample_store).1 = Ok (Some (2, row))
    ∧ Service.service_time row = None
    ∧ Service.amount row = to_real <$> Some (Int 80).
Proof.
  destruct (update_service_overwrites 2 (Some "2024-12-16"%string) None
              (Some 1) (Some "Control de plagas"%string) (Some (Int 80))
              (Some "Pagado"%string) None sample_store
              (update_service 2 (Some "2024-12-16"%string) None (Some 1)
                 (Some "Control de plagas"%string) (Some (Int 80))
                 (Some "Pagado"%string) None sample_store).1)
    as (row & Hget & _ & Htime & _ & _ & Hamount & _).
  - eexists. vm_compute. reflexivity.
  - vm_compute. reflexivity.
  - exists row. split; [exact Hget|]. split; [exact Htime|exact Hamount].
Defined.

Lemma references_kept_witness : referential_integrity sample_store.
Proof.
  apply (proj1 (references_kept (RT:=reference_runtime) sample_ops
                  empty_store)).
  - vm_compute. repeat split; intros k [= <-]; eexists; reflexivity.
  - intros sid r c Hsid. simpl in Hsid. rewrite lookup_empty in Hsid.
    discriminate Hsid.
Defined.

Lemma directory_complete_witness :
  length (select_clients (RT:=reference_runtime) sample_store)
  = size (clients sample_store).
Proof.
  exact (proj2 (proj2 (proj2 (directory_complete (RT:=reference_runtime)
                                reference_sorts sample_store)))).
Defined.

Lemma stale_until_expiry_witness :
  get_clients_df (RT:=reference_runtime) 4999
    (dal (RT:=reference_runtime) (OpDeleteClient 1)
       (get_clients_df (RT:=reference_runtime) 0
          (start_world sample_store)).1).1
  = ((dal (RT:=reference_runtime) (OpDeleteClient 1)
        (get_clients_df (RT:=reference_runtime) 0
           (start_world sample_store)).1).1,
     Ok (select_clients (RT:=reference_runtime)
           (db (start_world sample_store)))).
Proof.
  apply (proj1 (stale_until_expiry (RT:=reference_runtime) (OpDeleteClient 1)
                  0 4999 (start_world sample_store) eq_refl)).
  lia.
Defined.

Lemma agregar_nuevo_padded_name_witness :
  ∃ w' k,
    press (RT:=reference_runtime)
      (AgregarServicio 0 "(Nuevo cliente)" None " Eva" "555-0104" "Calle 4"
         EmptyString (Py.Date 2025 2 3) 16 45 "Desratizacion" 350
         "Pendiente" EmptyString) sample_world
    = (w', Raise IndexError)
    ∧ services (db w') = services (db sample_world)
    ∧ clients (db sample_world) !! k = None.
Proof.
  destruct (agregar_nuevo_padded_name (RT:=reference_runtime)
              reference_sorts 0 None " Eva"
              "555-0104" "Calle 4" EmptyString (Py.Date 2025 2 3) 16 45
              "Desratizacion" 350 "Pendiente" EmptyString sample_world)
    as (w' & k & Hpress & Hservices & Hnone & _).
  - discriminate.
  - discriminate.
  - apply (proj1 (map_Forall_lookup
                    (λ _ c, Client.name c ≠ " Eva"%string)
                    (clients (db sample_world)))).
    refine (bool_decide_unpack _ _). vm_compute. exact I.
  - vm_compute. reflexivity.
  - exists w', k. split; [exact Hpress|]. split; [exact Hservices|].
    exact Hnone.
Defined.

Lemma agregar_nuevo_attaches_witness :
  ∃ w' k0 c0,
    press (RT:=reference_runtime)
      (AgregarServicio 0 "(Nuevo cliente)" None "Ana" "555-0103" "Calle 3"
         EmptyString (Py.Date 2025 2 3) 16 45 "Desratizacion" 350
         "Pendiente" EmptyString) sample_world
    = (w', Ok tt)
    ∧ clients (db w') !! k0 = Some c0
    ∧ Client.name c0 = "Ana"%string.
Proof.
  destruct (agregar_nuevo_attaches (RT:=reference_runtime) reference_sorts
              0 None "Ana"
              "555-0103" "Calle 3" EmptyString (Py.Date 2025 2 3) 16 45
              "Desratizacion" 350 "Pendiente" EmptyString sample_world)
    as (w' & kc & ks & k0 & c0 & Hpress & _ & _ & _ & _ & Hc0 & Hname & _).
  - discriminate.
  - reflexivity.
  - left. reflexivity.
  - exact int64_sample_keys.
  - vm_compute. reflexivity.
  - vm_compute. reflexivity.
  - exists w', k0, c0. split; [exact Hpress|]. split; [exact Hc0|].
    exact Hname.
Defined.

Lemma blank_name_checked_at_creation_witness :
  press (RT:=reference_runtime)
    (GuardarClienteNuevo "  " "555-0104" "Calle 4" EmptyString) sample_world
  = (sample_world, Ok tt).
Proof.
  apply (blank_name_checked_at_creation (RT:=reference_runtime) "  "
           "555-0104" "Calle 4" EmptyString sample_world).
  reflexivity.
Defined.

Lemma guardar_cambios_assigns_witness :
  (press (RT:=reference_runtime)
     (GuardarCambiosServicio 1
        (client_map_of
           (select_clients (RT:=reference_runtime)
              (db (start_world namesake_store))))
        "Ana" (Py.Date 2024 12 1) 10 0 "Fumigacion general" 100 "Pagado"
        EmptyString)
     (start_world namesake_store)).2 = Ok tt.
Proof.
  assert (Hint : int64 1) by (unfold int64; lia).
  assert (Hrow : is_Some (services (db (start_world namesake_store)) !! 1)).
  { eexists. vm_compute. reflexivity. }
  exact (proj1 (proj2 (proj2 (proj2
           (guardar_cambios_assigns (RT:=reference_runtime) reference_sorts
              1 "Ana" (Py.Date 2024 12 1) 10 0 "Fumigacion general" 100
              "Pagado" EmptyString (start_world namesake_store) Hint Hrow
              (or_intror eq_refl) int64_namesake_keys))))).
Defined.

Lemma forms_write_complete_rows_witness :
  form_rows
    (db (press (RT:=reference_runtime)
           (AgregarServicio 0 "Ana" (Some 2) EmptyString EmptyString
              EmptyString EmptyString (Py.Date 2025 2 3) 16 45
              "Desratizacion" 350 "Pendiente" EmptyString)
           (start_world empty_store)).1).
Proof.
  apply (forms_write_complete_rows (RT:=reference_runtime)
           (AgregarServicio 0 "Ana" (Some 2) EmptyString EmptyString
              EmptyString EmptyString (Py.Date 2025 2 3) 16 45
              "Desratizacion" 350 "Pendiente" EmptyString)
           (start_world empty_store)).
  - simpl. unfold form_values_ok.
    split; [reflexivity|]. split; [lia|]. split; [lia|]. split; [lia|].
    left. reflexivity.
  - apply map_Forall_empty.
Defined.

Lemma month_bounds_hold_the_month_witness :
  date_compare (Py.Date 2024 12 1) (Py.Date 2024 12 15) ≠ Gt
  ∧ date_compare (Py.Date 2024 12 15) (Py.Date 2025 1 1) = Lt.
Proof.
  apply (proj1 (month_bounds_hold_the_month 2024 12) (Py.Date 2024 12 1)
           (Py.Date 2025 1 1) (Py.Date 2024 12 15)).
  - reflexivity.
  - reflexivity.
  - split; reflexivity.
Defined.

Lemma agenda_of_month_witness :
  left_join (clients sample_store)
    (2, Service.Row "2024-12-15" (Some "09:30"%string) (Some 2)
          (Some "Fumigacion general"%string) (Some 50)
          (Some "Pendiente"%string) (Some EmptyString))
  ∈ select_services (RT:=reference_runtime)
      (Some (Py.isoformat (Py.Date 2024 12 1)))
      (Some (Py.isoformat (Py.Date 2025 1 1))) sample_store.
Proof.
  apply (agenda_of_month (RT:=reference_runtime) reference_sorts 2024 12
           (Py.Date 2024 12 1) (Py.Date 2025 1 1) (Py.Date 2024 12 15)
           sample_store).
  - reflexivity.
  - intros x Hx. apply iso_date_isoformat, Hx.
  - reflexivity.
  - reflexivity.
  - split; [|split; reflexivity].
    apply list_elem_of_In. vm_compute. tauto.
Defined.

Lemma export_matches_agenda_witness :
  agenda_sheet
    (export_excel (RT:=reference_runtime) (PD:=reference_pandas)
       (Some "2024-12-01"%string) None sample_store) = [].
Proof.
  apply (proj1 (proj2 (proj2 (export_matches_agenda (RT:=reference_runtime)
                                (PD:=reference_pandas) reference_sorts
                                (Some "2024-12-01"%string) None
                                sample_store)))).
  right. reflexivity.
Defined.

Lemma untouched_form_client_witness :
  client_name_edit_default
    (select_clients (RT:=reference_runtime) (db (start_world namesake_store)))
    (Service.client_id
       (Service.Row "2024-12-15" (Some "09:30"%string) (Some 2)
          (Some "Fumigacion general"%string) (Some 50)
          (Some "Pendiente"%string) (Some EmptyString)))
  = "(Sin cliente)"%string
  ∧ Service.client_id
      <$> services
            (db (press (RT:=reference_runtime)
                   (GuardarCambiosServicio 2
                      (client_map_of
                         (select_clients (RT:=reference_runtime)
                            (db (start_world namesake_store))))
                      (client_name_edit_default
                         (select_clients (RT:=reference_runtime)
                            (db (start_world namesake_store)))
                         (Service.client_id
                            (Service.Row "2024-12-15" (Some "09:30"%string)
                               (Some 2) (Some "Fumigacion general"%string)
                               (Some 50) (Some "Pendiente"%string)
                               (Some EmptyString))))
                      (Py.Date 2024 12 15) 9 30 "Fumigacion general" 50
                      "Pendiente" EmptyString)
                   (start_world namesake_store)).1) !! 2
    = Some None.
Proof.
  assert (Hint : int64 2) by (unfold int64; lia).
  assert (Hrow : services (db (start_world namesake_store)) !! 2
                 = Some (Service.Row "2024-12-15" (Some "09:30"%string)
                           (Some 2) (Some "Fumigacion general"%string)
                           (Some 50) (Some "Pendiente"%string)
                           (Some EmptyString))).
  { vm_compute. reflexivity. }
  assert (Hc : clients (db (start_world namesake_store)) !! 2
               = Some (Client.Row "Ana" (Some "555-0101"%string)
                         (Some "Calle 1"%string) (Some EmptyString))).
  { vm_compute. reflexivity. }
  refine (proj1 (proj2 (proj1
            (untouched_form_client (RT:=reference_runtime) reference_sorts 2
               (Service.Row "2024-12-15" (Some "09:30"%string) (Some 2)
                  (Some "Fumigacion general"%string) (Some 50)
                  (Some "Pendiente"%string) (Some EmptyString))
               (Py.Date 2024 12 15) 9 30 "Fumigacion general" 50
               "Pendiente" EmptyString (start_world namesake_store) Hint
               Hrow (or_introl eq_refl) int64_namesake_keys)
            2 (Client.Row "Ana" (Some "555-0101"%string)
                 (Some "Calle 1"%string) (Some EmptyString))
            eq_refl Hc _)) _).
  - discriminate.
  - vm_compute. discriminate.
Defined.
